(* ===== verification/_CoqProject ===== *)
-Q . S2P
Prelude.v
Api.v
Lottery.v
Reentrancy.v
Fairness.v
Abi.v
Js.v
Deploy.v
Dom.v
Address.v
Frontend.v
Wallet.v
Panel.v
