(* ===== verification/Prelude.v ===== *)
(** * Verification of the Dec-lot decentralized lottery

    Dec-lot is a single-round prize lottery on an Ethereum chain: any
    account buys entries at a fixed ticket price, the administrator draws
    one winner from the entries, pays the whole pool to the winner and
    resets the round.  The repository holds three layers:

    - the on-chain engine (the Solidity contract [Lottery], compiled with
      solc 0.8.0 according to [src/hardhat.config.js]).  Its source is not
      in the repository's [src/] tree: it is modelled from the design
      document (spec.md §3-§7) and every definition of it is marked
      [spec_modelled] in the manifest;
    - the browser front end ([src/frontend/lottery.js], [admin.js],
      [user.js]): the contract's ABI as data, the status banner, the
      detail panel, the wallet connection and the four transaction
      buttons;
    - the deployment script ([src/scripts/deploy.js]): gas pricing,
      the funds check, the progress dots and the post-deployment checks.

    ** Library layout (in dependency order, see _CoqProject)

    - [Prelude] (this file): the [result] error monad of the development
      with its notation in [lottery_scope], Solidity's [require], uint256
      and address ranges with checked addition, the [lottery] hint
      database, the [inv_ok] tactic and the generic list lemmas.
    - [Api]: the interface the contract offers to its clients, as the
      typeclasses [LotteryApi] (the ABI's view functions and
      transactions) and [LotteryApiLaws] (what a client may rely on).
      Front-end theorems are proved against this interface only.
    - [Lottery]: the engine.  [LotteryState] is the contract storage
      (spec §3); one Module per component of spec §2: [AccessControl]
      ([requireAdmin]), [TicketLedger] ([enter] = [buyTicket]),
      [DrawEngine] ([select_index], [draw] = [drawWinner]),
      [PrizeVault] ([payout_effects], [distribute] = [distributePrize],
      with the checks-effects-interactions order of spec §4.4) and
      [LifecycleController] ([constructor], [reset] = [resetLottery],
      the dispatcher [receive], the step relation [reachable]).
      Theorems: the storage invariant [inv] and its preservation by
      every entry point, the functional behaviour of each entry point on
      every branch (errors included), the phase table of spec §4.5 as an
      abstract machine refined by the contract, fund conservation over
      call sequences and the at-most-one payout per round, the round
      trip open -> draw -> distribute -> reset, and the instance of the
      [Api] interface.
    - [Reentrancy]: the payout of [distributePrize] as a call into the
      winner's code, which may call back into the lottery ([Fallback]);
      [exec] runs a transaction with its nested calls depth-first, down
      to the EVM call depth.  Theorems: funds are conserved under any
      reentrancy (spec §9), and with recipients that make no calls
      [exec] is the oracle model of [Lottery].
    - [Fairness]: how many of [m] equally likely samples make the
      administrator's [drawWinner] pick each entrant ([wins]).  Theorem:
      exactly [m / n], plus one for the first [m mod n] entrants: the
      modulo bias of spec §4.3.
    - [Abi]: the ABI array of lottery.js lines 3-140 as data
      ([contractABI]) and what ethers v5 does with it when a page calls
      [contract.f(...)] ([abi_function], [abi_send_check]: name lookup,
      argument count, no value for a non-payable entry).
      [Frontend.send_tx] runs that check, so the front-end theorems hold
      of the ABI as written.
    - [Js]: the effect of async JavaScript, [JS S A = S -> S * Completion A]
      with normal, thrown and exit completions, [try/catch], [try/finally]
      and its notations in [js_scope].
    - [Deploy]: deploy.js [main] and its [main().catch] wrapper statement
      by statement, the console as an append-only log of [Effect]s, the
      answers of the awaited network reads as a [DeployEnv] (each a
      value or a rejection, [Net]).  BigInt division is [Z.quot].
      Theorems: the deployment request is sent only after every read
      and the funds check, with the scaled gas price; a null gas price
      crashes before the fallback (a code bug); the outcome of the script
      on every path, rejected reads included; the gas price bounds; the
      progress dots; the timeout hint of the [catch] block; a rejected
      code read after the confirmation reported as a failed deployment;
      termination: every run exits or ends with the progress interval
      cleared.
    - [Dom]: the page as a store of elements keyed by id (so that the
      status element shared by every handler is one element), with
      [textContent], [classList] and [disabled]; a property write on
      [undefined] or [null] throws V8's TypeError for that access.
    - [Address]: the address strings ethers returns (EIP-55 casing, the
      keccak-256 nibble test a parameter), [toLowerCase] and [slice].
      Theorems: the case-insensitive comparison of admin.js is address
      equality (by the hex round trip); the shape of the wallet status
      line.
    - [Frontend]: [showStatus] and [loadLotteryDetails] of lottery.js, the
      transaction buttons of admin.js ([triggerDraw], [distributePrize],
      [resetLottery]) and user.js ([buyTicket]) over a [World] (page,
      chain state behind [LotteryApi], connected account, wheel).
      Theorems: the handlers never lose an element or exit, and restore
      their button on every path; a failed load is never reported
      because the callers pass the status element under the wrong key (a
      code bug); the buy flow pays the price it read and is never refused
      as an incorrect payment, with other accounts' transactions
      interleaved, proved from [LotteryApiLaws] alone and applied to the
      contract model of [Lottery]; when the price read is rejected, Buy
      Ticket sends nothing and reports the error in red.
    - [Wallet]: the Connect Wallet handlers of admin.js and user.js
      ([connectWallet_admin], [connectWallet_user]) built from
      [connect_account], [admin_gate] and [open_section], with
      [initWheel]; the footprint predicate [frame] through which the
      handlers' effects compose.  Theorems: the admin section and wheel
      appear exactly for the administrator; failed connections only
      report; a connected non-administrator cannot change the chain from
      the admin page; connecting then buying lands the purchase.
    - [Panel]: the detail panel that [loadLotteryDetails] writes, read
      back as the text of its four elements ([panel_text]), with each of
      the four awaited reads (lottery.js 162-165) answered by its own
      chain state.  Theorems: with one state answering all four, the
      panel shows the price, the count [n] and a pool of price times
      [n]; a purchase landing between the reads of the entries and of
      the pool makes the panel show a count and a pool that no storage
      had together.

    ** Modelling choices

    - Amounts and addresses are [Z]; a uint256 amount lies in
      [0, 2^256), an address in [0, 2^160).  Additions on storage are
      checked as solc 0.8 does: an overflow reverts with Panic(0x11).
    - Errors are values of [result]; a reverted transaction leaves the
      storage unchanged (the host keeps the old state, [run]).
    - The randomness source of a draw is an input sample (spec §4.3);
      the transfer mechanism is an oracle [deliver] that reports
      success or failure (spec §6).
    - The only recursion bounded by a count is [Reentrancy.exec], by the
      call depth ([CALL_DEPTH] = 1024 on the EVM; the theorems hold for
      every depth).  Every entry point and handler is non-recursive.  Call sequences are lists executed by structural
      recursion; the progress interval of deploy.js fires a given number
      of times [k], an input.
    - A promise a handler starts without [await] runs to completion at
      its call ([Frontend.spawn]); transactions of other accounts that
      the chain executes between two awaits are an input list.

    ** Not modelled

    - the rendering code (the Three.js scene of [initWheel]; an anime.js
      animation is recorded as an event), network and wallet I/O beyond
      their success/failure outcome, ethers' formatting functions
      (parameters), and the hardhat configuration: it only names the
      compiler (solc 0.8.0, whose checked arithmetic the contract model
      follows) and the network endpoint read from the environment.
      The console session pasted as comments at the end of deploy.js
      is not code.  Two failures are left out of the connect handlers:
      a rejection of [signer.getAddress()] (admin.js 58, user.js 56)
      after the accounts were granted, and a failure of the WebGL set-up
      inside [initWheel]; both would land in the handler's [catch] like
      the failures that are modelled.  Nothing else of src/ is left
      out: every handler, the deployment script with each of its reads,
      and the ABI are modelled.  See PROJECT.json. *)

From stdpp Require Import base list decidable strings.
From Stdlib Require Import ZArith Lia.

Declare Scope lottery_scope.
Delimit Scope lottery_scope with lot.
Open Scope lottery_scope.

(** ** The result monad *)

Inductive result (A E : Type) : Type :=
| Ok (a : A)
| Err (e : E).
Arguments Ok {A E} a.
Arguments Err {A E} e.

Definition bind_result {A B E} (r : result A E) (k : A -> result B E) : result B E :=
  match r with
  | Ok a => k a
  | Err e => Err e
  end.

Notation "x <- c ;; k" := (bind_result c (fun x => k))
  (at level 60, c at next level, right associativity) : lottery_scope.
Notation "c ;;; k" := (bind_result c (fun _ => k))
  (at level 60, right associativity) : lottery_scope.

(** Solidity's [require(cond, reason)]. *)
Definition require {E} (b : bool) (e : E) : result unit E :=
  if b then Ok tt else Err e.

Definition of_option {A E} (o : option A) (e : E) : result A E :=
  match o with
  | Some a => Ok a
  | None => Err e
  end.

Definition is_ok {A E} (r : result A E) : bool :=
  match r with Ok _ => true | Err _ => false end.

Lemma bind_Ok_inv {A B E} (r : result A E) (k : A -> result B E) b :
  bind_result r k = Ok b -> exists a, r = Ok a /\ k a = Ok b.
Proof. destruct r; simpl; [eauto | discriminate]. Qed.

Lemma bind_Err_inv {A B E} (r : result A E) (k : A -> result B E) e :
  bind_result r k = Err e -> r = Err e \/ exists a, r = Ok a /\ k a = Err e.
Proof. destruct r; simpl; eauto. intros [= ->]; auto. Qed.

Lemma require_Ok {E} (b : bool) (e : E) u : require b e = Ok u -> b = true.
Proof. destruct b; simpl; [auto | discriminate]. Qed.

Lemma require_true {E} (e : E) : require true e = Ok tt.
Proof. reflexivity. Qed.

Lemma require_false {E} (e : E) : require false e = Err e.
Proof. reflexivity. Qed.

Lemma of_option_Ok {A E} (o : option A) (e : E) a : of_option o e = Ok a -> o = Some a.
Proof. destruct o; simpl; congruence. Qed.

(** ** Machine integers *)

Open Scope Z_scope.

Definition UINT256_BOUND : Z := 2 ^ 256.
Definition ADDRESS_BOUND : Z := 2 ^ 160.

Definition uint256 (z : Z) : Prop := 0 <= z < UINT256_BOUND.
Definition address160 (z : Z) : Prop := 0 <= z < ADDRESS_BOUND.

#[export] Instance uint256_dec z : Decision (uint256 z).
Proof. unfold uint256. apply _. Defined.
#[export] Instance address160_dec z : Decision (address160 z).
Proof. unfold address160. apply _. Defined.

(** solc 0.8 checked addition: the sum is kept when it fits in 256 bits,
    otherwise the transaction reverts with the panic code [0x11]. *)
Definition checked_add {E} (panic : E) (a b : Z) : result Z E :=
  if a + b <? UINT256_BOUND then Ok (a + b) else Err panic.

Lemma checked_add_Ok {E} (p : E) a b c :
  checked_add p a b = Ok c -> c = a + b /\ a + b < UINT256_BOUND.
Proof.
  unfold checked_add. destruct (Z.ltb_spec (a + b) UINT256_BOUND); congruence || (intros [= <-]; lia).
Qed.

Lemma checked_add_fits {E} (p : E) a b :
  a + b < UINT256_BOUND -> checked_add p a b = Ok (a + b).
Proof. unfold checked_add. intros H. apply Z.ltb_lt in H. now rewrite H. Qed.

Lemma checked_add_overflow {E} (p : E) a b :
  UINT256_BOUND <= a + b -> checked_add p a b = Err p.
Proof. unfold checked_add. intros H. destruct (Z.ltb_spec (a + b) UINT256_BOUND); [lia | done]. Qed.

(** ** Lists *)

Lemma lookup_mod_Some {A} (l : list A) (sample : Z) :
  l <> [] ->
  exists x, l !! Z.to_nat (sample mod Z.of_nat (length l)) = Some x.
Proof.
  intros Hl. apply lookup_lt_is_Some_2.
  destruct l as [|a l']; [done |]. simpl length.
  pose proof (Z.mod_pos_bound sample (Z.of_nat (S (length l'))) ltac:(lia)). lia.
Qed.

Lemma length_snoc {A} (l : list A) (x : A) :
  Z.of_nat (length (l ++ [x])) = Z.of_nat (length l) + 1.
Proof. rewrite length_app. simpl. lia. Qed.

Lemma div_add_mod (a k n : nat) : n <> 0%nat -> (a / n + (a mod n + k) / n = (a + k) / n)%nat.
Proof.
  intros Hn. pose proof (Nat.div_mod a n Hn) as E.
  replace (a + k)%nat with (a / n * n + (a mod n + k))%nat by lia.
  by rewrite Nat.div_add_l.
Qed.

(** ** Strings *)

Lemma string_length_append (s1 s2 : string) :
  String.length (String.append s1 s2) = (String.length s1 + String.length s2)%nat.
Proof. induction s1; simpl; auto. Qed.

Lemma string_prefix_iff (sub s : string) :
  String.prefix sub s = true <-> exists post, s = String.append sub post.
Proof.
  revert s. induction sub as [|a sub IH]; intros s; simpl.
  - split; [intros _; by exists s | intros _; by destruct s].
  - destruct s as [|b s]; simpl; [split; [discriminate | intros [? [=]]] |].
    destruct (Ascii.ascii_dec a b) as [Heq | Hne].
    + subst b. rewrite IH. split; intros [post Hp]; exists post; [by rewrite Hp | by injection Hp].
    + split; [discriminate | intros [post [= ]]; congruence].
Qed.

(** ** Automation *)

Create HintDb lottery discriminated.
Create Rewrite HintDb lottery_rw.
#[export] Hint Resolve require_true require_false checked_add_fits : lottery.
#[export] Hint Rewrite @require_true @require_false @length_snoc : lottery_rw.

(** [inv_ok] decomposes a successful monadic computation into the
    success of each of its steps. *)
Ltac inv_ok :=
  repeat match goal with
  | H : bind_result _ _ = Ok _ |- _ =>
      let a := fresh "a" in let Ha := fresh "Ha" in
      apply bind_Ok_inv in H as (a & Ha & H)
  | H : require _ _ = Ok _ |- _ => apply require_Ok in H
  | H : of_option _ _ = Ok _ |- _ => apply of_option_Ok in H
  | H : checked_add _ _ _ = Ok _ |- _ =>
      let Hb := fresh "Hbound" in apply checked_add_Ok in H as [? Hb]; subst
  | H : bool_decide _ = true |- _ => apply bool_decide_eq_true_1 in H
  | H : Ok _ = Ok _ |- _ => injection H as H; subst
  | H : Err _ = Ok _ |- _ => discriminate H
  | H : (_, _) = (_, _) |- _ => injection H as H; subst
  | u : unit |- _ => destruct u
  end.

(** [pair_eq] splits an equation between tuples componentwise. *)
Ltac pair_eq :=
  repeat match goal with |- (_, _) = (_, _) => apply pair_equal_spec; split end.
