(* ===== verification/Api.v ===== *)
(** * The contract's interface to its clients

    What the front end (src/frontend/*.js) and the deployment script see
    of the lottery contract: the view functions and the transactions of
    its ABI (lottery.js, [contractABI]), the revert reasons, and the laws
    a client may rely on.  [LotteryApi] is the signature; [LotteryApiLaws]
    the contract's promises.  [Lottery] provides the instance, [Frontend]
    proves its theorems against the class. *)

From stdpp Require Import base list decidable.
From Stdlib Require Import ZArith Lia.
From S2P Require Import Prelude.

Open Scope Z_scope.

Abbreviation Address := Z (only parsing).

(** The sentinel the [winner()] getter returns while no winner is set:
    the zero address (lottery.js compares against "0x000...0"). *)
Definition ZERO_ADDRESS : Address := 0.

(** Revert reasons of the engine (spec §7), plus the solc 0.8 panics
    ([0x11] arithmetic overflow, [0x32] array index out of bounds). *)
Inductive LotteryError :=
| Unauthorized
| InvalidPhase
| IncorrectPayment
| NoParticipants
| TransferFailed
| Panic (code : Z).

#[export] Instance LotteryError_eq_dec : EqDecision LotteryError.
Proof. solve_decision. Defined.

Definition PANIC_OVERFLOW : Z := 17.      (* 0x11 *)
Definition PANIC_OUT_OF_BOUNDS : Z := 50. (* 0x32 *)

(** The mutating entry points of the ABI, with the value sent. *)
Inductive Tx :=
| BuyTicket (value : Z)
| DrawWinner
| DistributePrize
| ResetLottery.

#[export] Instance Tx_eq_dec : EqDecision Tx.
Proof. solve_decision. Defined.

(** What the chain supplies to a transaction besides its sender: the
    randomness sample a draw reads, and whether an outgoing transfer is
    delivered. *)
Record TxEnv := mkTxEnv {
  env_sample : Z;
  env_deliver : Address -> Z -> bool
}.

Definition is_admin_tx (t : Tx) : bool :=
  match t with BuyTicket _ => false | _ => true end.

(** The value a transaction carries: [buyTicket] is the only payable
    entry point. *)
Definition value_in (t : Tx) : Z :=
  match t with BuyTicket v => v | _ => 0 end.

Class LotteryApi (S : Type) := {
  api_admin : S -> Address;
  api_ticketPrice : S -> Z;
  api_getParticipants : S -> list Address;
  api_getPrizePool : S -> Z;
  api_winner : S -> Address;
  api_isDrawDone : S -> bool;
  api_submit : TxEnv -> Address -> Tx -> S -> result S LotteryError
}.

Class LotteryApiLaws (S : Type) `{LotteryApi S} := {
  (** the ticket price and the administrator never change *)
  law_price_stable : forall e from t s s',
    api_submit e from t s = Ok s' -> api_ticketPrice s' = api_ticketPrice s;
  law_admin_stable : forall e from t s s',
    api_submit e from t s = Ok s' -> api_admin s' = api_admin s;
  (** privileged transactions of another account fail with [Unauthorized] *)
  law_admin_only : forall e from t s,
    is_admin_tx t = true -> from <> api_admin s ->
    api_submit e from t s = Err Unauthorized;
  (** a payment is refused as incorrect only when it differs from the price *)
  law_incorrect_payment : forall e from v s,
    api_submit e from (BuyTicket v) s = Err IncorrectPayment -> v <> api_ticketPrice s;
  (** a successful purchase appends the buyer *)
  law_buy_appends : forall e from v s s',
    api_submit e from (BuyTicket v) s = Ok s' ->
    api_getParticipants s' = api_getParticipants s ++ [from]
}.
