(* ===== verification/Lottery.v ===== *)
(** * The lottery engine (the on-chain contract)

    The contract's source is not part of the repository's src/ tree;
    every definition of this file follows the design document (spec.md
    §3 data model, §4 components, §7 errors) and the ABI of
    src/frontend/lottery.js.  [LotteryState] is the contract storage; each
    Module below is one component of spec §2 and each entry point takes
    the caller and the storage and returns the new storage or a revert
    reason. *)

From stdpp Require Import base list decidable.
From Stdlib Require Import ZArith Lia.
From S2P Require Import Prelude Api.

Open Scope Z_scope.

Inductive Phase := Open | Drawn | Distributed.

#[export] Instance Phase_eq_dec : EqDecision Phase.
Proof. solve_decision. Defined.

(** The single aggregate of spec §3. *)
Record LotteryState := mkLottery {
  admin : Address;
  ticketPrice : Z;
  participants : list Address;
  prizePool : Z;
  winner : option Address;
  phase : Phase
}.

(** An outgoing value transfer performed by the contract. *)
Record Transfer := mkTransfer { tr_to : Address; tr_amount : Z }.

(** ** AccessControl (spec §4.1) *)
Module AccessControl.
Definition requireAdmin (caller : Address) (s : LotteryState) : result unit LotteryError :=
  require (bool_decide (caller = admin s)) Unauthorized.
End AccessControl.

(** ** TicketLedger (spec §4.2): [buyTicket], payable, open to anyone *)
Module TicketLedger.
Definition enter (caller : Address) (payment : Z) (s : LotteryState)
  : result LotteryState LotteryError :=
  require (bool_decide (phase s = Open)) InvalidPhase ;;;
  require (bool_decide (payment = ticketPrice s)) IncorrectPayment ;;;
  pool <- checked_add (Panic PANIC_OVERFLOW) (prizePool s) payment ;;
  Ok {| admin := admin s; ticketPrice := ticketPrice s;
        participants := participants s ++ [caller];
        prizePool := pool; winner := winner s; phase := phase s |}.
End TicketLedger.

(** ** DrawEngine (spec §4.3): [drawWinner], admin only *)
Module DrawEngine.
(** The sample reduced modulo the number of entries. *)
Definition select_index (sample : Z) (n : nat) : nat :=
  Z.to_nat (sample mod Z.of_nat n).

Definition draw (caller : Address) (sample : Z) (s : LotteryState)
  : result LotteryState LotteryError :=
  AccessControl.requireAdmin caller s ;;;
  require (bool_decide (phase s = Open)) InvalidPhase ;;;
  require (bool_decide (0 < length (participants s))%nat) NoParticipants ;;;
  w <- of_option (participants s !! select_index sample (length (participants s)))
                 (Panic PANIC_OUT_OF_BOUNDS) ;;
  Ok {| admin := admin s; ticketPrice := ticketPrice s;
        participants := participants s; prizePool := prizePool s;
        winner := Some w; phase := Drawn |}.
End DrawEngine.

(** ** PrizeVault (spec §4.4): [distributePrize], admin only.
    Checks, then effects ([payout_effects]: the pool is zeroed and the
    phase advanced), then the interaction (the transfer).  A failed
    transfer reverts the whole call, so the storage is rolled back. *)
Module PrizeVault.
Definition payout_effects (s : LotteryState) : LotteryState :=
  {| admin := admin s; ticketPrice := ticketPrice s;
     participants := participants s; prizePool := 0;
     winner := winner s; phase := Distributed |}.

Definition distribute (deliver : Address -> Z -> bool) (caller : Address)
  (s : LotteryState) : result (LotteryState * list Transfer) LotteryError :=
  AccessControl.requireAdmin caller s ;;;
  require (bool_decide (phase s = Drawn)) InvalidPhase ;;;
  w <- of_option (winner s) InvalidPhase ;;
  let amount := prizePool s in
  let s' := payout_effects s in
  if deliver w amount then Ok (s', [mkTransfer w amount]) else Err TransferFailed.
End PrizeVault.

(** ** LifecycleController (spec §4.5): construction, [resetLottery],
    and the dispatch of the ABI's transactions. *)
Module LifecycleController.
Definition constructor (deployer : Address) (price : Z) : LotteryState :=
  {| admin := deployer; ticketPrice := price; participants := [];
     prizePool := 0; winner := None; phase := Open |}.

Definition reset (caller : Address) (s : LotteryState)
  : result LotteryState LotteryError :=
  AccessControl.requireAdmin caller s ;;;
  require (bool_decide (phase s = Distributed)) InvalidPhase ;;;
  Ok (constructor (admin s) (ticketPrice s)).

(** The contract's entry points: the new storage and the transfers the
    transaction performed. *)
Definition receive (env : TxEnv) (from : Address) (t : Tx) (s : LotteryState)
  : result (LotteryState * list Transfer) LotteryError :=
  match t with
  | BuyTicket v => s' <- TicketLedger.enter from v s ;; Ok (s', [])
  | DrawWinner => s' <- DrawEngine.draw from (env_sample env) s ;; Ok (s', [])
  | DistributePrize => PrizeVault.distribute (env_deliver env) from s
  | ResetLottery => s' <- reset from s ;; Ok (s', [])
  end.

(** The host: a reverted transaction leaves the storage as it was. *)
Definition run (env : TxEnv) (from : Address) (t : Tx) (s : LotteryState) : LotteryState :=
  match receive env from t s with
  | Ok (s', _) => s'
  | Err _ => s
  end.

(** Storage states reachable from a deployment with a uint256 price. *)
Inductive reachable : LotteryState -> Prop :=
| reachable_deploy deployer price :
    address160 deployer -> uint256 price ->
    reachable (constructor deployer price)
| reachable_step s env from t s' ts :
    reachable s -> receive env from t s = Ok (s', ts) -> reachable s'.
End LifecycleController.

(** ** View functions of the ABI *)
Definition getParticipants (s : LotteryState) : list Address := participants s.
Definition getPrizePool (s : LotteryState) : Z := prizePool s.
Definition isDrawDone (s : LotteryState) : bool := negb (bool_decide (phase s = Open)).
Definition winner_getter (s : LotteryState) : Address :=
  match winner s with Some w => w | None => ZERO_ADDRESS end.

(** ** The storage invariant (spec §3) *)

(** The pool holds one ticket price per entry until the payout, and
    nothing after it. *)
Definition pool_accounted (s : LotteryState) : Prop :=
  match phase s with
  | Distributed => prizePool s = 0
  | _ => prizePool s = ticketPrice s * Z.of_nat (length (participants s))
  end.

(** A winner is set exactly after a draw, and is one of the entrants. *)
Definition winner_consistent (s : LotteryState) : Prop :=
  match phase s, winner s with
  | Open, None => True
  | Open, Some _ => False
  | _, Some w => w ∈ participants s
  | _, None => False
  end.

Record inv (s : LotteryState) : Prop := {
  inv_pool : pool_accounted s;
  inv_winner : winner_consistent s;
  inv_price : uint256 (ticketPrice s);
  inv_pool_range : uint256 (prizePool s);
  inv_admin : address160 (admin s)
}.

(** ** The phase table of spec §4.5, as an abstract machine *)
Definition phase_step (p : Phase) (t : Tx) : option Phase :=
  match p, t with
  | Open, BuyTicket _ => Some Open
  | Open, DrawWinner => Some Drawn
  | Drawn, DistributePrize => Some Distributed
  | Distributed, ResetLottery => Some Open
  | _, _ => None
  end.

(** ** Sequences of transactions *)

Definition sum_transfers (ts : list Transfer) : Z :=
  foldr (fun tr acc => tr_amount tr + acc) 0 ts.

(** Executes the calls in order; a reverted call changes nothing and
    keeps its value.  Returns the final storage, the value received by
    successful calls and the transfers made. *)
Fixpoint run_calls (s : LotteryState) (calls : list (TxEnv * Address * Tx))
  : LotteryState * Z * list Transfer :=
  match calls with
  | [] => (s, 0, [])
  | (env, from, t) :: rest =>
      match LifecycleController.receive env from t s with
      | Ok (s', ts) =>
          let '(s'', vin, out) := run_calls s' rest in
          (s'', value_in t + vin, ts ++ out)
      | Err _ => run_calls s rest
      end
  end.

Definition not_reset (c : TxEnv * Address * Tx) : Prop :=
  match c.2 with ResetLottery => False | _ => True end.

(** The storage after [bs] have bought tickets at the price. *)
Definition with_entries (s : LotteryState) (bs : list Address) : LotteryState :=
  {| admin := admin s; ticketPrice := ticketPrice s; participants := participants s ++ bs;
     prizePool := prizePool s + ticketPrice s * Z.of_nat (length bs);
     winner := winner s; phase := phase s |}.

Definition buy_calls (env : TxEnv) (price : Z) (bs : list Address) : list (TxEnv * Address * Tx) :=
  map (fun b => (env, b, BuyTicket price)) bs.

(** The storage after a draw that selected [w]. *)
Definition drawn_with (s : LotteryState) (w : Address) : LotteryState :=
  {| admin := admin s; ticketPrice := ticketPrice s; participants := participants s;
     prizePool := prizePool s; winner := Some w; phase := Drawn |}.

(** ** The interface instance (the laws are proved below) *)
#[export] Instance lottery_api : LotteryApi LotteryState := {
  api_admin := admin;
  api_ticketPrice := ticketPrice;
  api_getParticipants := getParticipants;
  api_getPrizePool := getPrizePool;
  api_winner := winner_getter;
  api_isDrawDone := isDrawDone;
  api_submit env from t s :=
    match LifecycleController.receive env from t s with
    | Ok (s', _) => Ok s'
    | Err e => Err e
    end
}.

Import LifecycleController.

Ltac unfold_inv :=
  unfold pool_accounted, winner_consistent, uint256, address160,
    UINT256_BOUND, ADDRESS_BOUND in *.

(** * Theorems *)

(** ** Behaviour of each entry point *)

Lemma requireAdmin_Ok c s u : AccessControl.requireAdmin c s = Ok u -> c = admin s.
Proof. unfold AccessControl.requireAdmin. intros H. inv_ok. done. Qed.

Lemma requireAdmin_other c s : c <> admin s -> AccessControl.requireAdmin c s = Err Unauthorized.
Proof. intros H. unfold AccessControl.requireAdmin. by rewrite bool_decide_false. Qed.

Lemma requireAdmin_self s : AccessControl.requireAdmin (admin s) s = Ok tt.
Proof. unfold AccessControl.requireAdmin. by rewrite bool_decide_true. Qed.

#[export] Hint Rewrite requireAdmin_self : lottery_rw.

Lemma enter_Ok c v s s' :
  TicketLedger.enter c v s = Ok s' ->
  phase s = Open /\ v = ticketPrice s /\ prizePool s + v < UINT256_BOUND /\
  s' = {| admin := admin s; ticketPrice := ticketPrice s;
          participants := participants s ++ [c]; prizePool := prizePool s + v;
          winner := winner s; phase := phase s |}.
Proof. unfold TicketLedger.enter. intros H. inv_ok. auto. Qed.

Lemma draw_Ok c sample s s' :
  DrawEngine.draw c sample s = Ok s' ->
  c = admin s /\ phase s = Open /\ participants s <> [] /\
  exists w, participants s !! DrawEngine.select_index sample (length (participants s)) = Some w /\
  s' = {| admin := admin s; ticketPrice := ticketPrice s;
          participants := participants s; prizePool := prizePool s;
          winner := Some w; phase := Drawn |}.
Proof.
  unfold DrawEngine.draw. intros H. inv_ok.
  apply requireAdmin_Ok in Ha. repeat split; eauto.
  intros Hnil. rewrite Hnil in Ha1. simpl in Ha1. lia.
Qed.

Lemma distribute_Ok deliver c s s' ts :
  PrizeVault.distribute deliver c s = Ok (s', ts) ->
  c = admin s /\ phase s = Drawn /\
  exists w, winner s = Some w /\ deliver w (prizePool s) = true /\
  s' = PrizeVault.payout_effects s /\ ts = [mkTransfer w (prizePool s)].
Proof.
  unfold PrizeVault.distribute. intros H. inv_ok.
  apply requireAdmin_Ok in Ha. destruct (deliver a1 (prizePool s)) eqn:Hd; inv_ok.
  repeat split; eauto 10.
Qed.

Lemma reset_Ok c s s' :
  reset c s = Ok s' ->
  c = admin s /\ phase s = Distributed /\ s' = constructor (admin s) (ticketPrice s).
Proof. unfold reset. intros H. inv_ok. apply requireAdmin_Ok in Ha. auto. Qed.

(** Every successful transaction, decomposed by entry point. *)
Lemma receive_Ok env from t s s' ts :
  receive env from t s = Ok (s', ts) ->
  match t with
  | BuyTicket v => ts = [] /\ TicketLedger.enter from v s = Ok s'
  | DrawWinner => ts = [] /\ DrawEngine.draw from (env_sample env) s = Ok s'
  | DistributePrize => PrizeVault.distribute (env_deliver env) from s = Ok (s', ts)
  | ResetLottery => ts = [] /\ reset from s = Ok s'
  end.
Proof. destruct t; simpl; intros H; inv_ok; auto. Qed.

(** ** The invariant is preserved *)

Lemma inv_constructor deployer price :
  address160 deployer -> uint256 price -> inv (constructor deployer price).
Proof.
  intros Ha Hp. split; unfold pool_accounted, winner_consistent, uint256, UINT256_BOUND in *;
    simpl; auto; lia.
Qed.

Lemma inv_enter c v s s' : inv s -> TicketLedger.enter c v s = Ok s' -> inv s'.
Proof.
  intros [Hpool Hw Hp Hr Ha] (Hph & -> & Hb & ->)%enter_Ok.
  unfold pool_accounted, winner_consistent, uint256 in *. rewrite Hph in Hpool, Hw.
  split; unfold_inv; simpl; rewrite ?Hph; auto; rewrite ?length_snoc; lia.
Qed.

Lemma inv_draw c sample s s' : inv s -> DrawEngine.draw c sample s = Ok s' -> inv s'.
Proof.
  intros [Hpool Hw Hp Hr Ha] (-> & Hph & _ & w & Hlk & ->)%draw_Ok.
  unfold pool_accounted, winner_consistent in *. rewrite Hph in Hpool.
  split; simpl; auto. by eapply list_elem_of_lookup_2.
Qed.

Lemma inv_distribute deliver c s s' ts :
  inv s -> PrizeVault.distribute deliver c s = Ok (s', ts) -> inv s'.
Proof.
  intros [Hpool Hw Hp Hr Ha] (-> & Hph & w & Hwin & _ & -> & ->)%distribute_Ok.
  unfold winner_consistent in *. rewrite Hph, Hwin in Hw.
  split; unfold_inv; simpl; rewrite ?Hwin; auto; lia.
Qed.

Lemma inv_reset c s s' : inv s -> reset c s = Ok s' -> inv s'.
Proof. intros [] (_ & _ & ->)%reset_Ok. by apply inv_constructor. Qed.

#[export] Hint Resolve inv_constructor inv_enter inv_draw inv_distribute inv_reset : lottery.

(** Every successful transaction of any sender preserves the invariant. *)
Lemma receive_inv env from t s s' ts :
  inv s -> receive env from t s = Ok (s', ts) -> inv s'.
Proof.
  intros Hinv H. apply receive_Ok in H.
  destruct t; destruct_and?; eauto with lottery.
Qed.

#[export] Hint Resolve receive_inv : lottery.

(** C1: Every storage state reachable from a deployment satisfies the
    invariant of spec §3: the pool holds the ticket price once per entry
    before the payout and nothing after it, a winner is set exactly in
    Drawn and Distributed and is one of the entrants, and price, pool
    and admin stay within their uint256 / address ranges. *)
Theorem reachable_inv s : reachable s -> inv s.
Proof. induction 1; eauto with lottery. Qed.

(** ** Draw (spec §4.3, §8) *)

Lemma select_index_lt sample n : (0 < n)%nat -> (DrawEngine.select_index sample n < n)%nat.
Proof.
  intros Hn. unfold DrawEngine.select_index.
  pose proof (Z.mod_pos_bound sample (Z.of_nat n) ltac:(lia)). lia.
Qed.

(** C4: A successful draw sets the winner to the entry at index
    [sample mod |participants|], which is an entrant; the entries and the
    pool are untouched, the phase becomes Drawn, and any second draw
    before a reset fails ([InvalidPhase] for the administrator,
    [Unauthorized] for anyone else). *)
Theorem draw_selects_entrant env from s s' ts :
  receive env from DrawWinner s = Ok (s', ts) ->
  ts = [] /\ phase s' = Drawn /\
  participants s' = participants s /\ prizePool s' = prizePool s /\
  (exists w, winner s' = Some w /\ w ∈ participants s /\
     participants s !! DrawEngine.select_index (env_sample env) (length (participants s)) = Some w) /\
  forall env' from', receive env' from' DrawWinner s' =
    Err (if bool_decide (from' = admin s) then InvalidPhase else Unauthorized).
Proof.
  intros H. apply receive_Ok in H as [-> (-> & Hph & Hne & w & Hlk & ->)%draw_Ok].
  do 4 (split; [done |]). split.
  - exists w. repeat split; auto. by eapply list_elem_of_lookup_2.
  - intros env' from'. simpl. unfold DrawEngine.draw, AccessControl.requireAdmin; simpl.
    case_bool_decide; reflexivity.
Qed.

Lemma draw_selects_entrant_witness :
  let s := run (mkTxEnv 0 (fun _ _ => true)) 11 (BuyTicket 100)
             (run (mkTxEnv 0 (fun _ _ => true)) 10 (BuyTicket 100) (constructor 1 100)) in
  winner (run (mkTxEnv 7 (fun _ _ => true)) 1 DrawWinner s) = Some 11 /\
  phase (run (mkTxEnv 7 (fun _ _ => true)) 1 DrawWinner s) = Drawn.
Proof.
  simpl.
  destruct (draw_selects_entrant (mkTxEnv 7 (fun _ _ => true)) 1
    (run (mkTxEnv 0 (fun _ _ => true)) 11 (BuyTicket 100)
       (run (mkTxEnv 0 (fun _ _ => true)) 10 (BuyTicket 100) (constructor 1 100)))
    (run (mkTxEnv 7 (fun _ _ => true)) 1 DrawWinner
       (run (mkTxEnv 0 (fun _ _ => true)) 11 (BuyTicket 100)
          (run (mkTxEnv 0 (fun _ _ => true)) 10 (BuyTicket 100) (constructor 1 100)))) []
    eq_refl) as (_ & Hph & _).
  split; [reflexivity | exact Hph].
Defined.

(** C9: A draw never succeeds on an empty pool of entrants: it fails with
    [Unauthorized] for a non-administrator, with [InvalidPhase] outside
    Open, and otherwise with [NoParticipants]; the guards are checked in
    that order. *)
Theorem draw_empty_fails env from s :
  participants s = [] ->
  receive env from DrawWinner s =
    Err (if bool_decide (from = admin s) then
           if bool_decide (phase s = Open) then NoParticipants else InvalidPhase
         else Unauthorized).
Proof.
  intros Hnil. simpl. unfold DrawEngine.draw, AccessControl.requireAdmin.
  rewrite Hnil. simpl. by repeat case_bool_decide.
Qed.

Lemma draw_empty_fails_witness :
  receive (mkTxEnv 7 (fun _ _ => true)) 1 DrawWinner (constructor 1 100) = Err NoParticipants.
Proof. exact (draw_empty_fails (mkTxEnv 7 (fun _ _ => true)) 1 (constructor 1 100) eq_refl). Defined.

(** ** Payout (spec §4.4, §8) *)

(** C5: A successful [distributePrize] pays the whole pool — one ticket
    price per entry — in a single transfer to the drawn winner, leaves a
    zero pool in phase Distributed, and any second [distributePrize]
    before a reset fails. *)
Theorem distribute_pays_winner env from s s' ts :
  inv s -> receive env from DistributePrize s = Ok (s', ts) ->
  (exists w, winner s = Some w /\
     ts = [mkTransfer w (ticketPrice s * Z.of_nat (length (participants s)))]) /\
  prizePool s' = 0 /\ phase s' = Distributed /\
  forall env' from', receive env' from' DistributePrize s' =
    Err (if bool_decide (from' = admin s) then InvalidPhase else Unauthorized).
Proof.
  intros [Hpool _ _ _ _] H. apply receive_Ok in H.
  apply distribute_Ok in H as (-> & Hph & w & Hw & _ & -> & ->).
  unfold pool_accounted in Hpool. rewrite Hph in Hpool. rewrite Hpool.
  split; [eauto |]. do 2 (split; [done |]).
  intros env' from'. simpl. unfold PrizeVault.distribute, AccessControl.requireAdmin; simpl.
  case_bool_decide; reflexivity.
Qed.

(** C10: When the payout cannot be delivered, [distributePrize] reverts with
    [TransferFailed] and the storage is exactly the one before the call:
    pool restored, phase still Drawn. *)
Theorem distribute_transfer_failed_rollback env s w :
  phase s = Drawn -> winner s = Some w -> env_deliver env w (prizePool s) = false ->
  receive env (admin s) DistributePrize s = Err TransferFailed /\
  run env (admin s) DistributePrize s = s.
Proof.
  intros Hph Hw Hd. unfold run. simpl.
  unfold PrizeVault.distribute. rewrite requireAdmin_self, Hph, Hw. simpl.
  by rewrite Hd.
Qed.

Definition drawn_state : LotteryState :=
  {| admin := 1; ticketPrice := 100; participants := [10; 11]; prizePool := 200;
     winner := Some 11; phase := Drawn |}.

Lemma distribute_transfer_failed_rollback_witness :
  receive (mkTxEnv 0 (fun _ _ => false)) 1 DistributePrize drawn_state = Err TransferFailed.
Proof.
  apply (distribute_transfer_failed_rollback (mkTxEnv 0 (fun _ _ => false)) drawn_state 11);
    reflexivity.
Defined.

(** ** Reset and authorization (spec §4.1, §4.5, §8) *)

(** C8: [resetLottery] is accepted exactly from the administrator in phase
    Distributed; it then empties the entries, zeroes the pool, clears the
    winner and reopens the round, keeping admin and ticket price. *)
Theorem reset_spec env from s s' ts :
  receive env from ResetLottery s = Ok (s', ts) <->
  from = admin s /\ phase s = Distributed /\ ts = [] /\
  s' = {| admin := admin s; ticketPrice := ticketPrice s; participants := [];
          prizePool := 0; winner := None; phase := Open |}.
Proof.
  split.
  - intros H. apply receive_Ok in H as [-> (-> & Hph & ->)%reset_Ok]. auto.
  - intros (-> & Hph & -> & ->). simpl. unfold reset. by rewrite requireAdmin_self, Hph.
Qed.

Lemma reset_spec_witness :
  receive (mkTxEnv 0 (fun _ _ => true)) 1 ResetLottery (PrizeVault.payout_effects drawn_state)
  = Ok (constructor 1 100, []).
Proof. apply (proj2 (reset_spec _ _ _ _ _)). repeat split. Defined.

(** C6: Any account other than the administrator gets [Unauthorized] from
    [drawWinner], [distributePrize] and [resetLottery], in every phase. *)
Theorem non_admin_unauthorized env from t s :
  is_admin_tx t = true -> from <> admin s -> receive env from t s = Err Unauthorized.
Proof.
  intros Ht Hne. destruct t; try discriminate; simpl;
    unfold DrawEngine.draw, PrizeVault.distribute, reset; by rewrite requireAdmin_other.
Qed.

Lemma non_admin_unauthorized_witness :
  receive (mkTxEnv 0 (fun _ _ => true)) 2 ResetLottery drawn_state = Err Unauthorized.
Proof. apply non_admin_unauthorized; [reflexivity | simpl; lia]. Defined.

Lemma inv_drawn_state : inv drawn_state.
Proof. split; unfold_inv; simpl; try lia. by apply list_elem_of_In; simpl; auto. Qed.

Lemma distribute_pays_winner_witness :
  prizePool (run (mkTxEnv 0 (fun _ _ => true)) 1 DistributePrize drawn_state) = 0.
Proof.
  destruct (distribute_pays_winner (mkTxEnv 0 (fun _ _ => true)) 1 drawn_state
              (PrizeVault.payout_effects drawn_state) [mkTransfer 11 200]
              inv_drawn_state eq_refl) as (_ & H & _).
  exact H.
Defined.

(** ** Ticket purchase (spec §4.2, §8) *)

(** C7: A purchase succeeds exactly when the round is Open, the payment is
    the ticket price (neither more nor less) and the pool stays within
    uint256; it then appends the buyer and adds the payment to the pool.
    A wrong payment in phase Open is refused with [IncorrectPayment]. *)
Theorem buy_exact_payment env from v s s' ts :
  (receive env from (BuyTicket v) s = Ok (s', ts) <->
   phase s = Open /\ v = ticketPrice s /\ prizePool s + v < UINT256_BOUND /\ ts = [] /\
   s' = {| admin := admin s; ticketPrice := ticketPrice s;
           participants := participants s ++ [from]; prizePool := prizePool s + v;
           winner := winner s; phase := Open |}) /\
  (phase s = Open -> v <> ticketPrice s -> receive env from (BuyTicket v) s = Err IncorrectPayment).
Proof.
  split; [split |].
  - intros H. apply receive_Ok in H as [-> (Hph & -> & Hb & ->)%enter_Ok]. rewrite Hph. auto.
  - intros (Hph & -> & Hb & -> & ->). simpl. unfold TicketLedger.enter.
    rewrite !bool_decide_true by done. simpl. by rewrite checked_add_fits, Hph.
  - intros Hph Hv. simpl. unfold TicketLedger.enter.
    rewrite bool_decide_true, bool_decide_false by done. reflexivity.
Qed.

Lemma buy_exact_payment_witness :
  receive (mkTxEnv 0 (fun _ _ => true)) 5 (BuyTicket 50) (constructor 1 100) = Err IncorrectPayment.
Proof. apply (proj2 (buy_exact_payment _ 5 50 (constructor 1 100) (constructor 1 100) []));
    [reflexivity | simpl; lia].
Defined.

(** ** The contract refines the phase table of spec §4.5 *)

(** C11: Every successful transaction moves the phase as the table of spec
    §4.5 says, and every transaction the table forbids in the current
    phase reverts, with [Unauthorized] or [InvalidPhase]. *)
Theorem receive_refines_phase_table env from t s :
  (forall s' ts, receive env from t s = Ok (s', ts) -> phase_step (phase s) t = Some (phase s')) /\
  (phase_step (phase s) t = None ->
   receive env from t s = Err Unauthorized \/ receive env from t s = Err InvalidPhase).
Proof.
  split.
  - intros s' ts H. apply receive_Ok in H. destruct t.
    + destruct H as [_ (Hph & _ & _ & ->)%enter_Ok]. simpl. by rewrite Hph.
    + destruct H as [_ (_ & Hph & _ & w & _ & ->)%draw_Ok]. by rewrite Hph.
    + apply distribute_Ok in H as (_ & Hph & w & _ & _ & -> & _). by rewrite Hph.
    + destruct H as [_ (_ & Hph & ->)%reset_Ok]. by rewrite Hph.
  - intros Hstep. destruct (decide (from = admin s)) as [-> | Hne];
      [| destruct t; [| by left; apply non_admin_unauthorized ..]].
    + right. destruct t; simpl;
        unfold TicketLedger.enter, DrawEngine.draw, PrizeVault.distribute, reset;
        rewrite ?requireAdmin_self; simpl;
        destruct (phase s); simpl in Hstep; try discriminate Hstep; reflexivity.
    + right. simpl. unfold TicketLedger.enter.
      destruct (phase s); simpl in Hstep; try discriminate Hstep; reflexivity.
Qed.

Lemma receive_refines_phase_table_witness :
  receive (mkTxEnv 0 (fun _ _ => true)) 1 ResetLottery (constructor 1 100) = Err Unauthorized \/
  receive (mkTxEnv 0 (fun _ _ => true)) 1 ResetLottery (constructor 1 100) = Err InvalidPhase.
Proof.
  apply (proj2 (receive_refines_phase_table (mkTxEnv 0 (fun _ _ => true)) 1 ResetLottery
                  (constructor 1 100))). reflexivity.
Defined.

Lemma reachable_inv_witness : inv (constructor 1 100).
Proof.
  apply reachable_inv. apply reachable_deploy; unfold address160, uint256, ADDRESS_BOUND, UINT256_BOUND; lia.
Defined.

(** ** Sequences of transactions: funds and payouts *)

Lemma sum_transfers_app ts1 ts2 : sum_transfers (ts1 ++ ts2) = sum_transfers ts1 + sum_transfers ts2.
Proof. induction ts1; simpl; lia. Qed.

Lemma run_calls_cons_Ok env from t rest s s' ts :
  receive env from t s = Ok (s', ts) ->
  run_calls s ((env, from, t) :: rest) =
    let '(s'', vin, out) := run_calls s' rest in (s'', value_in t + vin, ts ++ out).
Proof. intros H. simpl. by rewrite H. Qed.

Lemma run_calls_cons_Ok_final env from t rest s s' ts :
  receive env from t s = Ok (s', ts) ->
  (run_calls s ((env, from, t) :: rest)).1.1 = (run_calls s' rest).1.1.
Proof. intros H. rewrite (run_calls_cons_Ok _ _ _ _ _ _ _ H). by destruct (run_calls s' rest) as [[? ?] ?]. Qed.

Lemma run_calls_cons_Err env from t rest s e :
  receive env from t s = Err e -> run_calls s ((env, from, t) :: rest) = run_calls s rest.
Proof. intros H. simpl. by rewrite H. Qed.

(** One transaction: value in = change of the pool + value out. *)
Lemma receive_conserves env from t s s' ts :
  inv s -> receive env from t s = Ok (s', ts) ->
  prizePool s' + sum_transfers ts = prizePool s + value_in t.
Proof.
  intros [Hpool _ _ _ _] H. apply receive_Ok in H. destruct t; simpl.
  - destruct H as [-> (_ & _ & _ & ->)%enter_Ok]. simpl. lia.
  - destruct H as [-> (_ & _ & _ & w & _ & ->)%draw_Ok]. simpl. lia.
  - apply distribute_Ok in H as (_ & _ & w & _ & _ & -> & ->). simpl. lia.
  - destruct H as [-> (_ & Hph & ->)%reset_Ok]. unfold pool_accounted in Hpool.
    rewrite Hph in Hpool. simpl. lia.
Qed.

(** C2: Fund conservation: over any sequence of transactions, the value
    received by successful purchases equals the growth of the pool plus
    everything paid out; no value is created or lost. *)
Theorem run_calls_conserves_funds calls s s' vin out :
  inv s -> run_calls s calls = (s', vin, out) ->
  prizePool s' + sum_transfers out = prizePool s + vin.
Proof.
  revert s s' vin out.
  induction calls as [|[[env from] t] rest IH]; intros s s' vin out Hinv H.
  - simpl in H. injection H as <- <- <-. simpl. lia.
  - destruct (receive env from t s) as [[s1 ts] | e] eqn:Hr.
    + rewrite (run_calls_cons_Ok _ _ _ _ _ _ _ Hr) in H.
      destruct (run_calls s1 rest) as [[s2 v2] o2] eqn:Hrest. injection H as <- <- <-.
      pose proof (receive_conserves _ _ _ _ _ _ Hinv Hr).
      pose proof (IH _ _ _ _ (receive_inv _ _ _ _ _ _ Hinv Hr) Hrest).
      rewrite sum_transfers_app. lia.
    + rewrite (run_calls_cons_Err _ _ _ _ _ _ Hr) in H. eauto.
Qed.

Lemma receive_reverts_when_distributed env from t s :
  phase s = Distributed -> t <> ResetLottery -> exists e, receive env from t s = Err e.
Proof.
  intros Hph Ht. destruct t; [| | | done]; simpl.
  - unfold TicketLedger.enter. rewrite Hph. simpl. eauto.
  - unfold DrawEngine.draw. destruct (decide (from = admin s)) as [-> | Hne].
    + rewrite requireAdmin_self. simpl. rewrite Hph. simpl. eauto.
    + rewrite requireAdmin_other by done. simpl. eauto.
  - unfold PrizeVault.distribute. destruct (decide (from = admin s)) as [-> | Hne].
    + rewrite requireAdmin_self. simpl. rewrite Hph. simpl. eauto.
    + rewrite requireAdmin_other by done. simpl. eauto.
Qed.

(** After the payout, nothing but a reset succeeds. *)
Lemma frozen_after_payout calls s :
  phase s = Distributed -> Forall not_reset calls -> run_calls s calls = (s, 0, []).
Proof.
  intros Hph. induction 1 as [|[[env from] t] rest Ht _ IH]; [done |].
  destruct (receive_reverts_when_distributed env from t s Hph) as [e He].
  { intros ->. exact Ht. }
  by rewrite (run_calls_cons_Err _ _ _ _ _ _ He).
Qed.

Lemma receive_transfers env from t s s' ts :
  receive env from t s = Ok (s', ts) ->
  (phase s' = Distributed /\ length ts = 1%nat) \/ ts = [].
Proof.
  intros H. apply receive_Ok in H. destruct t; [by right; apply H .. | | by right; apply H].
  left. apply distribute_Ok in H as (_ & _ & w & _ & _ & -> & ->). done.
Qed.

(** C3: At most one payout per round: a sequence of transactions with
    no [resetLottery] among them makes at most one outgoing transfer,
    whatever the senders, samples and delivery outcomes. *)
Theorem at_most_one_payout calls s s' vin out :
  Forall not_reset calls -> run_calls s calls = (s', vin, out) -> (length out <= 1)%nat.
Proof.
  revert s s' vin out.
  induction calls as [|[[env from] t] rest IH]; intros s s' vin out Hnr H.
  - simpl in H. injection H as <- <- <-. simpl. lia.
  - inversion Hnr as [|? ? Ht Hrest]; subst.
    destruct (receive env from t s) as [[s1 ts] | e] eqn:Hr.
    + rewrite (run_calls_cons_Ok _ _ _ _ _ _ _ Hr) in H.
      destruct (run_calls s1 rest) as [[s2 v2] o2] eqn:Hrs. injection H as <- <- <-.
      destruct (receive_transfers _ _ _ _ _ _ Hr) as [[Hph Hlen] | ->].
      * rewrite (frozen_after_payout _ _ Hph Hrest) in Hrs. injection Hrs as <- <- <-.
        rewrite length_app, Hlen. simpl. lia.
      * eauto.
    + rewrite (run_calls_cons_Err _ _ _ _ _ _ Hr) in H. eauto.
Qed.

Lemma at_most_one_payout_witness :
  (length [mkTransfer 11 200] <= 1)%nat.
Proof.
  apply (at_most_one_payout [(mkTxEnv 0 (fun _ _ => true), 1%Z, DistributePrize);
                             (mkTxEnv 0 (fun _ _ => true), 1%Z, DistributePrize)]
           drawn_state (PrizeVault.payout_effects drawn_state) 0);
    [repeat constructor | reflexivity].
Defined.

(** ** Complete rounds *)

Lemma with_entries_nil s : with_entries s [] = s.
Proof. destruct s. unfold with_entries. simpl. rewrite app_nil_r. f_equal. lia. Qed.

Lemma with_entries_app s xs ys : with_entries (with_entries s xs) ys = with_entries s (xs ++ ys).
Proof. unfold with_entries. simpl. rewrite app_assoc, length_app. f_equal. lia. Qed.

Lemma receive_buy_at_price env from s :
  phase s = Open -> prizePool s + ticketPrice s < UINT256_BOUND ->
  receive env from (BuyTicket (ticketPrice s)) s = Ok (with_entries s [from], []).
Proof.
  intros Hph Hb. simpl. unfold TicketLedger.enter.
  rewrite !bool_decide_true by done. simpl. rewrite checked_add_fits by done. simpl.
  unfold with_entries. simpl. rewrite Hph. do 3 f_equal. lia.
Qed.

Lemma receive_draw_admin env from s w :
  from = admin s -> phase s = Open ->
  participants s !! DrawEngine.select_index (env_sample env) (length (participants s)) = Some w ->
  receive env from DrawWinner s = Ok (drawn_with s w, []).
Proof.
  intros -> Hph Hlk. simpl. unfold DrawEngine.draw. rewrite requireAdmin_self. simpl.
  apply lookup_lt_Some in Hlk as Hlt.
  rewrite !bool_decide_true by (done || lia). simpl. by rewrite Hlk.
Qed.

Lemma receive_distribute_admin env from s w :
  from = admin s -> phase s = Drawn -> winner s = Some w ->
  env_deliver env w (prizePool s) = true ->
  receive env from DistributePrize s = Ok (PrizeVault.payout_effects s, [mkTransfer w (prizePool s)]).
Proof.
  intros -> Hph Hw Hd. simpl. unfold PrizeVault.distribute. rewrite requireAdmin_self. simpl.
  rewrite bool_decide_true by done. simpl. rewrite Hw. simpl. by rewrite Hd.
Qed.

Lemma receive_reset_admin env from s :
  from = admin s -> phase s = Distributed ->
  receive env from ResetLottery s = Ok (constructor (admin s) (ticketPrice s), []).
Proof. intros -> Hph. simpl. unfold reset. rewrite requireAdmin_self. simpl. by rewrite bool_decide_true. Qed.

Lemma run_buy_calls env bs s rest :
  phase s = Open -> 0 <= ticketPrice s ->
  prizePool s + ticketPrice s * Z.of_nat (length bs) < UINT256_BOUND ->
  run_calls s (buy_calls env (ticketPrice s) bs ++ rest) =
    let '(s'', vin, out) := run_calls (with_entries s bs) rest in
    (s'', ticketPrice s * Z.of_nat (length bs) + vin, out).
Proof.
  revert s. induction bs as [|b bs IH]; intros s Hph Hp Hb.
  - simpl. rewrite with_entries_nil. destruct (run_calls s rest) as [[? ?] ?]. pair_eq; try reflexivity; lia.
  - simpl in Hb. simpl (buy_calls _ _ _ ++ _).
    rewrite (run_calls_cons_Ok _ _ _ _ _ _ _ (receive_buy_at_price env b s Hph ltac:(lia))).
    change (buy_calls env (ticketPrice s) bs) with
      (buy_calls env (ticketPrice (with_entries s [b])) bs).
    rewrite (IH (with_entries s [b])) by (simpl; auto; lia).
    rewrite with_entries_app. simpl (ticketPrice (with_entries s [b])).
    change ([b] ++ bs) with (b :: bs).
    destruct (run_calls (with_entries s (b :: bs)) rest) as [[? ?] ?]. simpl. pair_eq; try reflexivity; lia.
Qed.

Definition round_calls (env : TxEnv) (a : Address) : list (TxEnv * Address * Tx) :=
  [(env, a, DrawWinner); (env, a, DistributePrize); (env, a, ResetLottery)].

Lemma run_round_calls env s w :
  phase s = Open ->
  participants s !! DrawEngine.select_index (env_sample env) (length (participants s)) = Some w ->
  env_deliver env w (prizePool s) = true ->
  run_calls s (round_calls env (admin s)) =
    (constructor (admin s) (ticketPrice s), 0, [mkTransfer w (prizePool s)]).
Proof.
  intros Hph Hlk Hd. unfold round_calls.
  rewrite (run_calls_cons_Ok _ _ _ _ _ _ _ (receive_draw_admin env _ s w eq_refl Hph Hlk)).
  rewrite (run_calls_cons_Ok _ _ _ _ _ _ _
             (receive_distribute_admin env _ (drawn_with s w) w eq_refl eq_refl eq_refl Hd)).
  rewrite (run_calls_cons_Ok _ _ _ _ _ _ _
             (receive_reset_admin env _ (PrizeVault.payout_effects (drawn_with s w)) eq_refl eq_refl)).
  reflexivity.
Qed.

(** C12: Round trip (spec §8): from a fresh deployment, any non-empty
    sequence of purchases at the price followed by draw, payout and reset
    by the administrator succeeds throughout, pays the whole pool once to
    one of the buyers, and returns the storage to the freshly deployed
    one (same admin and price). *)
Theorem round_trip env a p bs :
  0 <= p -> bs <> [] -> p * Z.of_nat (length bs) < UINT256_BOUND ->
  (forall w v, env_deliver env w v = true) ->
  exists w, w ∈ bs /\
    run_calls (constructor a p) (buy_calls env p bs ++ round_calls env a) =
      (constructor a p, p * Z.of_nat (length bs), [mkTransfer w (p * Z.of_nat (length bs))]).
Proof.
  intros Hp Hne Hb Hd.
  destruct (lookup_mod_Some bs (env_sample env) Hne) as [w Hw].
  exists w. split; [by eapply list_elem_of_lookup_2 |].
  change (buy_calls env p bs) with (buy_calls env (ticketPrice (constructor a p)) bs).
  rewrite run_buy_calls by (simpl; auto; lia).
  change (round_calls env a) with (round_calls env (admin (with_entries (constructor a p) bs))).
  rewrite (run_round_calls env _ w); [| done | exact Hw | apply Hd].
  simpl. pair_eq; [reflexivity | lia | do 3 f_equal; lia].
Qed.

Lemma round_trip_witness :
  exists w, w ∈ [10; 11; 12] /\
    run_calls (constructor 1 100)
      (buy_calls (mkTxEnv 7 (fun _ _ => true)) 100 [10; 11; 12] ++
       round_calls (mkTxEnv 7 (fun _ _ => true)) 1) =
    (constructor 1 100, 100 * Z.of_nat (length [10; 11; 12]),
     [mkTransfer w (100 * Z.of_nat (length [10; 11; 12]))]).
Proof. apply round_trip; [lia | discriminate | vm_compute; reflexivity | reflexivity]. Defined.

Lemma complete_from_open env s :
  phase s = Open -> participants s <> [] -> (forall w v, env_deliver env w v = true) ->
  (run_calls s (round_calls env (admin s))).1.1 = constructor (admin s) (ticketPrice s).
Proof.
  intros Hph Hne Hd. destruct (lookup_mod_Some _ (env_sample env) Hne) as [w Hw].
  by rewrite (run_round_calls env s w Hph Hw (Hd _ _)).
Qed.

(** C13: Liveness: from every state satisfying the invariant, when
    transfers are delivered, the administrator can always complete the
    round and bring the storage back to a fresh round (same admin and
    price) within at most four transactions; the lottery never gets
    stuck in a phase. *)
Theorem round_always_completable env s :
  inv s -> (forall w v, env_deliver env w v = true) ->
  exists calls, (length calls <= 4)%nat /\
    (run_calls s calls).1.1 = constructor (admin s) (ticketPrice s).
Proof.
  intros [Hpool Hwin Hprice _ _] Hd. unfold pool_accounted, winner_consistent in *.
  destruct (phase s) eqn:Hph.
  - destruct (participants s) as [|p0 ps] eqn:Hps.
    + exists ((env, admin s, BuyTicket (ticketPrice s)) :: round_calls env (admin s)).
      split; [simpl; lia |].
      rewrite (run_calls_cons_Ok_final _ _ _ _ _ _ _ (receive_buy_at_price env (admin s) s Hph
                 ltac:(rewrite Hpool; unfold uint256 in Hprice; simpl; lia))).
      change (admin s) with (admin (with_entries s [admin s])) at 2.
      rewrite complete_from_open; [done | done | simpl; rewrite Hps; discriminate | done].
    + exists (round_calls env (admin s)). split; [simpl; lia |].
      apply complete_from_open; [done | rewrite Hps; discriminate | done].
  - destruct (winner s) as [w|] eqn:Hw; [| done].
    exists [(env, admin s, DistributePrize); (env, admin s, ResetLottery)]. split; [simpl; lia |].
    rewrite (run_calls_cons_Ok _ _ _ _ _ _ _ (receive_distribute_admin env _ s w eq_refl Hph Hw (Hd _ _))).
    rewrite (run_calls_cons_Ok _ _ _ _ _ _ _
               (receive_reset_admin env _ (PrizeVault.payout_effects s) eq_refl eq_refl)).
    reflexivity.
  - exists [(env, admin s, ResetLottery)]. split; [simpl; lia |].
    by rewrite (run_calls_cons_Ok _ _ _ _ _ _ _ (receive_reset_admin env _ s eq_refl Hph)).
Qed.

Lemma round_always_completable_witness :
  exists calls, (length calls <= 4)%nat /\
    (run_calls drawn_state calls).1.1 = constructor 1 100.
Proof. apply (round_always_completable (mkTxEnv 0 (fun _ _ => true)) drawn_state inv_drawn_state). reflexivity. Defined.

(** ** The contract implements the client interface *)

Lemma receive_keeps_config env from t s s' ts :
  receive env from t s = Ok (s', ts) -> admin s' = admin s /\ ticketPrice s' = ticketPrice s.
Proof.
  intros H. apply receive_Ok in H. destruct t.
  - destruct H as [_ (_ & _ & _ & ->)%enter_Ok]. done.
  - destruct H as [_ (_ & _ & _ & w & _ & ->)%draw_Ok]. done.
  - apply distribute_Ok in H as (_ & _ & w & _ & _ & -> & _). done.
  - destruct H as [_ (_ & _ & ->)%reset_Ok]. done.
Qed.

Lemma api_submit_Ok e from t s s' :
  api_submit e from t s = Ok s' -> exists ts, receive e from t s = Ok (s', ts).
Proof. simpl. destruct (receive e from t s) as [[? ?]|]; intros H; inv_ok; eauto. Qed.

(** The contract meets the laws its clients rely on ([LotteryApiLaws]):
    admin and ticket price never change, privileged transactions of
    other accounts revert with [Unauthorized], a purchase is refused as
    incorrect only for a payment different from the price, and a
    successful purchase appends the buyer. *)
#[export] Instance lottery_api_laws : LotteryApiLaws LotteryState.
Proof.
  split.
  - intros e from t s s' (ts & H)%api_submit_Ok. simpl. by apply receive_keeps_config in H as [_ ->].
  - intros e from t s s' (ts & H)%api_submit_Ok. simpl. by apply receive_keeps_config in H as [-> _].
  - intros e from t s Ht Hne. destruct t; try discriminate; simpl;
      unfold DrawEngine.draw, PrizeVault.distribute, reset; by rewrite requireAdmin_other.
  - intros e from v s. simpl. unfold TicketLedger.enter.
    destruct (decide (phase s = Open)) as [Hph | Hph];
      [rewrite bool_decide_true by done | by rewrite bool_decide_false].
    simpl. destruct (decide (v = ticketPrice s)) as [-> | Hv]; [| done].
    rewrite bool_decide_true by done. simpl. unfold checked_add.
    by destruct (_ <? _).
  - intros e from v s s' (ts & H)%api_submit_Ok.
    apply receive_Ok in H as [_ (_ & _ & _ & ->)%enter_Ok]. simpl. done.
Qed.


Lemma run_calls_conserves_funds_witness :
  prizePool (run_calls drawn_state [(mkTxEnv 0 (fun _ _ => true), 1%Z, DistributePrize)]).1.1 +
  sum_transfers (run_calls drawn_state [(mkTxEnv 0 (fun _ _ => true), 1%Z, DistributePrize)]).2 =
  prizePool drawn_state + 0.
Proof.
  apply (run_calls_conserves_funds [(mkTxEnv 0 (fun _ _ => true), 1%Z, DistributePrize)] drawn_state);
    [exact inv_drawn_state | reflexivity].
Defined.
