(* ===== verification/Reentrancy.v ===== *)
(** * Reentrant payouts (spec §4.4 and §9)

    [Lottery] treats the payout of [distributePrize] as an oracle that
    delivers or not.  On a chain the payout is a call to the winner's
    code, which may call back into the lottery before it returns: the
    reentrancy that spec §9 guards against with the
    checks-effects-interactions order of §4.4.  Here the code of every
    account is a [Fallback] (the calls it makes back, given the storage
    it can observe, and whether it accepts the payment), and [exec]
    runs a transaction with those nested calls depth-first, down to the
    EVM call depth [CALL_DEPTH]; a nested call that reverts changes
    nothing.  [exec] returns the storage, the transfers made and the
    value received, nested calls included.

    The theorems: funds are conserved across any nesting (so a payout
    never exceeds the pool plus what nested purchases paid in), and
    with recipients that make no calls [exec] is the oracle model of
    [Lottery] ([LifecycleController.receive]). *)

From stdpp Require Import base list decidable.
From Stdlib Require Import ZArith Lia.
From S2P Require Import Prelude Api Lottery.

Open Scope Z_scope.

(** The code at an address, run when it is paid: the calls it makes
    back into the lottery, chosen from the storage it can read, and
    whether it then accepts the payment. *)
Record Fallback := mkFallback {
  fb_calls : LotteryState -> list Tx;
  fb_accepts : bool
}.

(** The EVM's limit on nested calls. *)
Definition CALL_DEPTH : nat := 1024.

Abbreviation Outcome := (result (LotteryState * list Transfer * Z) LotteryError) (only parsing).

(** The nested calls of a fallback, in order; a reverted call changes
    nothing. *)
Fixpoint run_fallback (f : Tx -> LotteryState -> Outcome) (calls : list Tx) (st : LotteryState)
  : LotteryState * list Transfer * Z :=
  match calls with
  | [] => (st, [], 0)
  | c :: rest =>
      match f c st with
      | Ok (st', ts, r) =>
          let '(st2, ts2, r2) := run_fallback f rest st' in (st2, ts ++ ts2, r + r2)
      | Err _ => run_fallback f rest st
      end
  end.

(** A transaction with its nested calls, [depth] levels of calls left.
    [distributePrize] applies its effects ([payout_effects]) before it
    pays the winner, whose code then runs on the updated storage. *)
Fixpoint exec (depth : nat) (code : Address -> Fallback) (sample : Z) (caller : Address) (t : Tx)
  (s : LotteryState) {struct depth} : Outcome :=
  match t with
  | DistributePrize =>
      AccessControl.requireAdmin caller s ;;;
      require (bool_decide (phase s = Drawn)) InvalidPhase ;;;
      w <- of_option (winner s) InvalidPhase ;;
      let amount := prizePool s in
      let s' := PrizeVault.payout_effects s in
      match depth with
      | O => Err TransferFailed
      | S d =>
          let '(s'', ts, r) := run_fallback (fun c st => exec d code sample w c st)
                                 (fb_calls (code w) s') s' in
          if fb_accepts (code w) then Ok (s'', mkTransfer w amount :: ts, r)
          else Err TransferFailed
      end
  | _ =>
      match LifecycleController.receive (mkTxEnv sample (fun _ _ => true)) caller t s with
      | Ok (s', ts) => Ok (s', ts, value_in t)
      | Err e => Err e
      end
  end.

(** The oracle view of the same accounts: a payment is delivered
    exactly when the recipient accepts it. *)
Definition oracle_env (code : Address -> Fallback) (sample : Z) : TxEnv :=
  mkTxEnv sample (fun w _ => fb_accepts (code w)).

(** A result of the oracle model with the value it received. *)
Definition with_value (t : Tx) (r : result (LotteryState * list Transfer) LotteryError) : Outcome :=
  match r with
  | Ok (s', ts) => Ok (s', ts, value_in t)
  | Err e => Err e
  end.

(** An administrator account that entered and won, and whose code,
    when paid, tries a second payout, then resets and buys a ticket. *)
Definition admin_winner_state : LotteryState :=
  mkLottery 1 100 [1; 2] 200 (Some 1) Drawn.

Definition reentrant_admin (a : Address) : Fallback :=
  if bool_decide (a = 1) then mkFallback (fun _ => [DistributePrize; ResetLottery; BuyTicket 100]) true
  else mkFallback (fun _ => []) true.

(** Accounts that accept every payment and make no calls. *)
Definition silent (a : Address) : Fallback := mkFallback (fun _ => []) true.

(** * Theorems *)

(** Funds are conserved by one call, and the invariant kept. *)
Definition conserving (f : Tx -> LotteryState -> Outcome) : Prop :=
  forall c st st' ts r, inv st -> f c st = Ok (st', ts, r) ->
    inv st' /\ prizePool st' + sum_transfers ts = prizePool st + r.

Lemma sum_transfers_cons tr ts : sum_transfers (tr :: ts) = tr_amount tr + sum_transfers ts.
Proof. reflexivity. Qed.

Lemma run_fallback_conserves f calls st st2 ts2 r2 :
  conserving f -> inv st -> run_fallback f calls st = (st2, ts2, r2) ->
  inv st2 /\ prizePool st2 + sum_transfers ts2 = prizePool st + r2.
Proof.
  intros Hf. revert st st2 ts2 r2. induction calls as [|c rest IH]; intros st st2 ts2 r2 Hinv H; simpl in H.
  - injection H as <- <- <-. simpl. split; [done | lia].
  - destruct (f c st) as [[[st' ts] r] | e] eqn:Hc; [| by apply (IH st)].
    destruct (Hf c st st' ts r Hinv Hc) as [Hinv' Hcons].
    destruct (run_fallback f rest st') as [[s3 ts3] r3] eqn:Hr. injection H as <- <- <-.
    destruct (IH st' s3 ts3 r3 Hinv' Hr) as [Hinv3 Hcons3].
    rewrite sum_transfers_app. split; [done | lia].
Qed.

Lemma inv_payout_effects c s w :
  inv s -> AccessControl.requireAdmin c s = Ok tt -> phase s = Drawn -> winner s = Some w ->
  inv (PrizeVault.payout_effects s).
Proof.
  intros Hinv Ha Hph Hw. apply (inv_distribute (fun _ _ => true) c s _ [mkTransfer w (prizePool s)] Hinv).
  unfold PrizeVault.distribute. rewrite Ha. simpl. rewrite bool_decide_true by done. simpl.
  by rewrite Hw.
Qed.

Lemma exec_other_Ok d code sample caller t s s' ts r :
  t <> DistributePrize -> exec d code sample caller t s = Ok (s', ts, r) ->
  LifecycleController.receive (mkTxEnv sample (fun _ _ => true)) caller t s = Ok (s', ts) /\ r = value_in t.
Proof.
  intros Ht H. destruct d, t; try congruence; cbn [exec] in H;
    match type of H with context [LifecycleController.receive ?e ?c ?t ?s] =>
      destruct (LifecycleController.receive e c t s) as [[s1 ts1] | e'] end;
    inversion H; subst; auto.
Qed.

(** The successful [distributePrize] of [exec], unfolded. *)
Lemma exec_distribute_Ok d code sample caller s s' ts r :
  exec (S d) code sample caller DistributePrize s = Ok (s', ts, r) ->
  AccessControl.requireAdmin caller s = Ok tt /\ phase s = Drawn /\
  exists w, winner s = Some w /\ fb_accepts (code w) = true /\
    exists ts', ts = mkTransfer w (prizePool s) :: ts' /\
    run_fallback (fun c st => exec d code sample w c st)
      (fb_calls (code w) (PrizeVault.payout_effects s)) (PrizeVault.payout_effects s) = (s', ts', r).
Proof.
  cbn [exec]. intros ([] & Ha & H)%bind_Ok_inv. apply bind_Ok_inv in H as ([] & Hp%require_Ok & H).
  apply bind_Ok_inv in H as (w & Hw%of_option_Ok & H).
  destruct (run_fallback _ _ _) as [[s2 ts2] r2] eqn:Hr.
  destruct (fb_accepts (code w)) eqn:Hacc; [| discriminate]. injection H as <- <- <-.
  split; [done |]. split; [by apply bool_decide_eq_true in Hp |]. eauto 7.
Qed.

(** C30: Spec §9: with the checks-effects-interactions order, funds are
    conserved under reentrancy: whatever code the recipients run and
    however deep they call back into the lottery, a transaction that
    succeeds keeps the storage invariant and pays out exactly what the
    pool loses plus what nested purchases paid in; without nested
    purchases a payout never exceeds the pool. *)
Theorem exec_conserves d code sample caller t s s' ts r :
  inv s -> exec d code sample caller t s = Ok (s', ts, r) ->
  inv s' /\ prizePool s' + sum_transfers ts = prizePool s + r.
Proof.
  revert caller t s s' ts r. induction d as [|d IH]; intros caller t s s' ts r Hinv H.
  - destruct (decide (t = DistributePrize)) as [-> | Ht].
    + cbn [exec] in H. apply bind_Ok_inv in H as (_ & _ & H).
      apply bind_Ok_inv in H as (_ & _ & H). apply bind_Ok_inv in H as (_ & _ & H). discriminate.
    + apply exec_other_Ok in H as [Hr ->]; [| done].
      split; [eapply receive_inv | eapply receive_conserves]; eauto.
  - destruct (decide (t = DistributePrize)) as [-> | Ht].
    + apply exec_distribute_Ok in H as (Ha & Hph & w & Hw & _ & ts' & -> & Hrun).
      destruct (run_fallback_conserves _ _ _ _ _ _ (fun c st st' ts r => IH w c st st' ts r)
        (inv_payout_effects caller s w Hinv Ha Hph Hw) Hrun) as [Hinv' Hcons].
      split; [done |]. rewrite sum_transfers_cons. simpl in Hcons |- *. lia.
    + apply exec_other_Ok in H as [Hr ->]; [| done].
      split; [eapply receive_inv | eapply receive_conserves]; eauto.
Qed.

(** C31: With recipients that make no calls back, the nested execution
    is the oracle model of [Lottery]: every transaction has the outcome
    [LifecycleController.receive] gives when a payment is delivered
    exactly to the accounts that accept it. *)
Theorem exec_refines_receive d code sample caller t s :
  (forall w st, fb_calls (code w) st = []) ->
  exec (S d) code sample caller t s =
    with_value t (LifecycleController.receive (oracle_env code sample) caller t s).
Proof.
  intros Hnone. destruct t; cbn [exec]; try reflexivity.
  unfold LifecycleController.receive, PrizeVault.distribute, with_value, oracle_env; simpl.
  destruct (AccessControl.requireAdmin caller s) as [[] | e]; simpl; [| done].
  destruct (bool_decide (phase s = Drawn)); simpl; [| done].
  destruct (winner s) as [w |]; simpl; [| done].
  rewrite Hnone. simpl. by destruct (fb_accepts (code w)).
Qed.

Lemma exec_conserves_witness :
  prizePool (mkLottery 1 100 [1] 100 None Open) + sum_transfers [mkTransfer 1 200] =
  prizePool admin_winner_state + 100.
Proof.
  refine (proj2 (exec_conserves CALL_DEPTH reentrant_admin 0 1 DistributePrize admin_winner_state
    (mkLottery 1 100 [1] 100 None Open) [mkTransfer 1 200] 100 _ _)).
  - split; unfold pool_accounted, winner_consistent, uint256, address160, UINT256_BOUND, ADDRESS_BOUND;
      simpl; try lia. apply elem_of_cons. by left.
  - vm_compute. reflexivity.
Defined.

Lemma exec_refines_receive_witness :
  exec 1 silent 0 1 DistributePrize drawn_state =
    with_value DistributePrize (LifecycleController.receive (oracle_env silent 0) 1 DistributePrize drawn_state).
Proof. apply (exec_refines_receive 0 silent 0 1 DistributePrize drawn_state). intros w st. reflexivity. Defined.
