(* ===== verification/Fairness.v ===== *)
(** * How evenly the draw selects (spec §4.3)

    [DrawEngine.draw] reduces one sample modulo the number of entries
    [n].  Over a sample space of [m] equally likely values ([m = 2^256]
    for a uint256 sample), [selections m n i] counts the samples that
    select entry [i].  The count is exact: [m / n] for every entry and
    one more for the first [m mod n] entries.  So the draw is uniform
    exactly when [n] divides [m], and for a uint256 sample only when
    [n] is a power of two; otherwise the earlier entrants are favoured,
    by one sample in [m / n]. *)

From stdpp Require Import base list decidable.
From Stdlib Require Import ZArith Lia.
From S2P Require Import Prelude Api Lottery.

(** The samples among [0 .. m-1] whose draw selects entry [i] of [n]. *)
Definition selections (m n i : nat) : nat :=
  length (List.filter (fun k => bool_decide (DrawEngine.select_index (Z.of_nat k) n = i)) (seq 0 m)).

(** The winner that the administrator's [drawWinner] transaction
    picks with the sample [k]. *)
Definition drawn_winner (s : LotteryState) (k : Z) : option Address :=
  match LifecycleController.receive (mkTxEnv k (fun _ _ => true)) (admin s) DrawWinner s with
  | Ok (s', _) => winner s'
  | Err _ => None
  end.

(** The samples among [0 .. m-1] with which [drawWinner] picks [a]. *)
Definition wins (s : LotteryState) (m : nat) (a : Address) : nat :=
  length (List.filter (fun k => bool_decide (drawn_winner s (Z.of_nat k) = Some a)) (seq 0 m)).

(** * Theorems *)

Lemma select_index_nat k n : (0 < n)%nat -> DrawEngine.select_index (Z.of_nat k) n = (k mod n)%nat.
Proof. intros Hn. unfold DrawEngine.select_index. rewrite <- Nat2Z.inj_mod. apply Nat2Z.id. Qed.

Lemma selections_succ m n i :
  (0 < n)%nat ->
  selections (S m) n i = (selections m n i + if bool_decide (m mod n = i) then 1 else 0)%nat.
Proof.
  intros Hn. unfold selections. rewrite seq_S, filter_app, length_app. simpl.
  rewrite select_index_nat by done. by case_bool_decide.
Qed.

(** The quotient and remainder of [S m] from those of [m]. *)
Lemma divmod_succ m n :
  (0 < n)%nat ->
  (S m / n = m / n + (if bool_decide (S (m mod n) = n) then 1 else 0) /\
   S m mod n = if bool_decide (S (m mod n) = n) then 0 else S (m mod n))%nat.
Proof.
  intros Hn. pose proof (Nat.div_mod m n ltac:(lia)) as Hm. pose proof (Nat.mod_upper_bound m n ltac:(lia)).
  case_bool_decide as He.
  - split; [symmetry; apply (Nat.div_unique _ _ _ 0) | symmetry; apply (Nat.mod_unique _ _ (m / n + 1))]; lia.
  - split; [symmetry; apply (Nat.div_unique _ _ _ (S (m mod n))) | symmetry; apply (Nat.mod_unique _ _ (m / n))]; lia.
Qed.

Lemma selections_count m n i :
  (0 < n)%nat -> (i < n)%nat ->
  selections m n i = (m / n + if bool_decide (i < m mod n) then 1 else 0)%nat.
Proof.
  intros Hn Hi. induction m as [|m IH].
  - unfold selections. simpl. rewrite Nat.Div0.div_0_l, Nat.Div0.mod_0_l. by case_bool_decide; [lia |].
  - rewrite selections_succ, IH by done. destruct (divmod_succ m n Hn) as [-> ->].
    pose proof (Nat.mod_upper_bound m n ltac:(lia)).
    repeat case_bool_decide; lia.
Qed.

Lemma drawn_winner_index s k a i :
  phase s = Open -> NoDup (participants s) -> participants s !! i = Some a ->
  drawn_winner s (Z.of_nat k) = Some a <-> (k mod length (participants s) = i)%nat.
Proof.
  intros Hph Hnd Hi. assert (0 < length (participants s))%nat as Hn
    by (apply lookup_lt_Some in Hi; lia).
  destruct (lookup_lt_is_Some_2 (participants s) (k mod length (participants s)))
    as [b Hb]; [apply Nat.mod_upper_bound; lia |].
  unfold drawn_winner.
  rewrite (receive_draw_admin _ _ s b) by (cbn [env_sample]; rewrite ?select_index_nat; done).
  simpl. split.
  - intros [= ->]. eapply NoDup_lookup; eauto.
  - intros <-. congruence.
Qed.

(** C32: Modulo bias of the draw: when [n] distinct accounts have
    entered, among [m] equally likely samples the administrator's
    [drawWinner] picks the entrant at position [i] with exactly [m / n]
    of them, plus one when [i < m mod n].  Every entrant's chance is
    within one sample of every other's, the earlier entrants are the
    favoured ones, and the draw is uniform exactly when [n] divides the
    sample space. *)
Theorem draw_win_counts s m i a :
  phase s = Open -> NoDup (participants s) -> participants s !! i = Some a ->
  wins s m a = (m / length (participants s) +
                if bool_decide (i < m mod length (participants s)) then 1 else 0)%nat.
Proof.
  intros Hph Hnd Hi. assert (0 < length (participants s))%nat as Hn
    by (apply lookup_lt_Some in Hi; lia).
  rewrite <- selections_count by (done || by apply lookup_lt_Some in Hi).
  unfold wins, selections. f_equal. apply List.filter_ext. intros k.
  apply bool_decide_ext. rewrite drawn_winner_index, select_index_nat by done. done.
Qed.

Lemma draw_win_counts_witness :
  wins (mkLottery 1 100 [10; 11; 12] 300 None Open) 10 10 = 4%nat.
Proof.
  rewrite (draw_win_counts (mkLottery 1 100 [10; 11; 12] 300 None Open) 10 0 10);
    [reflexivity | reflexivity | | reflexivity].
  apply (bool_decide_unpack _). vm_compute. exact I.
Defined.
