(* ===== verification/Abi.v ===== *)
(** * The contract ABI of the front end (src/frontend/lottery.js)

    [contractABI] is the JSON array of lottery.js lines 3-140, entry by
    entry and field by field; [contractAddress] the deployed address of
    line 2.  [abi_function] and [abi_send_check] are what ethers v5 does
    with that array when the pages call [contract.f(...)]: look the
    function up by name, check the number of arguments, and refuse a
    value for a non-payable entry.  [Frontend.send_tx] runs this check
    before the wallet is asked, so the handlers' theorems hold of the
    ABI as written. *)

From stdpp Require Import base list decidable strings.
From Stdlib Require Import ZArith.
From S2P Require Import Prelude Api.

Open Scope string_scope.

Inductive StateMutability := Pure | View | Nonpayable | Payable.
Inductive EntryType := EConstructor | EFunction.

#[export] Instance StateMutability_eq_dec : EqDecision StateMutability.
Proof. solve_decision. Defined.
#[export] Instance EntryType_eq_dec : EqDecision EntryType.
Proof. solve_decision. Defined.

(** One element of "inputs" or "outputs". *)
Record AbiParam := mkParam {
  p_internalType : string;
  p_name : string;
  p_type : string
}.

(** One element of the ABI array; the constructor entry has no "name"
    and no "outputs" field ([None] and [[]]). *)
Record AbiEntry := mkEntry {
  e_inputs : list AbiParam;
  e_name : option string;
  e_outputs : list AbiParam;
  e_stateMutability : StateMutability;
  e_type : EntryType
}.

Definition contractAddress : string := "0x5E34Cf7BFf346Ae078EbC431dC89EE7D2cc7c717".

Definition view_fn (name ty : string) : AbiEntry :=
  mkEntry [] (Some name) [mkParam ty "" ty] View EFunction.

Definition contractABI : list AbiEntry := [
  mkEntry [mkParam "uint256" "_ticketPrice" "uint256"] None [] Nonpayable EConstructor;
  view_fn "admin" "address";
  mkEntry [] (Some "buyTicket") [] Payable EFunction;
  mkEntry [] (Some "distributePrize") [] Nonpayable EFunction;
  mkEntry [] (Some "drawWinner") [] Nonpayable EFunction;
  view_fn "getParticipants" "address[]";
  view_fn "getPrizePool" "uint256";
  view_fn "isDrawDone" "bool";
  mkEntry [mkParam "uint256" "" "uint256"] (Some "participants")
          [mkParam "address" "" "address"] View EFunction;
  mkEntry [] (Some "resetLottery") [] Nonpayable EFunction;
  view_fn "ticketPrice" "uint256";
  view_fn "winner" "address"
].

(** ethers resolves [contract.name(...)] to the function entry of that
    name. *)
Fixpoint abi_function (abi : list AbiEntry) (name : string) : option AbiEntry :=
  match abi with
  | [] => None
  | e :: rest =>
      if bool_decide (e_name e = Some name /\ e_type e = EFunction) then Some e
      else abi_function rest name
  end.

(** The ABI name of each transaction of the interface. *)
Definition tx_name (t : Tx) : string :=
  match t with
  | BuyTicket _ => "buyTicket"
  | DrawWinner => "drawWinner"
  | DistributePrize => "distributePrize"
  | ResetLottery => "resetLottery"
  end.

(** ethers v5 [contract.f(...args, overrides)] when it builds a
    transaction, before the wallet is asked: [contract.f] exists only
    for a function entry of the ABI (calling an absent one is a
    TypeError); the positional arguments must be as many as the entry's
    inputs ([checkArgumentCount]); a non-zero [value] override needs a
    payable entry.  The result is the reason of the error thrown, if
    any. *)
Definition abi_send_check (abi : list AbiEntry) (name : string) (args : nat) (value : Z) : option string :=
  match abi_function abi name with
  | None => Some ("contract." ++ name ++ " is not a function")
  | Some e =>
      if Nat.ltb args (length (e_inputs e)) then Some "missing argument: passed to contract"
      else if Nat.ltb (length (e_inputs e)) args then Some "too many arguments: passed to contract"
      else if negb (bool_decide (e_stateMutability e = Payable)) && negb (bool_decide (value = 0%Z))
      then Some "non-payable method cannot override value"
      else None
  end.

(** * Theorems *)

(** The four transactions the front end sends ([contract.drawWinner()],
    [distributePrize()], [resetLottery()] in admin.js and
    [buyTicket({ value })] in user.js) all pass the checks of ethers
    against [contractABI]: only [buyTicket] carries a value, and it is
    the payable entry. *)
Lemma abi_send_check_frontend t : abi_send_check contractABI (tx_name t) 0 (value_in t) = None.
Proof. by destruct t. Qed.
