(* ===== verification/Js.v ===== *)
(** * JavaScript control flow

    The front end and the deployment script are async JavaScript
    functions: they thread mutable state (the DOM, the console), throw
    and catch exceptions (a rejected promise is a thrown error at its
    [await]), run [finally] blocks and may stop the process
    ([process.exit]).  [JS S A] is that effect: a state-passing function
    whose completion is normal, a thrown error with its message, or an
    exit with its code.  Each await point is a bind; the order of the
    steps is the order of the source lines. *)

From stdpp Require Import base list decidable strings.
From Stdlib Require Import ZArith.
From S2P Require Import Prelude.

Inductive Completion (A : Type) : Type :=
| Normal (a : A)
| Thrown (msg : string)
| Exited (code : Z).
Arguments Normal {A} a.
Arguments Thrown {A} msg.
Arguments Exited {A} code.

Definition JS (S A : Type) : Type := S -> S * Completion A.

Section Monad.
Context {S : Type}.

Definition js_ret {A} (a : A) : JS S A := fun st => (st, Normal a).
Definition js_throw {A} (msg : string) : JS S A := fun st => (st, Thrown msg).
Definition js_exit {A} (code : Z) : JS S A := fun st => (st, Exited code).
Definition js_modify (f : S -> S) : JS S unit := fun st => (f st, Normal tt).
Definition js_get : JS S S := fun st => (st, Normal st).

Definition js_bind {A B} (c : JS S A) (k : A -> JS S B) : JS S B :=
  fun st =>
    match c st with
    | (st', Normal a) => k a st'
    | (st', Thrown m) => (st', Thrown m)
    | (st', Exited n) => (st', Exited n)
    end.

(** [try { c } catch (error) { h(error.message) }]: an exit is not
    caught. *)
Definition js_try_catch {A} (c : JS S A) (h : string -> JS S A) : JS S A :=
  fun st =>
    match c st with
    | (st', Thrown m) => h m st'
    | r => r
    end.

(** [try { c } finally { f }]: [f] runs after a normal or a thrown
    completion; its own throw replaces the completion of [c]. *)
Definition js_try_finally {A} (c : JS S A) (f : JS S unit) : JS S A :=
  fun st =>
    match c st with
    | (st', Exited n) => (st', Exited n)
    | (st', r) =>
        match f st' with
        | (st'', Normal _) => (st'', r)
        | (st'', Thrown m) => (st'', Thrown m)
        | (st'', Exited n) => (st'', Exited n)
        end
    end.
End Monad.

Declare Scope js_scope.
Delimit Scope js_scope with js.
Notation "'let*' x ':=' c 'in' k" := (js_bind c (fun x => k))
  (at level 10, x name, c at level 100, k at level 200) : js_scope.
Notation "c ;> k" := (js_bind c (fun _ => k)) (at level 100, right associativity) : js_scope.

(** A step that finishes normally without exiting. *)
Definition completes {S A} (c : JS S A) (st : S) : Prop :=
  exists a, (c st).2 = Normal a.

Lemma js_bind_run {S A B} (c : JS S A) (k : A -> JS S B) st st' a :
  c st = (st', Normal a) -> js_bind c k st = k a st'.
Proof. intros H. unfold js_bind. by rewrite H. Qed.

Lemma js_bind_thrown {S A B} (c : JS S A) (k : A -> JS S B) st st' m :
  c st = (st', Thrown m) -> js_bind c k st = (st', Thrown m).
Proof. intros H. unfold js_bind. by rewrite H. Qed.

Lemma js_bind_exited {S A B} (c : JS S A) (k : A -> JS S B) st st' n :
  c st = (st', Exited n) -> js_bind c k st = (st', Exited n).
Proof. intros H. unfold js_bind. by rewrite H. Qed.

(** The [finally] block runs on every completion but an exit. *)
Lemma js_try_finally_runs {S A} (c : JS S A) (f : JS S unit) st st' r :
  c st = (st', r) -> (forall n, r <> Exited n) ->
  js_try_finally c f st =
    match f st' with
    | (st'', Normal _) => (st'', r)
    | (st'', Thrown m) => (st'', Thrown m)
    | (st'', Exited n) => (st'', Exited n)
    end.
Proof. intros H Hr. unfold js_try_finally. rewrite H. destruct r; [done | done | by destruct (Hr code)]. Qed.

(** The [catch] block of [try]/[catch]: skipped on a normal completion,
    run on the message of a throw. *)
Lemma js_try_catch_normal {S A} (c : JS S A) h st st' a :
  c st = (st', Normal a) -> js_try_catch c h st = (st', Normal a).
Proof. intros H. unfold js_try_catch. by rewrite H. Qed.

Lemma js_try_catch_thrown {S A} (c : JS S A) h st st' m :
  c st = (st', Thrown m) -> js_try_catch c h st = h m st'.
Proof. intros H. unfold js_try_catch. by rewrite H. Qed.
