(* ===== verification/Deploy.v ===== *)
(** * The deployment script (src/scripts/deploy.js)

    [main] follows deploy.js [main] (lines 3-113) statement by statement
    in the [JS] monad, with the console as an append-only log of
    [Effect]s.  The network is the record [DeployEnv]: the answer to
    each awaited read ([Net]: a value or a rejection), that is the
    signer's address, its balance, the fee data's gas price ([None] for
    the [null] that ethers returns on networks without a legacy gas
    price), the nonce and the contract factory, and the outcome of the
    deployment with the reads that follow it.  BigInt arithmetic is
    on [Z] with JavaScript's truncating division ([Z.quot]).  The
    wrapper [script] is [main().catch(...)] (lines 115-118). *)

From stdpp Require Import base list decidable strings.
From Stdlib Require Import ZArith Lia Ascii.
From S2P Require Import Prelude Js.

Open Scope Z_scope.
Open Scope js_scope.

(** An argument of [console.log]/[console.error]: a string, or a
    BigInt printed with [ethers.formatEther], [ethers.formatUnits(_,
    "gwei")] or [toString]/number formatting. *)
Inductive Fmt :=
| FStr (s : string)
| FEther (wei : Z)
| FGwei (wei : Z)
| FNum (z : Z).

Inductive Effect :=
| Log (parts : list Fmt)
| LogError (parts : list Fmt)
| Stdout (s : string)
(** [setInterval(..., 3000)] (line 76) and [clearInterval] (line 87) *)
| SetInterval
| ClearInterval
(** [Lottery.deploy(ticketPrice, { gasLimit, gasPrice, nonce })] *)
| DeployRequest (ticketPrice gasLimit gasPrice nonce : Z).

(** The answer to an awaited network request: its value, or the
    rejection of the promise with the error's message. *)
Inductive Net (A : Type) :=
| Answered (a : A)
| NetRejected (msg : string).
Arguments Answered {A} a.
Arguments NetRejected {A} msg.

(** [await lottery.waitForDeployment()] (line 86): confirmed, after
    which [getAddress()] (line 89) and [provider.getCode] (line 94)
    answer or reject; or failed. *)
Inductive WaitOutcome :=
| Confirmed (address : Net string) (code : Net string)
| WaitFailed (msg : string).

Inductive DeployOutcome :=
| SendRejected (msg : string)
(** sent with its hash; the progress interval fires [ticks] times before
    [waitForDeployment] settles *)
| Sent (hash : string) (ticks : nat) (wait : WaitOutcome).

#[export] Instance Fmt_eq_dec : EqDecision Fmt.
Proof. solve_decision. Defined.
#[export] Instance Effect_eq_dec : EqDecision Effect.
Proof. solve_decision. Defined.

(** The network as the script sees it, one field per awaited read:
    [getSigners()] and [signer.getAddress()] (lines 8-9),
    [getBalance] (14), [getFeeData()] with its [gasPrice] (23, 26),
    [getTransactionCount] (52), [getContractFactory("Lottery")] (57),
    then the deployment. *)
Record DeployEnv := mkDeployEnv {
  de_wallet : Net string;
  de_balance : Net Z;
  de_gasPrice : Net (option Z);
  de_nonce : Net Z;
  de_factory : Net unit;
  de_outcome : DeployOutcome
}.

Abbreviation Console := (list Effect).

Definition newline : string := String (ascii_of_nat 10) EmptyString.

Definition emit (e : Effect) : JS Console unit := js_modify (fun log => log ++ [e]).

(** [await] on a network request: a rejection throws its message. *)
Definition await_net {A} (r : Net A) : JS Console A :=
  match r with
  | Answered a => js_ret a
  | NetRejected m => js_throw m
  end.

(** [ethers.parseEther("0.0001")] (line 18): 10^14 wei. *)
Definition TICKET_PRICE : Z := 10 ^ 14.
(** line 34 *)
Definition GAS_LIMIT : Z := 1000000.

(** [currentGasPrice * 120n / 100n] (line 27): a BigInt product and
    truncating quotient; [null * 120n] throws a TypeError. *)
Definition scaled_gas_price (current : option Z) : JS Console Z :=
  match current with
  | Some c => js_ret (Z.quot (c * 120) 100)
  | None => js_throw "Cannot mix BigInt and other types, use explicit conversions"
  end.

(** [currentGasPrice || 0n] (line 30). *)
Definition or_zero (current : option Z) : Z :=
  match current with Some c => c | None => 0 end.

(** JavaScript's [s.includes(sub)]. *)
Fixpoint str_includes (s sub : string) : bool :=
  String.prefix sub s ||
  match s with
  | EmptyString => false
  | String _ rest => str_includes rest sub
  end.

(** One firing of the progress interval (lines 76-83). *)
Definition progress_tick (dots : string) : list Effect * string :=
  let dots1 := String.append dots "." in
  if Nat.ltb 60 (String.length dots1) then ([Stdout "."; Stdout newline], "")
  else ([Stdout "."], dots1).

Fixpoint progress (ticks : nat) (dots : string) : list Effect * string :=
  match ticks with
  | O => ([], dots)
  | S n =>
      let '(es1, d1) := progress_tick dots in
      let '(es2, d2) := progress n d1 in
      (es1 ++ es2, d2)
  end.

Definition emit_all (es : list Effect) : JS Console unit := js_modify (fun log => log ++ es).

(** The code check of lines 93-101. *)
Definition verify_code (address : string) (code_read : Net string) : JS Console unit :=
  emit (Log [FStr "Verifying contract has code..."]) ;>
  let* code := await_net code_read in
  if bool_decide (code = "0x") || bool_decide (code = "0x0") then
    emit (Log [FStr "Warning: No contract code found at address. Deployment may have failed."])
  else
    emit (Log [FStr "Contract verified - code exists at deployed address ✓"]) ;>
    emit (Log [FStr (String.append newline "Deployment successful! Your lottery contract is ready to use.")]) ;>
    emit (Log [FStr (String.append "View on Etherscan: https://sepolia.etherscan.io/address/" address)]).

(** The [try] block of lines 59-101. *)
Definition deploy_body (outcome : DeployOutcome) (gasPrice nonce : Z) : JS Console unit :=
  emit (DeployRequest TICKET_PRICE GAS_LIMIT gasPrice nonce) ;>
  match outcome with
  | SendRejected msg => js_throw msg
  | Sent hash ticks wait =>
      emit (Log [FStr "Transaction sent, hash:"; FStr hash]) ;>
      emit (Log [FStr "Waiting for transaction confirmation..."]) ;>
      emit (Log [FStr "(This could take a few minutes on Sepolia)"]) ;>
      emit SetInterval ;>
      emit_all (progress ticks "").1 ;>
      match wait with
      | WaitFailed msg => js_throw msg
      | Confirmed address_read code_read =>
          emit ClearInterval ;>
          let* address := await_net address_read in
          emit (Log [FStr (String.append newline "Lottery successfully deployed to:"); FStr address]) ;>
          verify_code address code_read
      end
  end.

(** The [catch] block of lines 102-112. *)
Definition deploy_failed (wallet msg : string) : JS Console unit :=
  emit (LogError [FStr (String.append newline "Failed to deploy contract:"); FStr msg]) ;>
  (if str_includes msg "timeout" then
     emit (Log [FStr (String.append newline "The transaction was sent but confirmation timed out.")]) ;>
     emit (Log [FStr "Your contract might still be deployed. Check your address on Etherscan:"]) ;>
     emit (Log [FStr (String.append "https://sepolia.etherscan.io/address/" wallet)])
   else js_ret tt) ;>
  js_exit 1.

Definition main (env : DeployEnv) : JS Console unit :=
  emit (Log [FStr "Starting optimized deployment process..."]) ;>
  emit (Log [FStr "Fetching signer..."]) ;>
  let* wallet := await_net (de_wallet env) in
  emit (Log [FStr "Deploying from wallet:"; FStr wallet]) ;>
  emit (Log [FStr "Checking wallet balance..."]) ;>
  let* balance := await_net (de_balance env) in
  emit (Log [FStr "Wallet balance:"; FEther balance; FStr "ETH"]) ;>
  emit (Log [FStr "Ticket price:"; FEther TICKET_PRICE; FStr "ETH"]) ;>
  emit (Log [FStr "Getting current gas prices..."]) ;>
  let* currentGasPrice := await_net (de_gasPrice env) in
  let* gasPrice := scaled_gas_price currentGasPrice in
  emit (Log [FStr "Current network gas price:"; FGwei (or_zero currentGasPrice); FStr "gwei"]) ;>
  emit (Log [FStr "Using gas price:"; FGwei gasPrice; FStr "gwei"]) ;>
  let gasCost := GAS_LIMIT * gasPrice in
  emit (Log [FStr "Gas limit:"; FNum GAS_LIMIT]) ;>
  emit (Log [FStr "Estimated gas cost:"; FEther gasCost; FStr "ETH"]) ;>
  (if balance <? gasCost then
     emit (LogError [FStr "Insufficient funds: have"; FEther balance; FStr "ETH, need";
                     FEther gasCost; FStr "ETH"]) ;>
     js_exit 1
   else js_ret tt) ;>
  let* nonce := await_net (de_nonce env) in
  emit (Log [FStr "Current account nonce:"; FNum nonce]) ;>
  emit (Log [FStr "Getting Lottery contract factory..."]) ;>
  await_net (de_factory env) ;>
  emit (Log [FStr "Deploying Lottery contract..."]) ;>
  js_try_catch (deploy_body (de_outcome env) gasPrice nonce) (deploy_failed wallet).

(** [main().catch((e) => { console.error("Deployment failed:", e.message);
    process.exit(1); })] *)
Definition script (env : DeployEnv) : JS Console unit :=
  js_try_catch (main env)
    (fun msg => emit (LogError [FStr "Deployment failed:"; FStr msg]) ;> js_exit 1).

(** Whether an interval timer is still scheduled after the effects
    [log], starting from [st]: Node keeps the process alive while one
    is. *)
Fixpoint timer_state (st : bool) (log : list Effect) : bool :=
  match log with
  | [] => st
  | SetInterval :: rest => timer_state true rest
  | ClearInterval :: rest => timer_state false rest
  | _ :: rest => timer_state st rest
  end.

Definition interval_running (log : list Effect) : bool := timer_state false log.

Definition is_newline (e : Effect) : bool := bool_decide (e = Stdout newline).
Definition is_dot (e : Effect) : bool := bool_decide (e = Stdout ".").

(** * Theorems *)

(** [s.includes(sub)] as modelled holds exactly when [sub] occurs in
    [s] as a contiguous substring. *)
Lemma str_includes_spec s sub :
  str_includes s sub = true <-> exists pre post, s = String.append pre (String.append sub post).
Proof.
  induction s as [|a s IH];
    [change (str_includes "" sub) with (String.prefix sub "" || false)
    | change (str_includes (String a s) sub) with
        (String.prefix sub (String a s) || str_includes s sub)];
    rewrite orb_true_iff, string_prefix_iff.
  - split.
    + intros [[post Hp] | Hf]; [by exists "", post | discriminate].
    + intros ([|b pre] & post & Hs); [| discriminate]. left. by exists post.
  - rewrite IH. split.
    + intros [[post Hp] | (pre & post & ->)]; [by exists "", post |].
      by exists (String a pre), post.
    + intros ([|b pre] & post & Hs); simpl in Hs; [left; by exists post |].
      injection Hs as -> ->. right. eauto.
Qed.

Lemma tick_effects_counts :
  length (filter is_newline [Stdout "."]) = 0%nat /\ length (filter is_dot [Stdout "."]) = 1%nat /\
  length (filter is_newline [Stdout "."; Stdout newline]) = 1%nat /\
  length (filter is_dot [Stdout "."; Stdout newline]) = 1%nat.
Proof. vm_compute. auto. Qed.

Lemma progress_tick_spec d :
  (String.length d <= 60)%nat ->
  (String.length (progress_tick d).2 = (S (String.length d)) mod 61)%nat /\
  length (filter is_newline (progress_tick d).1) = ((S (String.length d)) / 61)%nat /\
  length (filter is_dot (progress_tick d).1) = 1%nat.
Proof.
  intros Hd. destruct tick_effects_counts as (N1 & D1 & N2 & D2).
  unfold progress_tick. rewrite string_length_append. simpl String.length.
  destruct (Nat.ltb_spec 60 (String.length d + 1)) as [Hlt | Hge]; simpl fst; simpl snd.
  - assert (String.length d = 60)%nat as -> by lia. rewrite N2, D2. auto.
  - rewrite N1, D1, string_length_append. simpl String.length.
    rewrite Nat.mod_small, Nat.div_small by lia. split; [lia | auto].
Qed.

Lemma progress_spec k d :
  (String.length d <= 60)%nat ->
  length (filter is_dot (progress k d).1) = k /\
  length (filter is_newline (progress k d).1) = ((String.length d + k) / 61)%nat /\
  String.length (progress k d).2 = ((String.length d + k) mod 61)%nat.
Proof.
  revert d. induction k as [|k IH]; intros d Hd; cbn [progress fst snd filter length].
  - rewrite Nat.add_0_r, Nat.div_small, Nat.mod_small by lia. auto.
  - destruct (progress_tick_spec d Hd) as (L & N & D).
    destruct (progress_tick d) as [es1 d1]. cbn [fst snd] in L, N, D.
    destruct (IH d1 ltac:(rewrite L; pose proof (Nat.mod_upper_bound (S (String.length d)) 61); lia))
      as (D' & N' & L').
    destruct (progress k d1) as [es2 d2]. cbn [fst snd] in *.
    rewrite !filter_app, !length_app, D, D', N, N', L', L.
    replace (String.length d + S k)%nat with (S (String.length d) + k)%nat by lia.
    rewrite div_add_mod, Nat.Div0.add_mod_idemp_l by lia. auto.
Qed.

(** C21: The progress indicator of deploy.js (lines 75-83): after [k]
    firings from an empty line it has printed [k] dots and a newline
    after every 61st, and the pending line holds [k mod 61] dots, so a
    line never exceeds 61 characters. *)
Theorem progress_dots k :
  length (filter is_dot (progress k "").1) = k /\
  length (filter is_newline (progress k "").1) = (k / 61)%nat /\
  String.length (progress k "").2 = (k mod 61)%nat.
Proof. apply (progress_spec k ""). simpl. lia. Qed.

Lemma progress_only_stdout k d e : e ∈ (progress k d).1 -> exists s, e = Stdout s.
Proof.
  revert d. induction k as [|k IH]; intros d He; cbn [progress fst] in He.
  - by apply elem_of_nil in He.
  - unfold progress_tick in He. destruct (Nat.ltb _ _);
      destruct (progress k _) as [es2 d2] eqn:Hp; cbn [fst] in He;
      apply elem_of_app in He as [He | He];
      [repeat (apply elem_of_cons in He as [-> | He]; [eauto |]); by apply elem_of_nil in He
      | eapply IH; rewrite Hp; exact He | |];
      [repeat (apply elem_of_cons in He as [-> | He]; [eauto |]); by apply elem_of_nil in He
      | eapply IH; rewrite Hp; exact He].
Qed.

(** Splits a membership in a computed console into its cases. *)
Ltac console_cases H :=
  repeat match type of H with
  | _ ∈ _ ++ _ => apply elem_of_app in H as [H | H]
  | _ ∈ _ :: _ => apply elem_of_cons in H as [H | H]
  | _ ∈ [] => by apply elem_of_nil in H
  | _ ∈ (progress _ _).1 => apply progress_only_stdout in H as [? H]; discriminate H
  | _ = _ => discriminate H
  end.

Ltac unfold_script :=
  unfold script, main, deploy_body, deploy_failed, verify_code, await_net, js_try_catch, js_bind,
    emit, emit_all, js_modify, js_ret, js_exit, js_throw, scaled_gas_price.

(** Every answer of the network, one case per read. *)
Ltac deploy_cases env :=
  destruct env as [[?w|?m] [?b|?m] [[?c|]|?m] [?n|?m] [[]|?m] [?m | ?h ?k [[?a|?m] [?code|?m] | ?m]]].

(** Splits the conditionals left in a computed console or completion. *)
Ltac split_ifs :=
  repeat match goal with
  | H : context [if ?b then _ else _] |- _ => destruct b eqn:?
  | |- context [if ?b then _ else _] => destruct b eqn:?
  end.

(** C17: deploy.js sends the deployment only after its reads and its
    funds check: a deployment request appears on the console only when
    the network answered the wallet, a balance [b], a gas price [c], the
    nonce and the contract factory, the script priced gas at
    [c * 120n / 100n], [b] covers the gas limit at that price, and the
    request carries the ticket price of 10^14 wei, the gas limit of 10^6
    and the nonce read. *)
Theorem deploy_request_guarded env p l g n :
  DeployRequest p l g n ∈ (script env []).1 ->
  exists w b c, de_wallet env = Answered w /\ de_balance env = Answered b /\
    de_gasPrice env = Answered (Some c) /\ de_nonce env = Answered n /\ de_factory env = Answered tt /\
    g = Z.quot (c * 120) 100 /\ GAS_LIMIT * g <= b /\ p = TICKET_PRICE /\ l = GAS_LIMIT.
Proof.
  deploy_cases env; unfold_script; simpl; intros H; split_ifs; simpl in H; console_cases H;
    injection H as -> -> -> ->; apply Z.ltb_ge in Heqb0; eauto 15.
Qed.

Definition env_funded : DeployEnv :=
  mkDeployEnv (Answered "0xB0250A9AE5Df63697973C4B9f7712872147a41b3") (Answered (10 ^ 18))
    (Answered (Some 50000000000)) (Answered 7) (Answered tt)
    (Sent "0x3f1b" 3 (Confirmed (Answered "0x5E34Cf7BFf346Ae078EbC431dC89EE7D2cc7c717") (Answered "0x6080"))).

Lemma deploy_request_guarded_witness :
  exists w b c, de_wallet env_funded = Answered w /\ de_balance env_funded = Answered b /\
    de_gasPrice env_funded = Answered (Some c) /\ de_nonce env_funded = Answered 7 /\
    de_factory env_funded = Answered tt /\
    60000000000 = Z.quot (c * 120) 100 /\ GAS_LIMIT * 60000000000 <= b /\
    TICKET_PRICE = TICKET_PRICE /\ GAS_LIMIT = GAS_LIMIT.
Proof.
  apply (deploy_request_guarded env_funded TICKET_PRICE GAS_LIMIT 60000000000 7).
  vm_compute. apply list_elem_of_In. simpl. tauto.
Defined.

Definition TYPE_ERROR : string := "Cannot mix BigInt and other types, use explicit conversions".

(** C18: When the fee data has no gas price ([feeData.gasPrice] is
    [null]), deploy.js dies at line 27 ([null * 120n] throws a
    TypeError) before it logs the network gas price: the fallback
    [currentGasPrice || 0n] of line 30 is never reached, and the process
    exits with code 1 through the handler of [main().catch], which
    reports the TypeError once the wallet and balance reads before it
    have succeeded. *)
Theorem null_gas_price_crashes env :
  de_gasPrice env = Answered None ->
  (script env []).2 = Exited 1 /\
  (forall g, Log [FStr "Current network gas price:"; FGwei g; FStr "gwei"] ∉ (script env []).1) /\
  (forall w b, de_wallet env = Answered w -> de_balance env = Answered b ->
     LogError [FStr "Deployment failed:"; FStr TYPE_ERROR] ∈ (script env []).1).
Proof.
  destruct env as [[w|mw] [b|mb] gp nonce fac out]; simpl; intros ->; unfold_script; simpl;
    (split; [done | split; [intros g H; console_cases H | intros ? ? Hw Hb; simplify_eq;
      apply list_elem_of_In; simpl; tauto]]).
Qed.

Lemma null_gas_price_crashes_witness :
  (script (mkDeployEnv (Answered "0xB0") (Answered (10 ^ 18)) (Answered None) (Answered 7) (Answered tt)
     (SendRejected "unused")) []).2 = Exited 1.
Proof. apply null_gas_price_crashes. reflexivity. Defined.

(** C19: deploy.js either finishes normally or exits with code 1, and it
    finishes normally exactly when every network read answers, the fee
    data has a gas price [c], the balance covers the gas limit at
    [c * 120n / 100n], and the deployment is sent and confirmed with
    its address and code read back; a rejected read, a missing gas
    price, an insufficient balance, a rejected deployment and a failed
    confirmation all end the process with exit code 1. *)
Theorem script_outcome env :
  ((script env []).2 = Normal tt \/ (script env []).2 = Exited 1) /\
  ((script env []).2 = Normal tt <->
   exists w b c n h k a code, de_wallet env = Answered w /\ de_balance env = Answered b /\
     de_gasPrice env = Answered (Some c) /\ GAS_LIMIT * Z.quot (c * 120) 100 <= b /\
     de_nonce env = Answered n /\ de_factory env = Answered tt /\
     de_outcome env = Sent h k (Confirmed (Answered a) (Answered code))).
Proof.
  deploy_cases env; unfold_script; simpl; split_ifs; simpl;
    (split; [auto |]);
    (split; [intros [=]; try (apply Z.ltb_ge in Heqb0; eauto 20) |
             intros (? & ? & ? & ? & ? & ? & ? & ? & E1 & E2 & E3 & Hc & E4 & E5 & E6);
             simplify_eq; try done; apply Z.ltb_lt in Heqb0; lia]).
Qed.

(** C20: The gas price deploy.js uses is the network price scaled by
    1.2 and truncated ([c * 120n / 100n]): for a non-negative network
    price [c] it is [c + c / 5], never below [c] and within one wei of
    [6c/5]. *)
Theorem scaled_gas_price_bounds c log :
  0 <= c ->
  scaled_gas_price (Some c) log = (log, Normal (c + c / 5)) /\
  c <= c + c / 5 /\ 5 * (c + c / 5) <= 6 * c < 5 * (c + c / 5) + 5.
Proof.
  intros Hc. unfold scaled_gas_price, js_ret. rewrite Z.quot_div_nonneg by lia.
  replace (c * 120 / 100) with (c + c / 5).
  - split; [done |]. pose proof (Z.mod_pos_bound c 5). pose proof (Z.div_mod c 5). lia.
  - replace (c * 120) with ((c * 5 + c) * 20) by ring. replace 100 with (5 * 20) by reflexivity.
    rewrite Z.div_mul_cancel_r, Z.div_add_l by lia. reflexivity.
Qed.

Lemma scaled_gas_price_bounds_witness :
  scaled_gas_price (Some 50000000000) [] = ([], Normal 60000000000).
Proof. exact (proj1 (scaled_gas_price_bounds 50000000000 [] ltac:(lia))). Defined.

(** C22: The [catch] block of deploy.js (lines 102-112) prints the
    error's message and exits with code 1; it adds the timeout hint with
    the Etherscan page of the deploying wallet exactly when the message
    contains "timeout" (case-sensitive, anywhere in the message). *)
Theorem deploy_failed_report wallet msg log :
  (deploy_failed wallet msg log).2 = Exited 1 /\
  ((exists pre post, msg = String.append pre (String.append "timeout" post)) ->
   (deploy_failed wallet msg log).1 =
     log ++ [LogError [FStr (String.append newline "Failed to deploy contract:"); FStr msg];
             Log [FStr (String.append newline "The transaction was sent but confirmation timed out.")];
             Log [FStr "Your contract might still be deployed. Check your address on Etherscan:"];
             Log [FStr (String.append "https://sepolia.etherscan.io/address/" wallet)]]) /\
  ((~ exists pre post, msg = String.append pre (String.append "timeout" post)) ->
   (deploy_failed wallet msg log).1 =
     log ++ [LogError [FStr (String.append newline "Failed to deploy contract:"); FStr msg]]).
Proof.
  rewrite <- str_includes_spec. unfold deploy_failed, js_bind, emit, js_modify, js_ret, js_exit.
  destruct (str_includes msg "timeout"); simpl; (split; [done |]);
    split; intros H; (done || by rewrite <- !app_assoc || exfalso; auto).
Qed.

Lemma timer_state_app st l1 l2 : timer_state st (l1 ++ l2) = timer_state (timer_state st l1) l2.
Proof. revert st. induction l1 as [|[] l1 IH]; intros st; simpl; auto. Qed.

Lemma timer_state_progress st k d : timer_state st (progress k d).1 = st.
Proof.
  assert (forall l, (forall e, e ∈ l -> exists s, e = Stdout s) -> timer_state st l = st) as Hl.
  { induction l as [|e l IH]; intros He; [done |].
    destruct (He e ltac:(by left)) as [s ->]. apply IH. intros e' He'. apply He. by right. }
  apply Hl. intros e He. by eapply progress_only_stdout.
Qed.

(** C29: deploy.js terminates: on every path the process either exits
    through [process.exit(1)], or [main] completes after the progress
    interval started at line 76 has been cleared at line 87, so that no
    timer keeps Node's event loop alive. *)
Theorem script_terminates env :
  (script env []).2 = Exited 1 \/
  ((script env []).2 = Normal tt /\ interval_running (script env []).1 = false).
Proof.
  deploy_cases env; unfold_script; simpl; split_ifs; simpl; try (by left);
    right; (split; [done |]); unfold interval_running; simpl;
    rewrite ?timer_state_app, timer_state_progress; reflexivity.
Qed.

(** C36: The [try] block of deploy.js also covers the reads that follow
    the confirmation: when [provider.getCode] (line 94) is rejected, the
    script has already printed that the contract was deployed at its
    address, then reports "Failed to deploy contract" with the read's
    message and exits with code 1, with the progress interval cleared. *)
Theorem code_read_failure_misreported env w b c n h k a m :
  de_wallet env = Answered w -> de_balance env = Answered b -> de_gasPrice env = Answered (Some c) ->
  GAS_LIMIT * Z.quot (c * 120) 100 <= b -> de_nonce env = Answered n -> de_factory env = Answered tt ->
  de_outcome env = Sent h k (Confirmed (Answered a) (NetRejected m)) ->
  (script env []).2 = Exited 1 /\
  Log [FStr (String.append newline "Lottery successfully deployed to:"); FStr a] ∈ (script env []).1 /\
  LogError [FStr (String.append newline "Failed to deploy contract:"); FStr m] ∈ (script env []).1 /\
  interval_running (script env []).1 = false.
Proof.
  destruct env as [w' b' g' n' f' o']; simpl; intros -> -> -> Hb -> -> ->.
  apply Z.ltb_ge in Hb. unfold_script. simpl. rewrite Hb. simpl.
  unfold interval_running. rewrite !list_elem_of_In.
  destruct (str_includes m "timeout"); simpl;
    rewrite ?timer_state_app, timer_state_progress; simpl; repeat split; try reflexivity;
    rewrite ?in_app_iff; simpl; tauto.
Qed.

Lemma code_read_failure_misreported_witness :
  (script (mkDeployEnv (Answered "0xB0") (Answered (10 ^ 18)) (Answered (Some 50000000000)) (Answered 7)
     (Answered tt) (Sent "0x3f1b" 3 (Confirmed (Answered "0x5E34") (NetRejected "network error")))) []).2
    = Exited 1.
Proof.
  exact (proj1 (code_read_failure_misreported
    (mkDeployEnv (Answered "0xB0") (Answered (10 ^ 18)) (Answered (Some 50000000000)) (Answered 7)
       (Answered tt) (Sent "0x3f1b" 3 (Confirmed (Answered "0x5E34") (NetRejected "network error"))))
    "0xB0" (10 ^ 18) 50000000000 7 "0x3f1b" 3 "0x5E34" "network error"
    eq_refl eq_refl eq_refl ltac:(vm_compute; discriminate) eq_refl eq_refl eq_refl)).
Defined.
