(* ===== verification/Dom.v ===== *)
(** * The browser page the front end manipulates

    The elements of admin.html / user.html that the scripts look up with
    [document.getElementById] once, at load time, and then share between
    their handlers and the helpers of lottery.js: a store of [Element]s
    keyed by an id, so that two handlers that update "the status message"
    update the same element.  An element has its [textContent], its
    [classList] (a DOMTokenList: an ordered set of class names) and its
    [disabled] flag.  The page also records what the scripts print with
    [console.error] and the animations they start.  A property read on
    [undefined] or [null] throws a TypeError, as in JavaScript. *)

From stdpp Require Import base list decidable strings gmap.
From Stdlib Require Import ZArith.
From S2P Require Import Prelude Js.

Record Element := mkElement {
  el_text : string;
  el_classes : list string;
  el_disabled : bool
}.

Record Page := mkPage {
  dom : gmap nat Element;
  console_errors : list string;
  animations : list (nat * string)
}.

(** [classList.remove(t1, ..., tn)]: every listed token goes. *)
Definition classList_remove (toks : list string) (cl : list string) : list string :=
  filter (fun c => c ∉ toks) cl.

(** [classList.add(t)]: appended unless already present. *)
Definition classList_add (tok : string) (cl : list string) : list string :=
  if bool_decide (tok ∈ cl) then cl else cl ++ [tok].

(** A property access on an element: [el.p = v] or [el.p]. *)
Inductive Access :=
| SetProp (p : string)
| GetProp (p : string).

(** The message of the TypeError that V8 throws for an access on
    [undefined] or [null]. *)
Definition type_error (base : string) (acc : Access) : string :=
  match acc with
  | SetProp p => "Cannot set properties of " +:+ base +:+ " (setting '" +:+ p +:+ "')"
  | GetProp p => "Cannot read properties of " +:+ base +:+ " (reading '" +:+ p +:+ "')"
  end.

Definition TYPE_ERROR_TEXT : string := type_error "undefined" (SetProp "textContent").

Section PageOps.
Context {W : Type}.
Variable page_of : W -> Page.
Variable with_page : W -> Page -> W.

Definition update_element (id : nat) (f : Element -> Element) (w : W) : W :=
  let p := page_of w in
  match dom p !! id with
  | Some e => with_page w (mkPage (<[id := f e]> (dom p)) (console_errors p) (animations p))
  | None => w
  end.

(** A step [acc] on the element a variable holds: [None] when the
    variable is [undefined] (a missing property of an object), an id
    otherwise; an id that is not in the page is what
    [document.getElementById] returned as [null]. *)
Definition on_element (el : option nat) (acc : Access) (f : Element -> Element) : JS W unit :=
  fun w =>
    match el with
    | Some id =>
        match dom (page_of w) !! id with
        | Some _ => (update_element id f w, Normal tt)
        | None => (w, Thrown (type_error "null" acc))
        end
    | None => (w, Thrown (type_error "undefined" acc))
    end.

Definition set_text (el : option nat) (s : string) : JS W unit :=
  on_element el (SetProp "textContent") (fun e => mkElement s (el_classes e) (el_disabled e)).

Definition set_disabled (el : option nat) (b : bool) : JS W unit :=
  on_element el (SetProp "disabled") (fun e => mkElement (el_text e) (el_classes e) b).

Definition remove_classes (el : option nat) (toks : list string) : JS W unit :=
  on_element el (GetProp "classList")
    (fun e => mkElement (el_text e) (classList_remove toks (el_classes e)) (el_disabled e)).

Definition add_class (el : option nat) (tok : string) : JS W unit :=
  on_element el (GetProp "classList")
    (fun e => mkElement (el_text e) (classList_add tok (el_classes e)) (el_disabled e)).

Definition console_error (msg : string) : JS W unit :=
  js_modify (fun w => let p := page_of w in
    with_page w (mkPage (dom p) (console_errors p ++ [msg]) (animations p))).

(** [anime({ targets: el, ... })]: recorded, not simulated. *)
Definition animate (el : option nat) (what : string) : JS W unit :=
  match el with
  | Some id => js_modify (fun w => let p := page_of w in
      with_page w (mkPage (dom p) (console_errors p) (animations p ++ [(id, what)])))
  | None => js_ret tt
  end.
End PageOps.

(** [String.prototype.toLowerCase] on ASCII. *)
Definition ascii_lower (c : Ascii.ascii) : Ascii.ascii :=
  let n := Ascii.nat_of_ascii c in
  if (65 <=? n)%nat && (n <=? 90)%nat then Ascii.ascii_of_nat (n + 32) else c.

Fixpoint to_lower (s : string) : string :=
  match s with
  | EmptyString => EmptyString
  | String c rest => String (ascii_lower c) (to_lower rest)
  end.

(** * Theorems *)

Lemma classList_remove_spec toks cl c : c ∈ classList_remove toks cl <-> c ∈ cl /\ c ∉ toks.
Proof. unfold classList_remove. rewrite list_elem_of_filter. tauto. Qed.

Lemma classList_add_spec tok cl c : c ∈ classList_add tok cl <-> c = tok \/ c ∈ cl.
Proof.
  unfold classList_add. case_bool_decide as Hin.
  - split; [by right | by intros [-> | H]].
  - rewrite elem_of_app, list_elem_of_singleton. tauto.
Qed.

Lemma classList_add_NoDup tok cl : NoDup cl -> NoDup (classList_add tok cl).
Proof.
  unfold classList_add. case_bool_decide as Hin; [done |].
  intros Hnd. apply NoDup_app. split; [done |]. split; [| apply NoDup_singleton].
  intros x Hx ->%list_elem_of_singleton. done.
Qed.

Lemma classList_remove_NoDup toks cl : NoDup cl -> NoDup (classList_remove toks cl).
Proof. apply NoDup_filter. Qed.

Lemma to_lower_idem s : to_lower (to_lower s) = to_lower s.
Proof.
  induction s as [|c s IH]; simpl; [done |]. rewrite IH. f_equal.
  unfold ascii_lower. destruct c as [[] [] [] [] [] [] [] []]; reflexivity.
Qed.
