(* ===== verification/Address.v ===== *)
(** * Address strings of the front end

    The pages see addresses as the strings ethers returns:
    [signer.getAddress()] and [contract.admin()] give "0x" followed by
    the 40 hex digits of the 160-bit address, each letter upper- or
    lowercase as the EIP-55 checksum prescribes ([checksum_address]; the
    keccak-256 hash that decides the case of each digit is the
    parameter [nibble_high]).  admin.js compares two such strings after
    [toLowerCase()] (line 67), and both pages show the connected account
    as [`Connected: ${userAddress.slice(0, 6)}...${userAddress.slice(-4)}`]
    (admin.js 59, user.js 57): [js_slice] is [String.prototype.slice]
    with its negative indices and clamping.

    Digits are produced most significant first by [hex_digits] and read
    back by [parse_hex]; the round trip gives the injectivity on which
    the case-insensitive comparison relies. *)

From stdpp Require Import base list decidable strings.
From Stdlib Require Import ZArith Lia Ascii.
From S2P Require Import Prelude Dom.

Open Scope Z_scope.

(** The lowercase hex digit of a value below 16. *)
Definition hex_char (d : Z) : ascii :=
  if d <? 10 then ascii_of_nat (48 + Z.to_nat d) else ascii_of_nat (87 + Z.to_nat d).

(** The value of a lowercase hex digit. *)
Definition hex_val (c : ascii) : option Z :=
  let n := nat_of_ascii c in
  if (48 <=? n)%nat && (n <=? 57)%nat then Some (Z.of_nat n - 48)
  else if (97 <=? n)%nat && (n <=? 102)%nat then Some (Z.of_nat n - 87)
  else None.

(** The [n] low hex digits of [z], most significant first. *)
Fixpoint hex_digits (n : nat) (z : Z) : string :=
  match n with
  | O => ""
  | S n' => hex_digits n' (z / 16) +:+ String (hex_char (z mod 16)) ""
  end.

Fixpoint parse_hex (acc : Z) (s : string) : option Z :=
  match s with
  | "" => Some acc
  | String c rest => hex_val c ≫= fun d => parse_hex (acc * 16 + d) rest
  end.

(** [String.prototype.toUpperCase] on ASCII. *)
Definition ascii_upper (c : ascii) : ascii :=
  let n := nat_of_ascii c in
  if (97 <=? n)%nat && (n <=? 122)%nat then ascii_of_nat (n - 32) else c.

(** Uppercase the characters at the positions (counted from [i]) that
    [mask] selects. *)
Fixpoint recase (mask : nat -> bool) (i : nat) (s : string) : string :=
  match s with
  | "" => ""
  | String c rest => String (if mask i then ascii_upper c else c) (recase mask (S i) rest)
  end.

(** [ethers.utils.getAddress]: the EIP-55 checksummed form.  Digit [i]
    is uppercased when nibble [i] of the keccak-256 hash of the
    lowercase digits is at least 8: [nibble_high digits i]. *)
Definition checksum_address (nibble_high : string -> nat -> bool) (a : Z) : string :=
  "0x" +:+ recase (nibble_high (hex_digits 40 a)) 0 (hex_digits 40 a).

(** [s.slice(start, end)]: a negative index counts from the end, every
    index is clamped to [0, length], an empty range gives "". *)
Definition js_slice (s : string) (start : Z) (end_ : option Z) : string :=
  let len := Z.of_nat (String.length s) in
  let rel k := if k <? 0 then Z.max (len + k) 0 else Z.min k len in
  let from := rel start in
  let to := match end_ with Some e => rel e | None => len end in
  String.substring (Z.to_nat from) (Z.to_nat (to - from)) s.

(** The wallet status line of admin.js 59 and user.js 57. *)
Definition wallet_status (userAddress : string) : string :=
  "Connected: " +:+ js_slice userAddress 0 (Some 6) +:+ "..." +:+ js_slice userAddress (-4) None.

(** [a.toLowerCase() !== b.toLowerCase()] of admin.js 67. *)
Definition same_address_ci (a b : string) : bool := bool_decide (to_lower a = to_lower b).

(** * Theorems *)

Lemma hex_digit_cases d : 0 <= d < 16 ->
  d = 0 \/ d = 1 \/ d = 2 \/ d = 3 \/ d = 4 \/ d = 5 \/ d = 6 \/ d = 7 \/
  d = 8 \/ d = 9 \/ d = 10 \/ d = 11 \/ d = 12 \/ d = 13 \/ d = 14 \/ d = 15.
Proof. lia. Qed.

Lemma hex_val_char d : 0 <= d < 16 -> hex_val (hex_char d) = Some d.
Proof. intros Hd. apply hex_digit_cases in Hd. repeat destruct Hd as [-> | Hd]; [..| subst]; reflexivity. Qed.

Lemma ascii_lower_hex_char d : 0 <= d < 16 -> ascii_lower (hex_char d) = hex_char d.
Proof. intros Hd. apply hex_digit_cases in Hd. repeat destruct Hd as [-> | Hd]; [..| subst]; reflexivity. Qed.

Lemma ascii_lower_upper c : ascii_lower (ascii_upper c) = ascii_lower c.
Proof. destruct c as [[] [] [] [] [] [] [] []]; reflexivity. Qed.

Lemma to_lower_app s1 s2 : to_lower (s1 +:+ s2) = to_lower s1 +:+ to_lower s2.
Proof. induction s1 as [|c s1 IH]; simpl; [done |]. by rewrite IH. Qed.

Lemma to_lower_recase mask i s : to_lower (recase mask i s) = to_lower s.
Proof.
  revert i. induction s as [|c s IH]; intros i; simpl; [done |].
  rewrite IH. by destruct (mask i); [rewrite ascii_lower_upper |].
Qed.

Lemma to_lower_hex_digits n z : to_lower (hex_digits n z) = hex_digits n z.
Proof.
  revert z. induction n as [|n IH]; intros z; simpl; [done |].
  rewrite to_lower_app, IH. simpl. rewrite ascii_lower_hex_char; [done |].
  apply Z.mod_pos_bound. lia.
Qed.

Lemma length_recase mask i s : String.length (recase mask i s) = String.length s.
Proof. revert i. induction s as [|c s IH]; intros i; simpl; auto. Qed.

Lemma length_hex_digits n z : String.length (hex_digits n z) = n.
Proof.
  revert z. induction n as [|n IH]; intros z; simpl; [done |].
  rewrite string_length_append, IH. simpl. lia.
Qed.

Lemma parse_hex_app acc s1 s2 :
  parse_hex acc (s1 +:+ s2) = parse_hex acc s1 ≫= fun a => parse_hex a s2.
Proof.
  revert acc. induction s1 as [|c s1 IH]; intros acc; simpl; [done |].
  destruct (hex_val c); simpl; auto.
Qed.

Lemma mod_16_succ z n :
  z mod 16 ^ Z.of_nat (S n) = (z / 16) mod 16 ^ Z.of_nat n * 16 + z mod 16.
Proof.
  rewrite Nat2Z.inj_succ, Z.pow_succ_r by lia.
  rewrite Z.rem_mul_r by (try (apply Z.pow_nonzero); lia). lia.
Qed.

Lemma parse_hex_digits n z acc :
  parse_hex acc (hex_digits n z) = Some (acc * 16 ^ Z.of_nat n + z mod 16 ^ Z.of_nat n).
Proof.
  revert z acc. induction n as [|n IH]; intros z acc; simpl hex_digits.
  - simpl. f_equal. rewrite Z.mod_1_r. lia.
  - rewrite parse_hex_app, IH. simpl. rewrite hex_val_char by (apply Z.mod_pos_bound; lia).
    simpl. f_equal. rewrite mod_16_succ, Nat2Z.inj_succ, Z.pow_succ_r by lia. ring.
Qed.

Lemma address_pow : ADDRESS_BOUND = 16 ^ Z.of_nat 40.
Proof. reflexivity. Qed.

Lemma to_lower_checksum_address nh a :
  to_lower (checksum_address nh a) = "0x" +:+ hex_digits 40 a.
Proof.
  unfold checksum_address. rewrite to_lower_app, to_lower_recase, to_lower_hex_digits. done.
Qed.

Lemma length_checksum_address nh a : String.length (checksum_address nh a) = 42%nat.
Proof.
  unfold checksum_address. rewrite string_length_append, length_recase, length_hex_digits. done.
Qed.

Lemma hex_digits_inj a b :
  address160 a -> address160 b -> hex_digits 40 a = hex_digits 40 b -> a = b.
Proof.
  unfold address160. rewrite address_pow. intros Ha Hb Heq.
  pose proof (parse_hex_digits 40 a 0) as Pa. pose proof (parse_hex_digits 40 b 0) as Pb.
  rewrite Heq, Pb in Pa. injection Pa as Pa.
  rewrite !Z.mod_small in Pa by lia. lia.
Qed.

Lemma substring_length_full s : String.substring 0 (String.length s) s = s.
Proof. induction s as [|c s IH]; simpl; [done |]. by rewrite IH. Qed.

Lemma length_substring n m s :
  (n + m <= String.length s)%nat -> String.length (String.substring n m s) = m.
Proof.
  revert n m. induction s as [|c s IH]; intros n m Hle; simpl in Hle.
  - assert (n = 0%nat /\ m = 0%nat) as [-> ->] by lia. done.
  - destruct n as [|n]; simpl.
    + destruct m as [|m]; simpl; [done |]. rewrite (IH 0%nat m); lia.
    + apply IH. lia.
Qed.

Lemma checksum_ci_iff nh a b :
  address160 a -> address160 b ->
  same_address_ci (checksum_address nh a) (checksum_address nh b) = true <-> a = b.
Proof.
  intros Ha Hb. unfold same_address_ci. rewrite bool_decide_eq_true, !to_lower_checksum_address.
  split; [| by intros ->].
  intros H. apply hex_digits_inj; [done | done |]. by apply (inj (String.append "0x")) in H.
Qed.

(** C24: The case-insensitive comparison of admin.js 67 on the strings
    ethers returns ([checksum_address], whatever the keccak hash that
    sets the case of the digits) holds exactly for equal addresses: it
    is address equality, neither accepting a different account nor
    rejecting the admin for the case of its digits. *)
Theorem same_address_ci_iff nh a b :
  address160 a -> address160 b ->
  same_address_ci (checksum_address nh a) (checksum_address nh b) = true <-> a = b.
Proof.
  intros Ha Hb. unfold same_address_ci. rewrite bool_decide_eq_true, !to_lower_checksum_address.
  split; [| by intros ->].
  intros H. apply hex_digits_inj; [done | done |]. by apply (inj (String.append "0x")) in H.
Qed.

(** C25: The wallet status line of both pages shows the first six
    characters ("0x" and four digits) and the last four digits of the
    connected address: [slice(-4)] counts from the end of the
    42-character string, and the line is always 24 characters long. *)
Theorem wallet_status_shape nh a :
  wallet_status (checksum_address nh a) =
    "Connected: " +:+ String.substring 0 6 (checksum_address nh a) +:+ "..." +:+
    String.substring 38 4 (checksum_address nh a) /\
  String.length (wallet_status (checksum_address nh a)) = 24%nat.
Proof.
  assert (wallet_status (checksum_address nh a) =
    "Connected: " +:+ String.substring 0 6 (checksum_address nh a) +:+ "..." +:+
    String.substring 38 4 (checksum_address nh a)) as Hw.
  { unfold wallet_status, js_slice. rewrite length_checksum_address. reflexivity. }
  split; [done |]. rewrite Hw, !string_length_append, !length_substring; [done | |];
    rewrite length_checksum_address; lia.
Qed.

Lemma same_address_ci_iff_witness :
  same_address_ci (checksum_address (fun _ i => Nat.even i) 7) (checksum_address (fun _ i => Nat.even i) 7) = true.
Proof.
  apply (same_address_ci_iff (fun _ i => Nat.even i) 7 7); [| | reflexivity];
    unfold address160, ADDRESS_BOUND; lia.
Defined.
