(* ===== verification/Frontend.v ===== *)
(** * The browser front end (src/frontend/lottery.js, admin.js, user.js)

    The world a page script acts on is the page ([Dom.Page]: the shared
    element store, the console, the animations), the chain state of the
    contract, seen only through the client interface [Api.LotteryApi],
    the account the wallet connected (or none: the global [contract] is
    still undefined), and whether the wheel was initialised.  The helpers
    of lottery.js ([showStatus], [loadLotteryDetails]) and the button
    handlers of admin.js and user.js are computations of the [JS] monad
    over this world, statement by statement.

    A contract read is answered by some chain state or rejected by the
    provider ([Answer]); a transaction is approved or refused in the
    wallet and then executed by the chain with [api_submit].  A promise
    that a handler starts without awaiting it ([loadLotteryDetails(...)]
    at the end of each handler) runs to completion at the call, its
    rejection becoming an uncaught-promise console error ([spawn]); the
    statements that follow it in the handler only touch other elements. *)

From stdpp Require Import base list decidable strings gmap pretty.
From Stdlib Require Import ZArith.
From S2P Require Import Prelude Api Lottery Abi Js Dom.

Open Scope js_scope.

(** The elements the pages look up by id. *)
Definition CONNECT_WALLET : nat := 1.
Definition WALLET_STATUS : nat := 2.
Definition SECTION : nat := 3.        (* admin-section / user-section *)
Definition STATUS_MESSAGE : nat := 4.
Definition TRIGGER_DRAW : nat := 5.
Definition DISTRIBUTE_PRIZE : nat := 6.
Definition RESET_LOTTERY : nat := 7.
Definition TICKET_PRICE_EL : nat := 8.
Definition PARTICIPANTS_COUNT : nat := 9.
Definition PRIZE_POOL : nat := 10.
Definition WINNER_EL : nat := 11.
Definition BUY_TICKET : nat := 12.

(** The object literal [{ ticketPriceEl, participantsCountEl, prizePoolEl,
    winnerEl, statusMessage }] every caller passes to
    [loadLotteryDetails] (admin.js 79, 104, 128, 152; user.js 70, 96):
    shorthand properties, so the status element is under the key
    "statusMessage". *)
Definition details_elements : gmap string nat :=
  <["ticketPriceEl" := TICKET_PRICE_EL]> (<["participantsCountEl" := PARTICIPANTS_COUNT]>
  (<["prizePoolEl" := PRIZE_POOL]> (<["winnerEl" := WINNER_EL]>
  (<["statusMessage" := STATUS_MESSAGE]> ∅)))).

(** The same object with the key [loadLotteryDetails] reads. *)
Definition intended_elements : gmap string nat :=
  <["statusMessageEl" := STATUS_MESSAGE]> details_elements.

(** A page with every element of admin.html and user.html, visible
    status aside. *)
Definition demo_page : Page :=
  mkPage (list_to_map (map (fun id => (id, mkElement "" [] false)) (seq 1 12))) [] [].

(** A lottery open for entries, for the examples. *)
Definition open_state_demo : LotteryState := mkLottery 1 100 [] 0 None Open.

Definition ZERO_ADDRESS_STRING : string := "0x0000000000000000000000000000000000000000".

Section Frontend.
Context {S : Type} {api : LotteryApi S}.
(** [ethers.utils.formatEther] and the address formatting of ethers. *)
Variable formatEther : Z -> string.
Variable fmtAddress : Address -> string.

Record World := mkWorld {
  w_page : Page;
  w_chain : S;
  w_account : option Address;
  w_wheel : bool
}.

Definition set_page (w : World) (p : Page) : World :=
  mkWorld p (w_chain w) (w_account w) (w_wheel w).

Inductive Answer :=
| Served (s : S)
| Rejected (msg : string).

Definition read {A} (ans : Answer) (f : S -> A) : JS World A :=
  match ans with
  | Served s => js_ret (f s)
  | Rejected m => js_throw m
  end.

(** ** lottery.js *)

(** [showStatus(statusMessageEl, message, isError)], lines 144-157. *)
Definition showStatus (el : option nat) (message : string) (isError : bool) : JS World unit :=
  set_text w_page set_page el message ;>
  remove_classes w_page set_page el ["hidden"; "text-green-600"; "text-red-600"] ;>
  add_class w_page set_page el (if isError then "text-red-600" else "text-green-600") ;>
  animate w_page set_page el "opacity 0 -> 1, then 0 after 2000 ms".

(** [loadLotteryDetails(contract, elements)], lines 160-175. *)
Definition loadLotteryDetails (a1 a2 a3 a4 : Answer) (elements : gmap string nat) : JS World unit :=
  js_try_catch
    (let* ticketPrice := read a1 api_ticketPrice in
     let* participants := read a2 api_getParticipants in
     let* prizePool := read a3 api_getPrizePool in
     let* winner := read a4 (fun s => fmtAddress (api_winner s)) in
     set_text w_page set_page (elements !! "ticketPriceEl") (formatEther ticketPrice) ;>
     set_text w_page set_page (elements !! "participantsCountEl") (pretty (length participants)) ;>
     set_text w_page set_page (elements !! "prizePoolEl") (formatEther prizePool) ;>
     set_text w_page set_page (elements !! "winnerEl")
       (if bool_decide (winner = ZERO_ADDRESS_STRING) then "Not drawn yet" else winner))
    (fun msg =>
       console_error w_page set_page (String.append "Error loading lottery details: " msg) ;>
       showStatus (elements !! "statusMessageEl") "Failed to load lottery details" true).

(** A promise started without [await]: its rejection is reported as an
    uncaught rejection and does not reach the caller. *)
Definition spawn (c : JS World unit) : JS World unit :=
  fun w =>
    match c w with
    | (w', Thrown m) =>
        ((console_error w_page set_page (String.append "Uncaught (in promise) " m) w').1, Normal tt)
    | (w', _) => (w', Normal tt)
    end.

(** ** Transactions from a page *)

(** [await contract.f(...)] then [await tx.wait()]: ethers first
    checks the call against [contractABI] ([abi_send_check]); the
    transaction is then refused in the wallet ([approval = Some
    reason]), or executed by the chain and rejected when it reverts.
    Before the wallet is connected [contract] is undefined. *)
Definition send_tx (approval : option string) (env : TxEnv) (t : Tx) : JS World unit :=
  fun w =>
    match w_account w with
    | None => (w, Thrown (type_error "undefined" (GetProp (tx_name t))))
    | Some from =>
        match abi_send_check contractABI (tx_name t) 0 (value_in t) with
        | Some err => (w, Thrown err)
        | None =>
            match approval with
            | Some reason => (w, Thrown reason)
            | None =>
                match api_submit env from t (w_chain w) with
                | Ok s' => (mkWorld (w_page w) s' (w_account w) (w_wheel w), Normal tt)
                | Err _ => (w, Thrown "execution reverted")
                end
            end
        end
    end.

(** [spinWheel()]: rotates [wheel], undefined until [initWheel()] ran. *)
Definition spinWheel : JS World unit :=
  fun w =>
    if w_wheel w then animate w_page set_page (Some SECTION) "wheel rotation" w
    else (w, Thrown "Cannot read properties of undefined (reading 'rotation')").

(** The pattern of every transaction button (admin.js 90-112, 115-136,
    139-160; user.js 81-104): disable the button and show the busy
    label, then [try { body; success } catch { report } finally
    { re-enable; idle label }]. *)
Definition tx_button (btn : nat) (busy idle : string) (body : JS World unit)
  (success : string) (after : JS World unit) (log_prefix fail_prefix : string) : JS World unit :=
  set_disabled w_page set_page (Some btn) true ;>
  set_text w_page set_page (Some btn) busy ;>
  js_try_finally
    (js_try_catch
       (body ;> showStatus (Some STATUS_MESSAGE) success false ;> after)
       (fun msg =>
          console_error w_page set_page (String.append log_prefix msg) ;>
          showStatus (Some STATUS_MESSAGE) (String.append fail_prefix msg) true))
    (set_disabled w_page set_page (Some btn) false ;>
     set_text w_page set_page (Some btn) idle).

Definition reload (a : Answer * Answer * Answer * Answer) : JS World unit :=
  let '(a1, a2, a3, a4) := a in spawn (loadLotteryDetails a1 a2 a3 a4 details_elements).

(** ** admin.js *)

(** Trigger Draw, lines 90-112. *)
Definition triggerDraw (approval : option string) (env : TxEnv) (a : Answer * Answer * Answer * Answer)
  : JS World unit :=
  tx_button TRIGGER_DRAW "Drawing..." "Trigger Draw"
    (send_tx approval env DrawWinner)
    "Draw triggered successfully!"
    (animate w_page set_page (Some TRIGGER_DRAW) "rotate 1turn" ;> spinWheel ;> reload a)
    "Error triggering draw: " "Failed to trigger draw: ".

(** Distribute Prize, lines 115-136. *)
Definition distributePrize (approval : option string) (env : TxEnv) (a : Answer * Answer * Answer * Answer)
  : JS World unit :=
  tx_button DISTRIBUTE_PRIZE "Distributing..." "Distribute Prize"
    (send_tx approval env DistributePrize)
    "Prize distributed successfully!"
    (animate w_page set_page (Some DISTRIBUTE_PRIZE) "scale 1 -> 1.2 -> 1" ;> reload a)
    "Error distributing prize: " "Failed to distribute prize: ".

(** Reset Lottery, lines 139-160. *)
Definition resetLottery (approval : option string) (env : TxEnv) (a : Answer * Answer * Answer * Answer)
  : JS World unit :=
  tx_button RESET_LOTTERY "Resetting..." "Reset Lottery"
    (send_tx approval env ResetLottery)
    "Lottery reset successfully!"
    (animate w_page set_page (Some RESET_LOTTERY) "scale 1 -> 1.2 -> 1" ;> reload a)
    "Error resetting lottery: " "Failed to reset lottery: ".

(** ** user.js *)

(** Transactions of other accounts that the chain executes between two
    awaits of a handler. *)
Definition chain_after (others : list (TxEnv * Address * Tx)) (s : S) : S :=
  foldl (fun s '(e, from, t) => match api_submit e from t s with Ok s' => s' | Err _ => s end)
        s others.

Definition run_others (others : list (TxEnv * Address * Tx)) : JS World unit :=
  js_modify (fun w => mkWorld (w_page w) (chain_after others (w_chain w)) (w_account w) (w_wheel w)).

(** The body of Buy Ticket, lines 85-87: read the price
    ([price_read = Some m] when the read is rejected with [m]; otherwise
    the current chain answers it), then send
    [buyTicket({ value: ticketPrice })]; [others] run in between. *)
Definition buy_body (price_read : option string) (approval : option string) (env : TxEnv)
  (others : list (TxEnv * Address * Tx)) : JS World unit :=
  fun w =>
    match w_account w with
    | None => (w, Thrown (type_error "undefined" (GetProp "ticketPrice")))
    | Some _ =>
        (let* ticketPrice := read (match price_read with
                                    | None => Served (w_chain w)
                                    | Some m => Rejected m
                                    end) api_ticketPrice in
         run_others others ;>
         send_tx approval env (BuyTicket ticketPrice)) w
    end.

(** Buy Ticket, lines 81-104. *)
Definition buyTicket (price_read : option string) (approval : option string) (env : TxEnv)
  (others : list (TxEnv * Address * Tx)) (a : Answer * Answer * Answer * Answer) : JS World unit :=
  tx_button BUY_TICKET "Processing..." "Buy Ticket"
    (buy_body price_read approval env others)
    "Ticket purchased successfully!"
    (animate w_page set_page (Some BUY_TICKET) "scale 1 -> 1.2 -> 1" ;> spinWheel ;> reload a)
    "Error buying ticket: " "Failed to buy ticket: ".

(** A step is [safe] when it keeps every element of the page and never
    stops the process (a page script has no [process.exit]). *)
Definition keeps_dom (w w' : World) : Prop :=
  forall id, is_Some (dom (w_page w) !! id) -> is_Some (dom (w_page w') !! id).

Definition safe {A} (c : JS World A) : Prop :=
  forall w, keeps_dom w (c w).1 /\ forall n, (c w).2 <> Exited n.

(** The button [btn] is enabled again and shows [idle]. *)
Definition restored (btn : nat) (idle : string) (w : World) : Prop :=
  exists e, dom (w_page w) !! btn = Some e /\ el_disabled e = false /\ el_text e = idle.

(** The status message shows [msg], visible, in red for an error and
    in green otherwise. *)
Definition status_shown (w : World) (msg : string) (isError : bool) : Prop :=
  exists e, dom (w_page w) !! STATUS_MESSAGE = Some e /\ el_text e = msg /\
    ("hidden" ∉ el_classes e) /\
    ((if isError then "text-red-600" else "text-green-600") ∈ el_classes e) /\
    ((if isError then "text-green-600" else "text-red-600") ∉ el_classes e).

(** * Theorems *)

Create HintDb frontend discriminated.

Lemma keeps_dom_refl w : keeps_dom w w.
Proof. by intros id. Qed.

Lemma keeps_dom_trans w1 w2 w3 : keeps_dom w1 w2 -> keeps_dom w2 w3 -> keeps_dom w1 w3.
Proof. intros H1 H2 id Hid. auto. Qed.

Lemma update_element_lookup id f w j :
  dom (w_page (update_element w_page set_page id f w)) !! j =
  if bool_decide (j = id) then f <$> dom (w_page w) !! id else dom (w_page w) !! j.
Proof.
  unfold update_element. destruct (dom (w_page w) !! id) as [e|] eqn:He; simpl;
    case_bool_decide; subst; rewrite ?lookup_insert_eq, ?lookup_insert_ne, ?He; auto.
Qed.

Lemma keeps_dom_update id f w : keeps_dom w (update_element w_page set_page id f w).
Proof.
  intros j Hj. rewrite update_element_lookup. case_bool_decide; subst; [| done].
  destruct Hj as [e He]. rewrite He. by eexists.
Qed.

Lemma on_element_Some id acc f w e :
  dom (w_page w) !! id = Some e ->
  on_element w_page set_page (Some id) acc f w = (update_element w_page set_page id f w, Normal tt) /\
  dom (w_page (update_element w_page set_page id f w)) !! id = Some (f e).
Proof.
  intros He. unfold on_element. rewrite He. split; [done |].
  rewrite update_element_lookup, bool_decide_true, He by done. done.
Qed.

Lemma safe_ret {A} (a : A) : safe (js_ret a).
Proof. intros w. split; [apply keeps_dom_refl | discriminate]. Qed.

Lemma safe_throw {A} m : safe (@js_throw World A m).
Proof. intros w. split; [apply keeps_dom_refl | discriminate]. Qed.

Lemma safe_bind {A B} (c : JS World A) (k : A -> JS World B) :
  safe c -> (forall a, safe (k a)) -> safe (js_bind c k).
Proof.
  intros Hc Hk w. unfold js_bind. destruct (Hc w) as [Hd He].
  destruct (c w) as [w1 [a | m | n]] eqn:Hcw; simpl in *.
  - destruct (Hk a w1) as [Hd' He']. split; [eapply keeps_dom_trans; eauto | done].
  - split; [done | discriminate].
  - by destruct (He n).
Qed.

Lemma safe_try_catch {A} (c : JS World A) h :
  safe c -> (forall m, safe (h m)) -> safe (js_try_catch c h).
Proof.
  intros Hc Hh w. unfold js_try_catch. destruct (Hc w) as [Hd He].
  destruct (c w) as [w1 [a | m | n]] eqn:Hcw; simpl in *; [done | | done].
  destruct (Hh m w1) as [Hd' He']. split; [eapply keeps_dom_trans; eauto | done].
Qed.

Lemma safe_on_element el acc f : safe (on_element w_page set_page el acc f).
Proof.
  intros w. unfold on_element.
  destruct el as [id|]; [destruct (dom (w_page w) !! id) |]; simpl;
    (split; [apply keeps_dom_update || apply keeps_dom_refl | discriminate]).
Qed.

Lemma safe_modify f : (forall w, dom (w_page (f w)) = dom (w_page w)) -> safe (js_modify f).
Proof. intros Hf w. split; [intros id; simpl; by rewrite Hf | discriminate]. Qed.

Lemma safe_console_error m : safe (console_error w_page set_page m).
Proof. apply safe_modify. done. Qed.

Lemma safe_animate el what : safe (animate w_page set_page el what).
Proof. destruct el; [apply safe_modify; done | apply safe_ret]. Qed.

Lemma safe_read {A} ans (f : S -> A) : safe (read ans f).
Proof. destruct ans; [apply safe_ret | apply safe_throw]. Qed.

Lemma safe_send_tx approval env t : safe (send_tx approval env t).
Proof.
  intros w. unfold send_tx. rewrite abi_send_check_frontend.
  destruct (w_account w); [destruct approval; [| destruct (api_submit _ _ _ _)] |]; simpl;
    (split; [by intros id | discriminate]).
Qed.

Lemma safe_spinWheel : safe spinWheel.
Proof.
  intros w. unfold spinWheel. destruct (w_wheel w); [apply safe_animate |].
  split; [apply keeps_dom_refl | discriminate].
Qed.

Lemma safe_spawn c : safe c -> safe (spawn c).
Proof.
  intros Hc w. unfold spawn. destruct (Hc w) as [Hd _].
  destruct (c w) as [w1 [] ] eqn:Hcw; simpl in *; (split; [| discriminate]); done.
Qed.

Lemma safe_run_others others : safe (run_others others).
Proof. apply safe_modify. done. Qed.

#[local] Hint Resolve safe_ret safe_throw safe_bind safe_try_catch safe_on_element
  safe_console_error safe_animate safe_read safe_send_tx safe_spinWheel safe_spawn
  safe_run_others : frontend.

Lemma safe_showStatus el m b : safe (showStatus el m b).
Proof.
  unfold showStatus, set_text, remove_classes, add_class.
  repeat (apply safe_bind; intros; auto with frontend).
Qed.

Lemma safe_loadLotteryDetails a1 a2 a3 a4 els : safe (loadLotteryDetails a1 a2 a3 a4 els).
Proof.
  unfold loadLotteryDetails, set_text. apply safe_try_catch; intros;
    repeat (apply safe_bind; intros; auto using safe_showStatus with frontend).
Qed.

Lemma safe_reload a : safe (reload a).
Proof. destruct a as [[[? ?] ?] ?]. apply safe_spawn, safe_loadLotteryDetails. Qed.

Lemma safe_buy_body pr approval env others : safe (buy_body pr approval env others).
Proof.
  intros w. unfold buy_body. destruct (w_account w); [| split; [apply keeps_dom_refl | done]].
  apply (safe_bind _ _ (safe_read _ _) (fun _ => safe_bind _ _ (safe_run_others _) (fun _ => safe_send_tx _ _ _))).
Qed.

#[local] Hint Resolve safe_showStatus safe_loadLotteryDetails safe_reload safe_buy_body : frontend.


Lemma step_on_element id f w e :
  dom (w_page w) !! id = Some e ->
  exists w', (forall acc, on_element w_page set_page (Some id) acc f w = (w', Normal tt)) /\
    dom (w_page w') !! id = Some (f e).
Proof.
  intros He. exists (update_element w_page set_page id f w).
  split; [intros acc; apply (on_element_Some id acc f w e He) | apply (on_element_Some id (SetProp "") f w e He)].
Qed.

Lemma tx_button_restores btn busy idle body success after lp fp w e :
  safe body -> safe after -> dom (w_page w) !! btn = Some e ->
  restored btn idle (tx_button btn busy idle body success after lp fp w).1.
Proof.
  intros Hb Ha He. unfold tx_button, set_disabled, set_text.
  destruct (step_on_element btn (fun e => mkElement (el_text e) (el_classes e) true) w e He)
    as (w1 & Hw1 & He1).
  rewrite (js_bind_run _ _ _ _ _ (Hw1 _)).
  destruct (step_on_element btn (fun e => mkElement busy (el_classes e) (el_disabled e)) w1 _ He1)
    as (w2 & Hw2 & He2).
  rewrite (js_bind_run _ _ _ _ _ (Hw2 _)).
  set (inner := js_try_catch _ _).
  assert (safe inner) as Hin.
  { apply safe_try_catch; intros; repeat (apply safe_bind; intros; auto with frontend). }
  destruct (Hin w2) as [Hkeep Hnoexit].
  destruct (inner w2) as [w3 r] eqn:Hw3. simpl in Hkeep, Hnoexit.
  destruct (Hkeep btn ltac:(rewrite He2; eauto)) as [e3 He3].
  rewrite (js_try_finally_runs _ _ _ _ _ Hw3 Hnoexit).
  destruct (step_on_element btn (fun e => mkElement (el_text e) (el_classes e) false) w3 e3 He3)
    as (w4 & Hw4 & He4).
  rewrite (js_bind_run _ _ _ _ _ (Hw4 _)).
  destruct (step_on_element btn (fun e => mkElement idle (el_classes e) (el_disabled e)) w4 _ He4)
    as (w5 & Hw5 & He5).
  rewrite (Hw5 _). simpl. exists (mkElement idle (el_classes e3) false). auto.
Qed.

(** C16: Every transaction button of admin.js (Trigger Draw, Distribute
    Prize, Reset Lottery) and user.js (Buy Ticket) ends its handler
    enabled again and showing its idle label, whatever happened in
    between: wallet refusal, revert, failed reads or a missing wheel. *)
Theorem handlers_restore_buttons pr approval env a others w :
  (is_Some (dom (w_page w) !! TRIGGER_DRAW) ->
     restored TRIGGER_DRAW "Trigger Draw" (triggerDraw approval env a w).1) /\
  (is_Some (dom (w_page w) !! DISTRIBUTE_PRIZE) ->
     restored DISTRIBUTE_PRIZE "Distribute Prize" (distributePrize approval env a w).1) /\
  (is_Some (dom (w_page w) !! RESET_LOTTERY) ->
     restored RESET_LOTTERY "Reset Lottery" (resetLottery approval env a w).1) /\
  (is_Some (dom (w_page w) !! BUY_TICKET) ->
     restored BUY_TICKET "Buy Ticket" (buyTicket pr approval env others a w).1).
Proof.
  repeat split; intros [e He]; apply (tx_button_restores _ _ _ _ _ _ _ _ _ e); auto with frontend;
    repeat (apply safe_bind; intros; auto with frontend).
Qed.

Lemma update_element_keeps (w : World) id f :
  w_chain (update_element w_page set_page id f w) = w_chain w /\
  w_account (update_element w_page set_page id f w) = w_account w /\
  w_wheel (update_element w_page set_page id f w) = w_wheel w.
Proof. unfold update_element. by destruct (_ !! _). Qed.

Lemma showStatus_run w e msg isError :
  dom (w_page w) !! STATUS_MESSAGE = Some e ->
  exists w', showStatus (Some STATUS_MESSAGE) msg isError w = (w', Normal tt) /\
    status_shown w' msg isError /\
    w_chain w' = w_chain w /\ w_account w' = w_account w /\ w_wheel w' = w_wheel w /\
    forall j, j <> STATUS_MESSAGE -> dom (w_page w') !! j = dom (w_page w) !! j.
Proof.
  intros He. unfold showStatus, set_text, remove_classes, add_class.
  set (tok := if isError then "text-red-600" else "text-green-600").
  set (f1 := fun e => mkElement msg (el_classes e) (el_disabled e)).
  set (f2 := fun e => mkElement (el_text e)
    (classList_remove ["hidden"; "text-green-600"; "text-red-600"] (el_classes e)) (el_disabled e)).
  set (f3 := fun e => mkElement (el_text e) (classList_add tok (el_classes e)) (el_disabled e)).
  destruct (on_element_Some STATUS_MESSAGE (SetProp "textContent") f1 w e He) as [E1 He1].
  rewrite (js_bind_run _ _ _ _ _ E1).
  destruct (on_element_Some STATUS_MESSAGE (GetProp "classList") f2 _ _ He1) as [E2 He2].
  rewrite (js_bind_run _ _ _ _ _ E2).
  destruct (on_element_Some STATUS_MESSAGE (GetProp "classList") f3 _ _ He2) as [E3 He3].
  rewrite (js_bind_run _ _ _ _ _ E3). eexists. split; [reflexivity |].
  destruct (update_element_keeps w STATUS_MESSAGE f1) as (K1 & K2 & K3).
  destruct (update_element_keeps (update_element w_page set_page STATUS_MESSAGE f1 w) STATUS_MESSAGE f2)
    as (K4 & K5 & K6).
  destruct (update_element_keeps (update_element w_page set_page STATUS_MESSAGE f2
    (update_element w_page set_page STATUS_MESSAGE f1 w)) STATUS_MESSAGE f3) as (K7 & K8 & K9).
  simpl. split; [| split; [congruence | split; [congruence | split; [congruence |]]]].
  - eexists. split; [exact He3 |]. subst f1 f2 f3 tok. simpl. split; [done |].
    rewrite !classList_add_spec, !classList_remove_spec.
    destruct isError; repeat split;
      try (intros [Hh | [_ Hh]]; [discriminate | apply Hh; rewrite !elem_of_cons; tauto]); by left.
  - intros j Hj. rewrite !update_element_lookup, !bool_decide_false by done. done.
Qed.

Lemma details_elements_no_statusMessageEl : details_elements !! "statusMessageEl" = None.
Proof. reflexivity. Qed.

Lemma intended_elements_statusMessageEl : intended_elements !! "statusMessageEl" = Some STATUS_MESSAGE.
Proof. reflexivity. Qed.

(** When one of the four reads is rejected, the body of the [try] stops
    at the first rejection, before it touches the page. *)
Lemma details_reads_rejected a1 a2 a3 a4 m (f : nat -> nat -> nat -> nat -> JS World unit) w :
  Rejected m ∈ [a1; a2; a3; a4] ->
  exists m', (let* x1 := read a1 api_ticketPrice in
              let* x2 := read a2 api_getParticipants in
              let* x3 := read a3 api_getPrizePool in
              let* x4 := read a4 (fun s => fmtAddress (api_winner s)) in
              f (Z.to_nat x1) (length x2) (Z.to_nat x3) (String.length x4)) w = (w, Thrown m').
Proof.
  intros Hm. unfold js_bind.
  destruct a1; [| by eexists]; destruct a2; [| by eexists];
  destruct a3; [| by eexists]; destruct a4; [| by eexists].
  repeat (apply elem_of_cons in Hm as [Hm | Hm]; [discriminate |]). by apply elem_of_nil in Hm.
Qed.

Lemma details_catch_runs a1 a2 a3 a4 els w m :
  Rejected m ∈ [a1; a2; a3; a4] ->
  exists m', loadLotteryDetails a1 a2 a3 a4 els w =
    (console_error w_page set_page (String.append "Error loading lottery details: " m') ;>
     showStatus (els !! "statusMessageEl") "Failed to load lottery details" true) w.
Proof.
  intros Hm. unfold loadLotteryDetails, js_try_catch.
  destruct (details_reads_rejected a1 a2 a3 a4 m
    (fun _ _ _ _ => js_ret tt) w Hm) as [m' Hr].
  exists m'. unfold js_bind in *.
  destruct a1; [| by inversion Hr]; destruct a2; [| by inversion Hr];
  destruct a3; [| by inversion Hr]; destruct a4; [| by inversion Hr].
  simpl in Hr. discriminate.
Qed.

(** C14: lottery.js line 173 reports a failed load through
    [elements.statusMessageEl], but every caller passes the status
    element under the key [statusMessage].  So when any read of
    [loadLotteryDetails] is rejected, the handler only logs the error,
    then throws a TypeError from its [catch] block: the page is left as
    it was and the failure message never appears.  With the key the
    code reads, the status element would show "Failed to load lottery
    details" in red. *)
Theorem load_details_failure_unreported a1 a2 a3 a4 m w e :
  Rejected m ∈ [a1; a2; a3; a4] ->
  dom (w_page w) !! STATUS_MESSAGE = Some e ->
  (loadLotteryDetails a1 a2 a3 a4 details_elements w).2 = Thrown TYPE_ERROR_TEXT /\
  dom (w_page (loadLotteryDetails a1 a2 a3 a4 details_elements w).1) = dom (w_page w) /\
  status_shown (loadLotteryDetails a1 a2 a3 a4 intended_elements w).1
    "Failed to load lottery details" true.
Proof.
  intros Hm He. split; [| split].
  - destruct (details_catch_runs a1 a2 a3 a4 details_elements w m Hm) as [m' ->].
    unfold js_bind. rewrite details_elements_no_statusMessageEl. done.
  - destruct (details_catch_runs a1 a2 a3 a4 details_elements w m Hm) as [m' ->].
    unfold js_bind. rewrite details_elements_no_statusMessageEl. done.
  - destruct (details_catch_runs a1 a2 a3 a4 intended_elements w m Hm) as [m' ->].
    rewrite intended_elements_statusMessageEl. erewrite js_bind_run by reflexivity.
    match goal with |- context [showStatus _ _ _ ?w1] =>
      destruct (showStatus_run w1 e "Failed to load lottery details" true He) as (w' & -> & Hs & _) end.
    exact Hs.
Qed.

(** Transactions of other accounts never change the ticket price. *)
Lemma chain_after_price `{!LotteryApiLaws S} others s :
  api_ticketPrice (chain_after others s) = api_ticketPrice s.
Proof.
  unfold chain_after. revert s. induction others as [|[[e from] t] others IH]; intros s; [done |].
  simpl. rewrite IH. destruct (api_submit e from t s) eqn:H; [| done].
  by eapply law_price_stable.
Qed.

Lemma buy_body_run env others w from :
  w_account w = Some from ->
  buy_body None None env others w =
    (let s := chain_after others (w_chain w) in
     match api_submit env from (BuyTicket (api_ticketPrice (w_chain w))) s with
     | Ok s' => (mkWorld (w_page w) s' (Some from) (w_wheel w), Normal tt)
     | Err _ => (mkWorld (w_page w) s (Some from) (w_wheel w), Thrown "execution reverted")
     end).
Proof.
  intros Hacc. unfold buy_body, read, js_bind, js_ret, run_others, js_modify, send_tx.
  rewrite Hacc. simpl. by destruct (api_submit _ _ _ _).
Qed.

(** C15: Buy Ticket (user.js 85-87) reads the price, then sends
    [buyTicket] with that value; whatever transactions of other
    accounts the chain executes between the read and the purchase, the
    purchase is never refused as an incorrect payment: the chain state
    becomes the one [buyTicket] produces, or the handler throws
    "execution reverted" for another reason. *)
Theorem buy_body_pays_price `{!LotteryApiLaws S} env others w from :
  w_account w = Some from ->
  buy_body None None env others w =
    (let s := chain_after others (w_chain w) in
     match api_submit env from (BuyTicket (api_ticketPrice (w_chain w))) s with
     | Ok s' => (mkWorld (w_page w) s' (Some from) (w_wheel w), Normal tt)
     | Err _ => (mkWorld (w_page w) s (Some from) (w_wheel w), Thrown "execution reverted")
     end) /\
  api_submit env from (BuyTicket (api_ticketPrice (w_chain w))) (chain_after others (w_chain w))
    <> Err IncorrectPayment.
Proof.
  intros Hacc. split; [by apply buy_body_run |].
  intros Hinc. apply law_incorrect_payment in Hinc. apply Hinc. symmetry. apply chain_after_price.
Qed.

Lemma status_shown_other j f (w : World) msg b :
  j <> STATUS_MESSAGE -> status_shown w msg b -> status_shown (update_element w_page set_page j f w) msg b.
Proof.
  intros Hj (e & He & R). exists e. rewrite update_element_lookup, bool_decide_false by congruence. auto.
Qed.

(** A transaction button whose body throws [m] without touching the
    world: the handler reports [fail_prefix ^ m] in red, restores the
    button and leaves the chain as it was. *)
Lemma tx_button_fails btn busy idle body success after lp fp w e es m :
  dom (w_page w) !! btn = Some e -> dom (w_page w) !! STATUS_MESSAGE = Some es -> btn <> STATUS_MESSAGE ->
  (forall w1, w_chain w1 = w_chain w -> w_account w1 = w_account w -> body w1 = (w1, Thrown m)) ->
  (tx_button btn busy idle body success after lp fp w).2 = Normal tt /\
  w_chain (tx_button btn busy idle body success after lp fp w).1 = w_chain w /\
  status_shown (tx_button btn busy idle body success after lp fp w).1 (String.append fp m) true /\
  restored btn idle (tx_button btn busy idle body success after lp fp w).1.
Proof.
  intros He Hs Hne Hbody. unfold tx_button, set_disabled, set_text.
  set (f1 := fun e => mkElement (el_text e) (el_classes e) true).
  set (f2 := fun e => mkElement busy (el_classes e) (el_disabled e)).
  destruct (on_element_Some btn (SetProp "disabled") f1 w e He) as [E1 He1].
  rewrite (js_bind_run _ _ _ _ _ E1).
  destruct (on_element_Some btn (SetProp "textContent") f2 _ _ He1) as [E2 He2].
  rewrite (js_bind_run _ _ _ _ _ E2).
  destruct (update_element_keeps w btn f1) as (K1 & K2 & _).
  destruct (update_element_keeps (update_element w_page set_page btn f1 w) btn f2) as (K3 & K4 & _).
  set (w2 := update_element w_page set_page btn f2 (update_element w_page set_page btn f1 w)) in *.
  assert (body w2 = (w2, Thrown m)) as Hb by (apply Hbody; congruence).
  set (w3 := (console_error w_page set_page (String.append lp m) w2).1).
  assert (dom (w_page w3) !! STATUS_MESSAGE = Some es) as Hs3.
  { change (dom (w_page w3)) with (dom (w_page w2)). subst w2.
    rewrite !update_element_lookup, !bool_decide_false by congruence. done. }
  destruct (showStatus_run w3 es (String.append fp m) true Hs3) as (w4 & Hrun4 & Hshown & C4 & _ & _ & D4).
  assert (js_try_catch (body ;> showStatus (Some STATUS_MESSAGE) success false ;> after)
    (fun msg => console_error w_page set_page (String.append lp msg) ;>
       showStatus (Some STATUS_MESSAGE) (String.append fp msg) true) w2 = (w4, Normal tt)) as Hc.
  { rewrite (js_try_catch_thrown _ _ _ _ _ (js_bind_thrown _ _ _ _ _ Hb)).
    erewrite js_bind_run by reflexivity. exact Hrun4. }
  rewrite (js_try_finally_runs _ _ _ _ _ Hc) by discriminate.
  assert (dom (w_page w4) !! btn = Some (f2 (f1 e))) as He4 by (rewrite D4 by done; exact He2).
  set (f3 := fun e => mkElement (el_text e) (el_classes e) false).
  set (f4 := fun e => mkElement idle (el_classes e) (el_disabled e)).
  destruct (on_element_Some btn (SetProp "disabled") f3 w4 _ He4) as [E3 He5].
  rewrite (js_bind_run _ _ _ _ _ E3).
  destruct (on_element_Some btn (SetProp "textContent") f4 _ _ He5) as [E4 He6].
  rewrite E4. cbn [fst snd].
  destruct (update_element_keeps w4 btn f3) as (K5 & _).
  destruct (update_element_keeps (update_element w_page set_page btn f3 w4) btn f4) as (K6 & _).
  split; [done | split; [| split]].
  - rewrite K6, K5, C4. subst w3. simpl. congruence.
  - apply status_shown_other; [done |]. apply status_shown_other; [done |]. exact Hshown.
  - eexists. split; [exact He6 |]. done.
Qed.

(** C35: When the read of the ticket price (user.js 85) is rejected,
    Buy Ticket sends nothing: the chain is unchanged, the status line
    shows "Failed to buy ticket: " and the error's message in red, and
    the button is enabled again with its idle label. *)
Theorem buy_price_read_rejected m approval env others a w from e es :
  w_account w = Some from ->
  dom (w_page w) !! BUY_TICKET = Some e -> dom (w_page w) !! STATUS_MESSAGE = Some es ->
  w_chain (buyTicket (Some m) approval env others a w).1 = w_chain w /\
  status_shown (buyTicket (Some m) approval env others a w).1 (String.append "Failed to buy ticket: " m) true /\
  restored BUY_TICKET "Buy Ticket" (buyTicket (Some m) approval env others a w).1.
Proof.
  intros Hacc He Hs.
  destruct (tx_button_fails BUY_TICKET "Processing..." "Buy Ticket" (buy_body (Some m) approval env others)
    "Ticket purchased successfully!"
    (animate w_page set_page (Some BUY_TICKET) "scale 1 -> 1.2 -> 1" ;> spinWheel ;> reload a)
    "Error buying ticket: " "Failed to buy ticket: " w e es m He Hs ltac:(done))
    as (_ & C & S' & R); [| done].
  intros w1 _ A1. unfold buy_body. rewrite A1, Hacc. done.
Qed.

End Frontend.

Lemma handlers_restore_buttons_witness :
  restored TRIGGER_DRAW "Trigger Draw" (triggerDraw (fun _ => "") (fun _ => "") None (mkTxEnv 0 (fun _ _ => true))
              (Served drawn_state, Served drawn_state, Served drawn_state, Served drawn_state)
              (mkWorld demo_page drawn_state (Some 1%Z) false)).1.
Proof.
  refine (proj1 (handlers_restore_buttons (fun _ => "") (fun _ => "") None None (mkTxEnv 0 (fun _ _ => true))
    (Served drawn_state, Served drawn_state, Served drawn_state, Served drawn_state) []
    (mkWorld demo_page drawn_state (Some 1%Z) false)) _).
  eexists. reflexivity.
Defined.

Lemma load_details_failure_unreported_witness :
  (loadLotteryDetails (fun _ => "") (fun _ => "") (Rejected "network error") (Served drawn_state)
     (Served drawn_state) (Served drawn_state) details_elements
     (mkWorld demo_page drawn_state (Some 1%Z) true)).2 = Thrown TYPE_ERROR_TEXT.
Proof.
  refine (proj1 (load_details_failure_unreported (fun _ => "") (fun _ => "") (Rejected "network error")
    (Served drawn_state) (Served drawn_state) (Served drawn_state) "network error"
    (mkWorld demo_page drawn_state (Some 1%Z) true) (mkElement "" [] false) _ _)).
  - apply elem_of_cons. by left.
  - reflexivity.
Defined.

Lemma buy_body_pays_price_witness :
  api_submit (mkTxEnv 0 (fun _ _ => true)) 2%Z
    (BuyTicket (api_ticketPrice (mkLottery 1 100 [] 0 None Open)))
    (chain_after [(mkTxEnv 0 (fun _ _ => true), 3%Z, BuyTicket 100)] (mkLottery 1 100 [] 0 None Open))
    <> Err IncorrectPayment.
Proof.
  refine (proj2 (buy_body_pays_price (mkTxEnv 0 (fun _ _ => true))
    [(mkTxEnv 0 (fun _ _ => true), 3%Z, BuyTicket 100)]
    (mkWorld demo_page (mkLottery 1 100 [] 0 None Open) (Some 2%Z) false) 2%Z _)).
  reflexivity.
Defined.

Lemma buy_price_read_rejected_witness :
  w_chain (buyTicket (fun _ => "") (fun _ => "") (Some "network error") None (mkTxEnv 0 (fun _ _ => true)) []
    (Served open_state_demo, Served open_state_demo, Served open_state_demo, Served open_state_demo)
    (mkWorld demo_page open_state_demo (Some 2%Z) true)).1 = open_state_demo.
Proof.
  assert (w_account (mkWorld demo_page open_state_demo (Some 2%Z) true) = Some 2%Z) as Ha by reflexivity.
  assert (dom (w_page (mkWorld demo_page open_state_demo (Some 2%Z) true)) !! BUY_TICKET =
    Some (mkElement "" [] false)) as Hb by reflexivity.
  assert (dom (w_page (mkWorld demo_page open_state_demo (Some 2%Z) true)) !! STATUS_MESSAGE =
    Some (mkElement "" [] false)) as Hs by reflexivity.
  exact (proj1 (buy_price_read_rejected (fun _ => "") (fun _ => "") "network error" None
    (mkTxEnv 0 (fun _ _ => true)) []
    (Served open_state_demo, Served open_state_demo, Served open_state_demo, Served open_state_demo)
    (mkWorld demo_page open_state_demo (Some 2%Z) true) 2%Z _ _ Ha Hb Hs)).
Defined.
