(* ===== verification/Wallet.v ===== *)
(** * Connecting the wallet (admin.js 20-39 and 52-87, user.js 18-37 and 50-78)

    The Connect Wallet handlers of both pages over the [World] of
    [Frontend]: ask the wallet for accounts, show the shortened address
    ([Address.wallet_status]), hide the connect button, create the
    global [contract] (from then on [w_account] is the connected
    account), and show the page's section, start the wheel and load the
    details.  admin.js first compares the connected address with
    [contract.admin()] case-insensitively ([Address.same_address_ci])
    and stops with "You are not the admin" when they differ.  The
    provider is [window.ethereum] ([Ethereum]); the addresses ethers
    returns are [fmtAddress] of the account.

    [frame fp c] says that [c] changes the page only at the elements
    [fp] admits (and the console and animations), and keeps the chain,
    the account and the wheel: the handlers' effects compose through
    it. *)

From stdpp Require Import base list decidable strings gmap.
From Stdlib Require Import ZArith.
From S2P Require Import Prelude Api Lottery Abi Js Dom Address Frontend.

Open Scope js_scope.

(** [document.getElementById("lottery-wheel")] (admin.js 13, user.js 11). *)
Definition WHEEL_CANVAS : nat := 13.

(** [window.ethereum]: absent, or a wallet whose [eth_requestAccounts]
    request is refused with a message or granted for the account
    [user] (then [signer.getAddress()] returns it). *)
Inductive Ethereum :=
| NoEthereum
| EthereumProvider (refusal : option string) (user : Address).

(** The elements [loadLotteryDetails] may write through the object the
    pages pass it. *)
Definition details_fp (j : nat) : Prop := exists k, details_elements !! k = Some j.

(** An admin or user page as loaded: every element present, the
    section hidden. *)
Definition loaded_page : Page :=
  mkPage (list_to_map ((SECTION, mkElement "" ["hidden"] false) ::
                       map (fun id => (id, mkElement "" [] false)) (seq 1 13))) [] [].

(** Every read answered by the same chain state. *)
Definition served4 (s : LotteryState) : @Answer LotteryState * Answer * Answer * Answer :=
  (Served s, Served s, Served s, Served s).

(** A lottery open for entries at price 100, administered by 1. *)
Definition open_state : LotteryState := mkLottery 1 100 [] 0 None Open.

Section Wallet.
Context {S : Type} {api : LotteryApi S}.
Variable formatEther : Z -> string.
Variable fmtAddress : Address -> string.
Local Abbreviation World := (@World S).
Local Abbreviation Answer := (@Answer S).

(** [initWheel()]: the Three.js scene is not modelled; the canvas is
    shown (line 25) and [wheel] is set (line 29). *)
Definition initWheel : JS World unit :=
  remove_classes w_page set_page (Some WHEEL_CANVAS) ["hidden"] ;>
  js_modify (fun w => mkWorld (w_page w) (w_chain w) (w_account w) true).

(** [await window.ethereum.request({ method: "eth_requestAccounts" })] *)
Definition request_accounts (refusal : option string) : JS World unit :=
  match refusal with
  | Some m => js_throw m
  | None => js_ret tt
  end.

(** [contract = new ethers.Contract(contractAddress, contractABI, signer)] *)
Definition connect_contract (user : Address) : JS World unit :=
  js_modify (fun w => mkWorld (w_page w) (w_chain w) (Some user) (w_wheel w)).

(** The [catch] block of both handlers. *)
Definition connect_failed (msg : string) : JS World unit :=
  console_error w_page set_page ("Error connecting wallet: " +:+ msg) ;>
  showStatus (Some STATUS_MESSAGE) ("Failed to connect wallet: " +:+ msg) true.

(** Lines 56-63 of admin.js (54-61 of user.js): the signer's address,
    the status line, the connect button hidden, the contract created. *)
Definition connect_account (user : Address) : JS World unit :=
  set_text w_page set_page (Some WALLET_STATUS) (wallet_status (fmtAddress user)) ;>
  add_class w_page set_page (Some CONNECT_WALLET) "hidden" ;>
  connect_contract user.

(** Show the section, initialise the wheel and start loading the
    details (admin.js 73-79, user.js 64-70). *)
Definition open_section (a : Answer * Answer * Answer * Answer) : JS World unit :=
  remove_classes w_page set_page (Some SECTION) ["hidden"] ;>
  initWheel ;>
  reload formatEther fmtAddress a.

(** admin.js 66-79: [adminAns] answers [contract.admin()]; the
    [return] of line 69 ends the [try] block. *)
Definition admin_gate (user : Address) (adminAns : Answer) (a : Answer * Answer * Answer * Answer)
  : JS World unit :=
  let* adminAddress := read adminAns (fun s => fmtAddress (api_admin s)) in
  if negb (same_address_ci (fmtAddress user) adminAddress) then
    showStatus (Some STATUS_MESSAGE) "You are not the admin" true
  else open_section a.

(** admin.js lines 52-87. *)
Definition connectWallet_admin (eth : Ethereum) (adminAns : Answer)
  (a : Answer * Answer * Answer * Answer) : JS World unit :=
  match eth with
  | NoEthereum => showStatus (Some STATUS_MESSAGE) "Please install MetaMask" true
  | EthereumProvider refusal user =>
      js_try_catch
        (request_accounts refusal ;> connect_account user ;> admin_gate user adminAns a)
        connect_failed
  end.

(** user.js lines 50-78. *)
Definition connectWallet_user (eth : Ethereum) (a : Answer * Answer * Answer * Answer)
  : JS World unit :=
  match eth with
  | NoEthereum => showStatus (Some STATUS_MESSAGE) "Please install MetaMask" true
  | EthereumProvider refusal user =>
      js_try_catch
        (request_accounts refusal ;> connect_account user ;> open_section a)
        connect_failed
  end.

(** [w'] differs from [w] only at the elements [fp] admits, the
    console and the animations. *)
Definition framed (fp : nat -> Prop) (w w' : World) : Prop :=
  w_chain w' = w_chain w /\ w_account w' = w_account w /\ w_wheel w' = w_wheel w /\
  forall j, ~ fp j -> dom (w_page w') !! j = dom (w_page w) !! j.

Definition frame (fp : nat -> Prop) {A} (c : JS World A) : Prop :=
  forall w, framed fp w (c w).1.

(** The page as loaded: the elements the handler uses exist, the
    section is hidden and the wheel is not created yet. *)
Definition connect_ready (w : World) : Prop :=
  Forall (fun j => is_Some (dom (w_page w) !! j))
    [CONNECT_WALLET; WALLET_STATUS; SECTION; STATUS_MESSAGE; WHEEL_CANVAS] /\
  (exists e, dom (w_page w) !! SECTION = Some e /\ "hidden" ∈ el_classes e) /\
  w_wheel w = false.

(** The section of the page is shown. *)
Definition section_shown (w : World) : Prop :=
  exists e, dom (w_page w) !! SECTION = Some e /\ "hidden" ∉ el_classes e.

(** The text of the status message. *)
Definition status_text (w : World) : option string :=
  el_text <$> dom (w_page w) !! STATUS_MESSAGE.

(** * Theorems *)

Create HintDb wallet discriminated.

Lemma framed_trans fp w1 w2 w3 : framed fp w1 w2 -> framed fp w2 w3 -> framed fp w1 w3.
Proof.
  intros (C1 & A1 & W1 & D1) (C2 & A2 & W2 & D2).
  repeat split; try congruence. intros j Hj. rewrite D2, D1; auto.
Qed.

Lemma framed_weaken (fp fp' : nat -> Prop) w w' :
  (forall j, fp j -> fp' j) -> framed fp w w' -> framed fp' w w'.
Proof. intros Himp (C & A & W & D). repeat split; auto. Qed.

Lemma frame_ret {A} fp (a : A) : frame fp (js_ret a).
Proof. intros w. by repeat split. Qed.

Lemma frame_throw {A} fp m : frame fp (@js_throw World A m).
Proof. intros w. by repeat split. Qed.

Lemma frame_bind {A B} fp (c : JS World A) (k : A -> JS World B) :
  frame fp c -> (forall a, frame fp (k a)) -> frame fp (js_bind c k).
Proof.
  intros Hc Hk w. unfold js_bind. pose proof (Hc w) as H.
  destruct (c w) as [w1 [a | m | n]]; simpl in *; [| done | done].
  eapply framed_trans; [exact H | apply Hk].
Qed.

Lemma frame_try_catch {A} fp (c : JS World A) h :
  frame fp c -> (forall m, frame fp (h m)) -> frame fp (js_try_catch c h).
Proof.
  intros Hc Hh w. unfold js_try_catch. pose proof (Hc w) as H.
  destruct (c w) as [w1 [a | m | n]]; simpl in *; [done | | done].
  eapply framed_trans; [exact H | apply Hh].
Qed.

Lemma frame_weaken {A} (fp fp' : nat -> Prop) (c : JS World A) :
  (forall j, fp j -> fp' j) -> frame fp c -> frame fp' c.
Proof. intros Himp Hc w. eapply framed_weaken; [exact Himp | apply Hc]. Qed.

Lemma frame_on_element el acc f :
  frame (fun j => el = Some j) (on_element w_page set_page el acc f).
Proof.
  intros w. unfold on_element. destruct el as [id|]; [| done].
  destruct (dom (w_page w) !! id) eqn:He; [| done].
  split; [| split; [| split]]; try (unfold update_element; rewrite He; done).
  intros j Hj. cbn [fst]. rewrite update_element_lookup, bool_decide_false; [done |]. congruence.
Qed.

Lemma frame_console_error fp m : frame fp (console_error w_page set_page m).
Proof. intros w. by repeat split. Qed.

Lemma frame_animate fp el what : frame fp (animate w_page set_page el what).
Proof. intros w. destruct el; by repeat split. Qed.

Lemma frame_read {A} fp ans (f : S -> A) : frame fp (read ans f).
Proof. destruct ans; [apply frame_ret | apply frame_throw]. Qed.

#[local] Hint Resolve frame_ret frame_throw frame_bind frame_try_catch frame_console_error
  frame_animate frame_read : wallet.

Lemma frame_on_element_in fp el acc f :
  (forall j, el = Some j -> fp j) -> frame fp (on_element w_page set_page el acc f).
Proof. intros H. eapply frame_weaken; [exact H | apply frame_on_element]. Qed.

Lemma frame_showStatus fp el msg e :
  (forall j, el = Some j -> fp j) -> frame fp (showStatus el msg e).
Proof.
  intros H. unfold showStatus, set_text, remove_classes, add_class.
  repeat (apply frame_bind; intros); auto using frame_on_element_in with wallet.
Qed.

Lemma frame_loadLotteryDetails a1 a2 a3 a4 els :
  frame (fun j => exists k, els !! k = Some j)
    (loadLotteryDetails formatEther fmtAddress a1 a2 a3 a4 els).
Proof.
  unfold loadLotteryDetails, set_text.
  apply frame_try_catch; intros;
    repeat (apply frame_bind; intros); eauto using frame_on_element_in, frame_showStatus with wallet.
Qed.

Lemma frame_spawn fp c : frame fp c -> frame fp (spawn c).
Proof.
  intros Hc w. unfold spawn. pose proof (Hc w) as H.
  destruct (c w) as [w1 [a | m | n]]; simpl in *; [done | | done].
  eapply framed_trans; [exact H | apply frame_console_error].
Qed.

Lemma frame_reload a : frame details_fp (reload formatEther fmtAddress a).
Proof. destruct a as [[[a1 a2] a3] a4]. apply frame_spawn, frame_loadLotteryDetails. Qed.

Lemma frame_spinWheel fp : frame fp spinWheel.
Proof. intros w. unfold spinWheel. destruct (w_wheel w) eqn:E; by repeat split. Qed.

(** After a [try], the [catch] block only touches [fp]. *)
Lemma framed_try_catch {A} fp (c : JS World A) h w :
  (forall m, frame fp (h m)) -> framed fp (c w).1 (js_try_catch c h w).1.
Proof.
  intros Hh. unfold js_try_catch.
  destruct (c w) as [w1 [a | m | n]]; simpl; [| apply Hh |]; by repeat split.
Qed.

Lemma present_update id f (w : World) j :
  is_Some (dom (w_page w) !! j) -> is_Some (dom (w_page (update_element w_page set_page id f w)) !! j).
Proof. apply keeps_dom_update. Qed.

Lemma bind_on_element {A} id acc f (k : unit -> JS World A) (w : World) :
  is_Some (dom (w_page w) !! id) ->
  js_bind (on_element w_page set_page (Some id) acc f) k w = k tt (update_element w_page set_page id f w).
Proof. intros [e He]. apply js_bind_run, (on_element_Some id acc f w e He). Qed.

Lemma spawn_normal (c : JS World unit) w : (spawn c w).2 = Normal tt.
Proof. unfold spawn. by destruct (c w) as [w1 [] ]. Qed.

Lemma initWheel_run (w : World) :
  is_Some (dom (w_page w) !! WHEEL_CANVAS) ->
  exists w', initWheel w = (w', Normal tt) /\ w_wheel w' = true /\ w_chain w' = w_chain w /\
    w_account w' = w_account w /\ forall j, j <> WHEEL_CANVAS -> dom (w_page w') !! j = dom (w_page w) !! j.
Proof.
  intros Hc. unfold initWheel, remove_classes. rewrite bind_on_element by done.
  eexists. split; [reflexivity |]. cbn [w_wheel w_chain w_account w_page].
  split; [done |]. split; [unfold update_element; by destruct (_ !! _) |].
  split; [unfold update_element; by destruct (_ !! _) |].
  intros j Hj. rewrite update_element_lookup, bool_decide_false by done. done.
Qed.

Lemma frame_connect_failed m : frame (fun j => j = STATUS_MESSAGE) (connect_failed m).
Proof.
  unfold connect_failed. apply frame_bind; intros; [apply frame_console_error |].
  apply frame_showStatus. congruence.
Qed.

Lemma connect_account_run user (w : World) :
  is_Some (dom (w_page w) !! WALLET_STATUS) -> is_Some (dom (w_page w) !! CONNECT_WALLET) ->
  exists w', connect_account user w = (w', Normal tt) /\ w_account w' = Some user /\
    w_chain w' = w_chain w /\ w_wheel w' = w_wheel w /\
    forall j, j <> WALLET_STATUS -> j <> CONNECT_WALLET -> dom (w_page w') !! j = dom (w_page w) !! j.
Proof.
  intros H1 H2. unfold connect_account, set_text, add_class.
  rewrite bind_on_element by done. rewrite bind_on_element by (apply present_update; done).
  eexists. split; [reflexivity |]. cbn [w_account w_chain w_wheel w_page].
  unfold update_element. destruct H1 as [e1 ->]. simpl. destruct H2 as [e2 He2].
  rewrite lookup_insert_ne, He2 by done. simpl. repeat split.
  intros j Hj1 Hj2. rewrite !lookup_insert_ne by done. done.
Qed.

Lemma reload_normal a (w : World) : (reload formatEther fmtAddress a w).2 = Normal tt.
Proof. destruct a as [[[a1 a2] a3] a4]. apply spawn_normal. Qed.

End Wallet.

Ltac present :=
  repeat first [ assumption | apply present_update | progress cbn [w_page] ].

Lemma details_fp_iff j : details_fp j <-> j ∈ [TICKET_PRICE_EL; PARTICIPANTS_COUNT; PRIZE_POOL; WINNER_EL; STATUS_MESSAGE].
Proof.
  unfold details_fp, details_elements. rewrite !elem_of_cons, elem_of_nil. split.
  - intros [k Hk]. rewrite !lookup_insert_Some, lookup_empty in Hk.
    unfold TICKET_PRICE_EL, PARTICIPANTS_COUNT, PRIZE_POOL, WINNER_EL, STATUS_MESSAGE in *.
    repeat destruct Hk as [[_ <-] | [_ Hk]]; [lia .. | discriminate].
  - intros Hj. repeat destruct Hj as [-> | Hj]; try done;
      [exists "ticketPriceEl" | exists "participantsCountEl" | exists "prizePoolEl"
      | exists "winnerEl" | exists "statusMessage"]; reflexivity.
Qed.

Lemma showStatus_framed {S} (w : @World S) e msg err :
  dom (w_page w) !! STATUS_MESSAGE = Some e ->
  status_shown (showStatus (Some STATUS_MESSAGE) msg err w).1 msg err /\
  framed (fun j => j = STATUS_MESSAGE) w (showStatus (Some STATUS_MESSAGE) msg err w).1.
Proof.
  intros He. destruct (showStatus_run w e msg err He) as (w' & -> & Hs & C & A & W & D).
  split; [done |]. repeat split; auto.
Qed.

Lemma connect_failed_framed {S} (w : @World S) e m :
  dom (w_page w) !! STATUS_MESSAGE = Some e ->
  status_shown (connect_failed m w).1 ("Failed to connect wallet: " +:+ m) true /\
  framed (fun j => j = STATUS_MESSAGE) w (connect_failed m w).1.
Proof.
  intros He. unfold connect_failed. erewrite js_bind_run by reflexivity.
  match goal with |- context [showStatus _ _ _ ?w1] =>
    destruct (showStatus_framed w1 e ("Failed to connect wallet: " +:+ m) true He) as [Hs Hf] end.
  split; [done |]. destruct Hf as (C & A & W & D). repeat split; auto.
Qed.

Lemma framed_bind_after {S A B} fp (c : JS (@World S) A) (k : A -> JS World B) w :
  (forall a, frame fp (k a)) -> framed fp (c w).1 (js_bind c k w).1.
Proof.
  intros Hk. unfold js_bind. destruct (c w) as [w1 [a | m | n]]; simpl; [apply Hk | |]; by repeat split.
Qed.

Lemma framed_try_finally {S A} fp (c : JS (@World S) A) f w :
  frame fp f -> framed fp (c w).1 (js_try_finally c f w).1.
Proof.
  intros Hf. unfold js_try_finally. pose proof (Hf (c w).1) as H.
  destruct (c w) as [w1 r]. destruct r as [a | m | n]; simpl in *; [| | by repeat split];
    destruct (f w1) as [w2 [] ]; exact H.
Qed.

Lemma framed_all_keeps {S} (w w' : @World S) :
  framed (fun _ => True) w w' <-> w_chain w' = w_chain w /\ w_account w' = w_account w /\ w_wheel w' = w_wheel w.
Proof. split; [intros (C & A & W & _); auto | intros (C & A & W); repeat split; auto; tauto]. Qed.

(** A transaction button changes the chain, the account and the wheel
    only through its body, which runs on the page with the button
    disabled. *)
Lemma tx_button_body {S} btn busy idle (body : JS (@World S) unit) success after lp fp w :
  frame (fun _ => True) after -> is_Some (dom (w_page w) !! btn) ->
  exists w2, framed (fun _ => True) w w2 /\ dom (w_page w2) !! btn <> None /\
    framed (fun _ => True) (body w2).1 (tx_button btn busy idle body success after lp fp w).1.
Proof.
  intros Ha Hb. unfold tx_button, set_disabled, set_text.
  rewrite bind_on_element by done. rewrite bind_on_element by (apply present_update; done).
  match goal with |- context [js_try_finally _ _ ?w2] => exists w2 end. split; [| split].
  - apply framed_all_keeps. destruct (update_element_keeps w btn
      (fun e => mkElement (el_text e) (el_classes e) true)) as (K1 & K2 & K3).
    destruct (update_element_keeps (update_element w_page set_page btn
      (fun e => mkElement (el_text e) (el_classes e) true) w) btn
      (fun e => mkElement busy (el_classes e) (el_disabled e))) as (K4 & K5 & K6).
    repeat split; congruence.
  - destruct Hb as [e He]. rewrite !update_element_lookup, bool_decide_true, He by done. done.
  - eapply framed_trans; [| apply framed_try_finally;
      apply frame_bind; intros; apply frame_on_element_in; done].
    eapply framed_trans; [| apply framed_try_catch; intros m;
      apply frame_bind; intros; [apply frame_console_error | apply frame_showStatus; done]].
    apply framed_bind_after. intros []. apply frame_bind; intros; [apply frame_showStatus; done | exact Ha].
Qed.

(** A transaction that only the administrator may send changes nothing
    when another connected account sends it. *)
Lemma send_tx_refused {S} `{LotteryApiLaws S} approval env t (w : @World S) from :
  w_account w = Some from -> from <> api_admin (w_chain w) -> is_admin_tx t = true ->
  (send_tx approval env t w).1 = w.
Proof.
  intros Hacc Hne Ht. unfold send_tx. rewrite Hacc, abi_send_check_frontend.
  destruct approval; [done |]. rewrite law_admin_only by done. done.
Qed.

Lemma frame_admin_after {S} `{LotteryApi S} fe fa a (btn : nat) (what : string) :
  frame (fun _ => True) (animate w_page set_page (Some btn) what ;> reload fe fa a).
Proof.
  apply frame_bind; intros; [apply frame_animate |].
  eapply frame_weaken; [| apply frame_reload]. done.
Qed.

Lemma frame_spin_after {S} `{LotteryApi S} fe fa a (btn : nat) (what : string) :
  frame (fun _ => True) (animate w_page set_page (Some btn) what ;> spinWheel ;> reload fe fa a).
Proof.
  apply frame_bind; intros; [apply frame_animate |].
  apply frame_bind; intros; [apply frame_spinWheel |].
  eapply frame_weaken; [| apply frame_reload]. done.
Qed.

Lemma BUY_TICKET_not_details : ~ details_fp BUY_TICKET.
Proof. rewrite details_fp_iff. unfold BUY_TICKET. intros H. repeat (apply elem_of_cons in H as [H | H]; [discriminate |]). by apply elem_of_nil in H. Qed.

Lemma SECTION_not_details : ~ details_fp SECTION.
Proof. rewrite details_fp_iff. unfold SECTION. intros H. repeat (apply elem_of_cons in H as [H | H]; [discriminate |]). by apply elem_of_nil in H. Qed.

Lemma WALLET_STATUS_not_details : ~ details_fp WALLET_STATUS.
Proof. rewrite details_fp_iff. unfold WALLET_STATUS. intros H. repeat (apply elem_of_cons in H as [H | H]; [discriminate |]). by apply elem_of_nil in H. Qed.

Section Connect.
Context {S : Type} {api : LotteryApi S}.
Variable formatEther : Z -> string.
Variable fmtAddress : Address -> string.
Local Abbreviation World := (@World S).

Lemma open_section_run a (w : World) e :
  dom (w_page w) !! SECTION = Some e -> is_Some (dom (w_page w) !! WHEEL_CANVAS) ->
  (open_section formatEther fmtAddress a w).2 = Normal tt /\
  w_wheel (open_section formatEther fmtAddress a w).1 = true /\
  w_account (open_section formatEther fmtAddress a w).1 = w_account w /\
  w_chain (open_section formatEther fmtAddress a w).1 = w_chain w /\
  dom (w_page (open_section formatEther fmtAddress a w).1) !! SECTION =
    Some (mkElement (el_text e) (classList_remove ["hidden"] (el_classes e)) (el_disabled e)) /\
  forall j, j <> SECTION -> j <> WHEEL_CANVAS -> ~ details_fp j ->
    dom (w_page (open_section formatEther fmtAddress a w).1) !! j = dom (w_page w) !! j.
Proof.
  intros Hs Hc. unfold open_section, remove_classes.
  rewrite bind_on_element by (eexists; exact Hs).
  match goal with |- context [js_bind initWheel _ ?w1] =>
    destruct (initWheel_run w1 ltac:(present)) as (w2 & Hrun & W2 & C2 & A2 & D2) end.
  rewrite (js_bind_run _ _ _ _ _ Hrun).
  destruct (frame_reload formatEther fmtAddress a w2) as (C3 & A3 & W3 & D3).
  rewrite reload_normal, W3, A3, C3, W2, A2, C2.
  assert (forall (w0 : World) id f, w_account (update_element w_page set_page id f w0) = w_account w0 /\
    w_chain (update_element w_page set_page id f w0) = w_chain w0) as Hk
    by (intros; destruct (update_element_keeps w0 id f) as (? & ? & ?); auto).
  repeat split; try apply Hk.
  - rewrite D3, D2 by (done || apply SECTION_not_details).
    rewrite update_element_lookup, bool_decide_true, Hs by done. done.
  - intros j Hj1 Hj2 Hj3. rewrite D3, D2, update_element_lookup, bool_decide_false by done. done.
Qed.

(** ethers formats distinct addresses to strings that differ in more
    than the case of their letters ([Address.same_address_ci_iff] for
    [checksum_address]). *)
Hypothesis fmt_ci : forall a b, address160 a -> address160 b ->
  same_address_ci (fmtAddress a) (fmtAddress b) = true <-> a = b.

(** C23: On a freshly loaded admin page, connecting a wallet whose
    account request is granted always connects the contract, and then
    shows the admin section and initialises the wheel exactly when the
    connected account is the administrator that [contract.admin()]
    reports; another account only gets "You are not the admin" and the
    section stays hidden. *)
Theorem connect_admin_gate (w : World) user s a :
  connect_ready w -> address160 user -> address160 (api_admin s) ->
  let w' := (connectWallet_admin formatEther fmtAddress (EthereumProvider None user) (Served s) a w).1 in
  w_account w' = Some user /\ w_chain w' = w_chain w /\
  (section_shown w' <-> user = api_admin s) /\ (w_wheel w' = true <-> user = api_admin s).
Proof.
  intros (Hids & (e & He & Hh) & Hwh) Hu Ha. cbv zeta.
  rewrite !Forall_cons in Hids. destruct Hids as (Hc & Hw & Hs & Hst & Hwc & _).
  unfold connectWallet_admin.
  match goal with |- context [js_try_catch ?B ?h w] =>
    pose proof (framed_try_catch (fun j => j = STATUS_MESSAGE) B h w frame_connect_failed) as Hf;
    remember (js_try_catch B h w).1 as wf eqn:Ewf; clear Ewf end.
  unfold request_accounts in Hf. rewrite (js_bind_run _ _ w w tt eq_refl) in Hf.
  destruct (connect_account_run fmtAddress user w Hw Hc) as (w3 & Hrun & A3 & C3 & W3 & D3).
  rewrite (js_bind_run _ _ _ _ _ Hrun) in Hf. unfold admin_gate, read in Hf.
  rewrite (js_bind_run _ _ w3 w3 _ eq_refl) in Hf.
  assert (dom (w_page w3) !! SECTION = Some e) as He3 by (rewrite D3; done).
  destruct (decide (user = api_admin s)) as [Heq | Hne].
  - rewrite (proj2 (fmt_ci user (api_admin s) Hu Ha) Heq) in Hf. simpl in Hf.
    destruct (open_section_run a w3 e He3 ltac:(rewrite D3 by done; done))
      as (_ & W4 & A4 & C4 & S4 & _).
    destruct Hf as (Cf & Af & Wf & Df). rewrite Af, A4, Cf, C4, Wf, W4, A3, C3.
    repeat split; auto. exists (mkElement (el_text e) (classList_remove ["hidden"] (el_classes e)) (el_disabled e)).
    rewrite Df, S4 by done. split; [done |]. simpl. rewrite classList_remove_spec. intros [_ Hn].
    apply Hn, elem_of_cons. by left.
  - assert (same_address_ci (fmtAddress user) (fmtAddress (api_admin s)) = false) as Hns.
    { apply not_true_is_false. rewrite fmt_ci by done. done. }
    rewrite Hns in Hf. simpl in Hf.
    pose proof (framed_trans _ _ _ _ (frame_showStatus (fun j => j = STATUS_MESSAGE)
      (Some STATUS_MESSAGE) "You are not the admin" true ltac:(congruence) w3) Hf) as (Cf & Af & Wf & Df).
    rewrite Af, Cf, Wf, A3, C3, W3, Hwh. repeat split; try done.
    intros (e' & He' & Hn). rewrite Df, He3 in He' by done. injection He' as <-. done.
Qed.

(** C26: Connecting fails visibly and harmlessly on both pages: without
    a wallet extension the status shows "Please install MetaMask" in
    red; when the wallet refuses the account request the status shows
    "Failed to connect wallet: " and the reason in red.  In both cases
    the contract stays uncreated, the chain, the wheel and every other
    element of the page are unchanged. *)
Theorem connect_failures (w : World) e m user ans a :
  dom (w_page w) !! STATUS_MESSAGE = Some e ->
  (status_shown (connectWallet_admin formatEther fmtAddress NoEthereum ans a w).1
     "Please install MetaMask" true /\
   framed (fun j => j = STATUS_MESSAGE) w (connectWallet_admin formatEther fmtAddress NoEthereum ans a w).1) /\
  (status_shown (connectWallet_user formatEther fmtAddress NoEthereum a w).1
     "Please install MetaMask" true /\
   framed (fun j => j = STATUS_MESSAGE) w (connectWallet_user formatEther fmtAddress NoEthereum a w).1) /\
  (status_shown (connectWallet_admin formatEther fmtAddress (EthereumProvider (Some m) user) ans a w).1
     ("Failed to connect wallet: " +:+ m) true /\
   framed (fun j => j = STATUS_MESSAGE) w
     (connectWallet_admin formatEther fmtAddress (EthereumProvider (Some m) user) ans a w).1) /\
  (status_shown (connectWallet_user formatEther fmtAddress (EthereumProvider (Some m) user) a w).1
     ("Failed to connect wallet: " +:+ m) true /\
   framed (fun j => j = STATUS_MESSAGE) w
     (connectWallet_user formatEther fmtAddress (EthereumProvider (Some m) user) a w).1).
Proof.
  intros He. unfold connectWallet_admin, connectWallet_user, request_accounts, js_try_catch.
  rewrite !(js_bind_thrown (js_throw m) _ w w m eq_refl).
  repeat split; try apply (showStatus_framed w e _ _ He); apply (connect_failed_framed w e m He).
Qed.

(** C27: The admin buttons are guarded by the contract, not only by the
    hidden section: when a connected account other than the
    administrator clicks Trigger Draw, Distribute Prize or Reset Lottery
    (the handlers stay attached while the section is hidden), whatever
    the wallet answers, the chain is unchanged. *)
Theorem admin_buttons_guarded `{!LotteryApiLaws S} approval env a (w : World) from :
  w_account w = Some from -> from <> api_admin (w_chain w) ->
  (is_Some (dom (w_page w) !! TRIGGER_DRAW) ->
     w_chain (triggerDraw formatEther fmtAddress approval env a w).1 = w_chain w) /\
  (is_Some (dom (w_page w) !! DISTRIBUTE_PRIZE) ->
     w_chain (distributePrize formatEther fmtAddress approval env a w).1 = w_chain w) /\
  (is_Some (dom (w_page w) !! RESET_LOTTERY) ->
     w_chain (resetLottery formatEther fmtAddress approval env a w).1 = w_chain w).
Proof.
  intros Hacc Hne.
  assert (forall btn busy idle t succ after lp fp, is_admin_tx t = true ->
    frame (fun _ => True) after -> is_Some (dom (w_page w) !! btn) ->
    w_chain (tx_button btn busy idle (send_tx approval env t) succ after lp fp w).1 = w_chain w) as Hgen.
  { intros btn busy idle t succ after lp fp Ht Ha Hb.
    destruct (tx_button_body btn busy idle (send_tx approval env t) succ after lp fp w Ha Hb)
      as (w2 & (C2 & A2 & _)%framed_all_keeps & _ & Hf).
    rewrite (send_tx_refused approval env t w2 from) in Hf by congruence.
    apply framed_all_keeps in Hf as (Cf & _). congruence. }
  unfold triggerDraw, distributePrize, resetLottery.
  repeat split; intros; apply Hgen; auto using frame_admin_after, frame_spin_after.
Qed.

(** C28: Connecting and buying compose on the user page: before the
    wallet is connected Buy Ticket cannot reach the chain ([contract] is
    undefined); once a granted connection has created the contract, a
    purchase that the chain accepts after the other accounts'
    transactions lands, and appends the buyer to the entries. *)
Theorem connect_then_buy `{!LotteryApiLaws S} (w : World) user pr env others a a' s' :
  connect_ready w -> is_Some (dom (w_page w) !! BUY_TICKET) -> w_account w = None ->
  w_chain (buyTicket formatEther fmtAddress pr None env others a' w).1 = w_chain w /\
  (api_submit env user (BuyTicket (api_ticketPrice (w_chain w))) (chain_after others (w_chain w)) = Ok s' ->
   let w1 := (connectWallet_user formatEther fmtAddress (EthereumProvider None user) a w).1 in
   w_account w1 = Some user /\
   w_chain (buyTicket formatEther fmtAddress None None env others a' w1).1 = s' /\
   api_getParticipants s' = (api_getParticipants (chain_after others (w_chain w)) ++ [user])%list).
Proof.
  intros (Hids & (e & He & _) & _) Hbt Hacc.
  rewrite !Forall_cons in Hids. destruct Hids as (Hc & Hw & Hs & Hst & Hwc & _).
  split.
  - unfold buyTicket.
    destruct (tx_button_body BUY_TICKET "Processing..." "Buy Ticket" (buy_body pr None env others)
      "Ticket purchased successfully!" _ "Error buying ticket: " "Failed to buy ticket: " w
      (frame_spin_after formatEther fmtAddress a' BUY_TICKET "scale 1 -> 1.2 -> 1") Hbt) as (w2 & (C2 & A2 & _)%framed_all_keeps & _ & Hf).
    assert ((buy_body pr None env others w2).1 = w2) as Hb by (unfold buy_body; by rewrite A2, Hacc).
    rewrite Hb in Hf. apply framed_all_keeps in Hf as (Cf & _). congruence.
  - intros Hsub. cbv zeta. unfold connectWallet_user, js_try_catch, request_accounts.
    rewrite (js_bind_run _ _ w w tt eq_refl).
    destruct (connect_account_run fmtAddress user w Hw Hc) as (w3 & Hrun & A3 & C3 & W3 & D3).
    rewrite (js_bind_run _ _ _ _ _ Hrun).
    destruct (open_section_run a w3 e ltac:(rewrite D3 by done; done) ltac:(rewrite D3 by done; done))
      as (N4 & _ & A4 & C4 & _ & D4).
    destruct (open_section formatEther fmtAddress a w3) as [w4 r] eqn:Eo. simpl in N4. subst r.
    simpl in A4, C4, D4 |- *. split; [congruence |].
    assert (is_Some (dom (w_page w4) !! BUY_TICKET)) as Hbt4.
    { rewrite D4, D3 by (done || apply BUY_TICKET_not_details). done. }
    unfold buyTicket.
    destruct (tx_button_body BUY_TICKET "Processing..." "Buy Ticket" (buy_body None None env others)
      "Ticket purchased successfully!" _ "Error buying ticket: " "Failed to buy ticket: " w4
      (frame_spin_after formatEther fmtAddress a' BUY_TICKET "scale 1 -> 1.2 -> 1") Hbt4) as (w5 & (C5 & A5 & _)%framed_all_keeps & _ & Hf).
    rewrite (buy_body_run env others w5 user) in Hf by congruence.
    cbv zeta in Hf. rewrite C5, C4, C3, Hsub in Hf. apply framed_all_keeps in Hf as (Cf & _).
    split; [exact Cf |]. exact (law_buy_appends env user _ _ _ Hsub).
Qed.

End Connect.

Lemma loaded_ready (s : LotteryState) acc : connect_ready (mkWorld loaded_page s acc false).
Proof.
  split; [repeat constructor; eexists; reflexivity |].
  split; [| reflexivity]. eexists. split; [reflexivity |]. apply elem_of_cons. by left.
Qed.

Lemma connect_admin_gate_witness :
  w_account (connectWallet_admin (fun _ => "") (checksum_address (fun _ _ => false))
    (EthereumProvider None 1%Z) (Served drawn_state) (served4 drawn_state)
    (mkWorld loaded_page drawn_state None false)).1 = Some 1%Z.
Proof.
  assert (address160 1%Z) as H1 by (unfold address160, ADDRESS_BOUND; lia).
  assert (address160 (api_admin drawn_state)) as H2 by exact H1.
  exact (proj1 (connect_admin_gate (fun _ => "") (checksum_address (fun _ _ => false))
    (checksum_ci_iff (fun _ _ => false)) (mkWorld loaded_page drawn_state None false) 1%Z drawn_state
    (served4 drawn_state) (loaded_ready drawn_state None) H1 H2)).
Defined.

Lemma connect_failures_witness :
  status_shown (connectWallet_user (fun _ => "") (fun _ => "") NoEthereum (served4 drawn_state)
    (mkWorld loaded_page drawn_state None false)).1 "Please install MetaMask" true.
Proof.
  assert (dom (w_page (mkWorld loaded_page drawn_state None false)) !! STATUS_MESSAGE =
    Some (mkElement "" [] false)) as He by reflexivity.
  exact (proj1 (proj1 (proj2 (connect_failures (fun _ => "") (fun _ => "")
    (mkWorld loaded_page drawn_state None false) (mkElement "" [] false) "User rejected the request."
    1%Z (Served drawn_state) (served4 drawn_state) He)))).
Defined.

Lemma admin_buttons_guarded_witness :
  w_chain (triggerDraw (fun _ => "") (fun _ => "") None (mkTxEnv 0 (fun _ _ => true))
    (served4 drawn_state) (mkWorld loaded_page drawn_state (Some 2%Z) true)).1 = drawn_state.
Proof.
  assert (w_account (mkWorld loaded_page drawn_state (Some 2%Z) true) = Some 2%Z) as Ha by reflexivity.
  assert (2%Z <> api_admin (w_chain (mkWorld loaded_page drawn_state (Some 2%Z) true))) as Hn
    by (simpl; lia).
  assert (is_Some (dom (w_page (mkWorld loaded_page drawn_state (Some 2%Z) true)) !! TRIGGER_DRAW)) as Hb
    by (eexists; reflexivity).
  exact (proj1 (admin_buttons_guarded (fun _ => "") (fun _ => "") None (mkTxEnv 0 (fun _ _ => true))
    (served4 drawn_state) (mkWorld loaded_page drawn_state (Some 2%Z) true) 2%Z Ha Hn) Hb).
Defined.

Lemma connect_then_buy_witness :
  w_chain (buyTicket (fun _ => "") (fun _ => "") (Some "network error") None (mkTxEnv 0 (fun _ _ => true)) []
    (served4 drawn_state) (mkWorld loaded_page open_state None false)).1 = open_state.
Proof.
  assert (is_Some (dom (w_page (mkWorld loaded_page open_state None false)) !! BUY_TICKET)) as Hb
    by (eexists; reflexivity).
  assert (w_account (mkWorld loaded_page open_state None false) = None) as Ha by reflexivity.
  exact (proj1 (connect_then_buy (fun _ => "") (fun _ => "") (mkWorld loaded_page open_state None false)
    2%Z (Some "network error") (mkTxEnv 0 (fun _ _ => true)) [] (served4 drawn_state) (served4 drawn_state)
    (mkLottery 1 100 [2%Z] 100 None Open) (loaded_ready open_state None) Hb Ha)).
Defined.
