(* ===== verification/Panel.v ===== *)
(** * The detail panel of the pages (lottery.js [loadLotteryDetails])

    [loadLotteryDetails] awaits four separate reads of the contract
    (ticket price, entries, pool, winner, lines 162-165) and then writes
    the four elements of the panel.  Each read is answered by the chain
    as it is at that moment, so transactions of other accounts may land
    between them.  When one chain state answers all four reads, the
    panel agrees with the storage invariant of [Lottery]: the pool shown
    is the price times the number of entries shown.  When a purchase
    lands between the reads of the entries and of the pool, the panel
    shows a count and a pool that no storage ever had together. *)

From stdpp Require Import base list decidable strings gmap pretty.
From Stdlib Require Import ZArith Lia.
From S2P Require Import Prelude Api Lottery Js Dom Frontend Wallet.

Open Scope js_scope.

(** The text the page shows in element [id]. *)
Definition panel_text {S} (w : @World S) (id : nat) : option string :=
  el_text <$> dom (w_page w) !! id.

(** The panel's elements are in the page. *)
Definition panel_ready {S} (w : @World S) : Prop :=
  Forall (fun j => is_Some (dom (w_page w) !! j)) [TICKET_PRICE_EL; PARTICIPANTS_COUNT; PRIZE_POOL; WINNER_EL].

(** * Theorems *)

Section Panel.
Context {S : Type} {api : LotteryApi S}.
Variable formatEther : Z -> string.
Variable fmtAddress : Address -> string.
Local Abbreviation World := (@World S).

Lemma on_element_present id acc f (w : World) :
  is_Some (dom (w_page w) !! id) ->
  on_element w_page set_page (Some id) acc f w = (update_element w_page set_page id f w, Normal tt).
Proof. intros [e He]. apply (on_element_Some id acc f w e He). Qed.

Lemma update_text_lookup id s (w : World) :
  is_Some (dom (w_page w) !! id) ->
  panel_text (update_element w_page set_page id (fun e => mkElement s (el_classes e) (el_disabled e)) w) id = Some s.
Proof.
  intros [e He]. unfold panel_text. rewrite update_element_lookup, bool_decide_true, He by done. done.
Qed.

Lemma update_other_lookup id j f (w : World) :
  j <> id -> panel_text (update_element w_page set_page id f w) j = panel_text w j.
Proof. intros Hj. unfold panel_text. rewrite update_element_lookup, bool_decide_false by done. done. Qed.

(** The panel after four served reads. *)
Lemma details_served s1 s2 s3 s4 (w : World) :
  panel_ready w ->
  (loadLotteryDetails formatEther fmtAddress (Served s1) (Served s2) (Served s3) (Served s4)
     details_elements w).2 = Normal tt /\
  panel_text (loadLotteryDetails formatEther fmtAddress (Served s1) (Served s2) (Served s3) (Served s4)
     details_elements w).1 TICKET_PRICE_EL = Some (formatEther (api_ticketPrice s1)) /\
  panel_text (loadLotteryDetails formatEther fmtAddress (Served s1) (Served s2) (Served s3) (Served s4)
     details_elements w).1 PARTICIPANTS_COUNT = Some (pretty (length (api_getParticipants s2))) /\
  panel_text (loadLotteryDetails formatEther fmtAddress (Served s1) (Served s2) (Served s3) (Served s4)
     details_elements w).1 PRIZE_POOL = Some (formatEther (api_getPrizePool s3)) /\
  panel_text (loadLotteryDetails formatEther fmtAddress (Served s1) (Served s2) (Served s3) (Served s4)
     details_elements w).1 WINNER_EL =
    Some (if bool_decide (fmtAddress (api_winner s4) = ZERO_ADDRESS_STRING) then "Not drawn yet"
          else fmtAddress (api_winner s4)).
Proof.
  intros Hp. unfold panel_ready in Hp. rewrite !Forall_cons in Hp. destruct Hp as (H8 & H9 & H10 & H11 & _).
  unfold loadLotteryDetails, read, js_try_catch, set_text.
  do 4 erewrite js_bind_run by reflexivity.
  change (details_elements !! "ticketPriceEl") with (Some TICKET_PRICE_EL).
  change (details_elements !! "participantsCountEl") with (Some PARTICIPANTS_COUNT).
  change (details_elements !! "prizePoolEl") with (Some PRIZE_POOL).
  change (details_elements !! "winnerEl") with (Some WINNER_EL).
  rewrite bind_on_element by present. rewrite bind_on_element by present.
  rewrite bind_on_element by present. rewrite on_element_present by present.
  cbn [fst snd]. split; [done |].
  repeat split;
    repeat first [ rewrite update_text_lookup by present | rewrite update_other_lookup by done ];
    reflexivity.
Qed.

End Panel.

(** C33: When one chain state answers the four reads, the detail panel
    agrees with the storage: before the payout it shows the ticket
    price, the number of entries [n] and a pool of exactly the price
    times [n], as the contract's invariant guarantees. *)
Theorem panel_consistent formatEther fmtAddress (s : LotteryState) (w : @World LotteryState) :
  inv s -> panel_ready w -> phase s <> Distributed ->
  let w' := (loadLotteryDetails formatEther fmtAddress (Served s) (Served s) (Served s) (Served s)
               details_elements w).1 in
  panel_text w' TICKET_PRICE_EL = Some (formatEther (ticketPrice s)) /\
  panel_text w' PARTICIPANTS_COUNT = Some (pretty (length (participants s))) /\
  panel_text w' PRIZE_POOL = Some (formatEther (ticketPrice s * Z.of_nat (length (participants s)))).
Proof.
  intros [Hpool _ _ _ _] Hp Hph. cbv zeta.
  destruct (details_served formatEther fmtAddress s s s s w Hp) as (_ & Ht & Hc & Hpl & _).
  rewrite Ht, Hc, Hpl. cbn; unfold getPrizePool, getParticipants. split; [done | split; [done |]].
  unfold pool_accounted in Hpool. destruct (phase s); [| | done]; by rewrite Hpool.
Qed.

(** C34: The four reads of [loadLotteryDetails] are not atomic: when a
    purchase at the ticket price lands between the read of the entries
    and the read of the pool, the panel shows the old number of entries
    [n] next to the new pool, which is not the price times [n], though
    every storage the chain went through satisfies the invariant. *)
Theorem panel_interleaved_purchase formatEther fmtAddress (s s' : LotteryState) env b
  (w : @World LotteryState) :
  inv s -> panel_ready w -> 0 < ticketPrice s ->
  LifecycleController.receive env b (BuyTicket (ticketPrice s)) s = Ok (s', []) ->
  let w' := (loadLotteryDetails formatEther fmtAddress (Served s) (Served s) (Served s') (Served s')
               details_elements w).1 in
  panel_text w' PARTICIPANTS_COUNT = Some (pretty (length (participants s))) /\
  panel_text w' PRIZE_POOL = Some (formatEther (prizePool s')) /\
  prizePool s' <> ticketPrice s * Z.of_nat (length (participants s)) /\
  prizePool s' = ticketPrice s' * Z.of_nat (length (participants s')).
Proof.
  intros [Hpool _ _ _ _] Hp Hprice Hbuy. cbv zeta.
  destruct (details_served formatEther fmtAddress s s s' s' w Hp) as (_ & _ & Hc & Hpl & _).
  rewrite Hc, Hpl. cbn; unfold getPrizePool, getParticipants. split; [done | split; [done |]].
  apply receive_Ok in Hbuy as [_ (Hph & _ & _ & ->)%enter_Ok].
  unfold pool_accounted in Hpool. rewrite Hph in Hpool. simpl.
  rewrite length_app, Nat2Z.inj_add. simpl. lia.
Qed.

Lemma panel_consistent_witness :
  panel_text (loadLotteryDetails (fun _ => "") (fun _ => "") (Served drawn_state) (Served drawn_state)
    (Served drawn_state) (Served drawn_state) details_elements
    (mkWorld loaded_page drawn_state (Some 1%Z) true)).1 PARTICIPANTS_COUNT = Some (pretty 2%nat).
Proof.
  assert (inv drawn_state) as Hinv by exact inv_drawn_state.
  assert (panel_ready (mkWorld loaded_page drawn_state (Some 1%Z) true)) as Hp
    by (repeat constructor; eexists; reflexivity).
  assert (phase drawn_state <> Distributed) as Hph by discriminate.
  exact (proj1 (proj2 (panel_consistent (fun _ => "") (fun _ => "") drawn_state
    (mkWorld loaded_page drawn_state (Some 1%Z) true) Hinv Hp Hph))).
Defined.

Lemma panel_interleaved_purchase_witness :
  prizePool (mkLottery 1 100 [2%Z] 100 None Open) <>
    ticketPrice open_state * Z.of_nat (length (participants open_state)).
Proof.
  assert (inv open_state) as Hinv.
  { split; unfold pool_accounted, winner_consistent, uint256, address160, UINT256_BOUND, ADDRESS_BOUND;
      simpl; lia. }
  assert (panel_ready (mkWorld loaded_page open_state (Some 1%Z) true)) as Hp
    by (repeat constructor; eexists; reflexivity).
  assert (0 < ticketPrice open_state) as Hpr by (simpl; lia).
  assert (LifecycleController.receive (mkTxEnv 0 (fun _ _ => true)) 2%Z (BuyTicket (ticketPrice open_state))
    open_state = Ok (mkLottery 1 100 [2%Z] 100 None Open, [])) as Hb by reflexivity.
  exact (proj1 (proj2 (proj2 (panel_interleaved_purchase (fun _ => "") (fun _ => "") open_state
    (mkLottery 1 100 [2%Z] 100 None Open) (mkTxEnv 0 (fun _ _ => true)) 2%Z
    (mkWorld loaded_page open_state (Some 1%Z) true) Hinv Hp Hpr Hb)))).
Defined.
